(** * Nomada tickets backend: pricing, reconciliation store, webhook,
      order query and checkout, embedded from the TypeScript sources.

    JavaScript numbers are IEEE-754 binary64 values: they are modelled by
    Rocq's primitive floats, whose operations are the binary64 operations
    with round-to-nearest-even.  The [Map] and [Set] of the in-memory store
    are stdpp's [gmap] and [gset] over strings.  Route handlers are written
    in a small state-and-trace monad: the state is the store, the trace is
    the sequence of store operations and calls to external collaborators
    (payment processor, random source, clock, image renderer) in the order
    the handler performs them.  Console output is not modelled.  Strings
    are sequences of 8-bit characters. *)

From Stdlib Require Import ZArith Floats Uint63 Ascii.
From Stdlib.Strings Require Import Byte.
From stdpp Require Import gmap strings list fin_maps.

Set Warnings "-inexact-float".

Local Open Scope Z_scope.

(** ** JavaScript numbers *)

Module JsNumber.

(** The Number nearest to the integer [z], ties to even (how an integer
    literal or a JSON integer becomes a Number).  Exact for |z| <= 2^53.
    Below 2^63 = 9223372036854775808 in magnitude the conversion is the
    primitive one from 63-bit integers. *)
Definition of_Z (z : Z) : float :=
  if (0 <=? z) && (z <? 9223372036854775808)
  then PrimFloat.of_uint63 (Uint63.of_Z z)
  else if (-9223372036854775808 <? z) && (z <? 0)
       then (- PrimFloat.of_uint63 (Uint63.of_Z (- z)))%float
       else SF2Prim (binary_normalize prec emax z 0 false).

(** [Math.round(x)]: the integral Number closest to [x], a tie going to
    the one closer to +Infinity; NaN, infinities and zeros are returned as
    they are; a result of zero keeps the sign of [x].  A finite binary64
    value is [(-1)^s * m * 2^e]: with [0 <= e] it is an integer already,
    otherwise the result is floor(x + 1/2), computed on integers. *)
Definition Math_round (x : float) : float :=
  match Prim2SF x with
  | S754_finite s m e =>
      if 0 <=? e then x
      else
        let n := if s then Z.neg m else Z.pos m in
        let z := Z.shiftr (2 * n + Z.shiftl 1 (- e)) (- e + 1) in
        if z =? 0 then (if s then (- 0)%float else 0%float) else of_Z z
  | _ => x
  end.

(** [Number.isInteger(x)]: [x] is finite and has no fractional part. *)
Definition Number_isInteger (x : float) : bool :=
  match Prim2SF x with
  | S754_zero _ => true
  | S754_finite _ m e =>
      (0 <=? e) || (Z.land (Z.pos m) (Z.ones (- e)) =? 0)
  | _ => false
  end.

(** The mathematical value of an integral Number ([None] for a Number
    that is not an integer). *)
Definition to_Z (x : float) : option Z :=
  match Prim2SF x with
  | S754_zero _ => Some 0
  | S754_finite s m e =>
      if Number_isInteger x
      then Some (Z.shiftl (if s then Z.neg m else Z.pos m) e)
      else None
  | _ => None
  end.

End JsNumber.

(** ** Pricing service (src/services/pricingService.ts) *)

Module Pricing.
Import JsNumber.

Definition FEMALE_TICKET_PRICE : float := 1.00%float.
Definition MALE_TICKET_PRICE : float := 2.00%float.
Definition FEE_PERCENTAGE : float := 0.08%float.

Record PricingResult := {
  subtotal : float;
  fee : float;
  total : float
}.

Definition calculatePricing (femaleQty maleQty : float) : PricingResult :=
  let subtotal :=
    (femaleQty * FEMALE_TICKET_PRICE + maleQty * MALE_TICKET_PRICE)%float in
  let fee := (Math_round (subtotal * FEE_PERCENTAGE * 100) / 100)%float in
  let total := (subtotal + fee)%float in
  {| subtotal := subtotal; fee := fee; total := total |}.

Definition dollarsToCents (dollars : float) : float :=
  Math_round (dollars * 100)%float.

(** *** The price breakdown in the words of the specification

    Exact decimal arithmetic, amounts in cents: a subtotal of
    [femaleQty * 1.00 + maleQty * 2.00] dollars, a fee of 8% of it rounded
    to two decimals (half up), their sum, and the sum in minor units. *)

Definition round_div (a b : Z) : Z := (2 * a + b) / (2 * b).

Definition spec_subtotal_cents (femaleQty maleQty : Z) : Z :=
  femaleQty * 100 + maleQty * 200.
Definition spec_fee_cents (femaleQty maleQty : Z) : Z :=
  round_div (spec_subtotal_cents femaleQty maleQty * 8) 100.
Definition spec_total_cents (femaleQty maleQty : Z) : Z :=
  spec_subtotal_cents femaleQty maleQty + spec_fee_cents femaleQty maleQty.

(** The Number that stands for an amount of [c] cents in dollars: the
    binary64 value nearest to the decimal [c / 100]. *)
Definition dollars_of_cents (c : Z) : float := (of_Z c / 100)%float.

(** The calculator agrees with the specification at [femaleQty, maleQty]:
    the subtotal is exactly [femaleQty * 1 + maleQty * 2] dollars, the fee
    is the Number of the exact two-decimal fee, the total is the (binary64)
    sum of the two, and its minor-unit amount is exactly the total of the
    specification in cents. *)
Definition pricing_agrees (femaleQty maleQty : Z) : Prop :=
  let p := calculatePricing (of_Z femaleQty) (of_Z maleQty) in
  to_Z (subtotal p) = Some (femaleQty * 1 + maleQty * 2)
  /\ fee p = dollars_of_cents (spec_fee_cents femaleQty maleQty)
  /\ total p = (subtotal p + fee p)%float
  /\ to_Z (dollarsToCents (total p))
     = Some (spec_total_cents femaleQty maleQty).

(** The example of the specification, on the Numbers that the decimal
    literals 4.00, 0.32, 4.32 and 432 denote. *)
Definition pricing_example : Prop :=
  calculatePricing 2 1
  = {| subtotal := 4.00; fee := 0.32; total := 4.32 |}
  /\ dollarsToCents (total (calculatePricing 2 1)) = 432%float.

End Pricing.

(** ** JavaScript strings *)

Module JsString.
Import JsNumber.

Local Open Scope string_scope.

(** Truthiness of a possibly undefined string: [undefined] and the empty
    string are falsy. *)
Definition truthy (v : option string) : bool :=
  match v with
  | None => false
  | Some s => negb (String.eqb s "")
  end.

(** [v || d] for a possibly undefined string [v]. *)
Definition or_default (v : option string) (d : string) : string :=
  match v with
  | Some s => if String.eqb s "" then d else s
  | None => d
  end.

(** [s.startsWith(p)] *)
Definition startsWith (s p : string) : bool := String.prefix p s.

Definition char_code (c : ascii) : Z := Z.of_nat (nat_of_ascii c).

(** White space and line terminators among the 8-bit characters. *)
Definition is_white_space (c : ascii) : bool :=
  let n := char_code c in
  (((9 <=? n) && (n <=? 13)) || (n =? 32) || (n =? 160))%Z.

Fixpoint trim_start (s : string) : string :=
  match s with
  | String c r => if is_white_space c then trim_start r else s
  | EmptyString => s
  end.

Definition digit_value (c : ascii) : option Z :=
  let n := char_code c in
  if ((48 <=? n) && (n <=? 57))%Z then Some (n - 48) else None.

(** Value of the longest prefix of decimal digits; [acc] is the value
    read so far, [None] while no digit has been read. *)
Fixpoint digits_prefix (s : string) (acc : option Z) : option Z :=
  match s with
  | String c r =>
      match digit_value c with
      | Some d => digits_prefix r (Some (10 * default 0 acc + d))
      | None => acc
      end
  | EmptyString => acc
  end.

(** [parseInt(s, 10)]: leading white space is skipped, one sign is read,
    then the longest run of decimal digits; no digit gives NaN.  The
    integer read is converted to the nearest Number. *)
Definition parseInt10 (s : string) : float :=
  let t := trim_start s in
  let '(negative, t) :=
    match t with
    | String "-" r => (true, r)
    | String "+" r => (false, r)
    | _ => (false, t)
    end in
  match digits_prefix t None with
  | None => nan
  | Some n =>
      if (n =? 0)%Z then (if negative then (- 0)%float else 0%float)
      else of_Z (if negative then - n else n)
  end.

Definition hex_digit (n : N) : ascii :=
  match String.get (N.to_nat n) "0123456789abcdef" with
  | Some c => c
  | None => "0"%char
  end.

Definition hex_of_byte (b : byte) : string :=
  let n := Byte.to_N b in
  String (hex_digit (n / 16)%N) (String (hex_digit (n mod 16)%N) EmptyString).

(** [buffer.toString('hex')] *)
Fixpoint toString_hex (bytes : list byte) : string :=
  match bytes with
  | [] => ""
  | b :: r => hex_of_byte b ++ toString_hex r
  end.

End JsString.

(** ** Printing Numbers *)

Module JsFormat.

Definition digit_char (d : Z) : ascii := ascii_of_nat (48 + Z.to_nat d).

(** The decimal digits of [n], most significant first, put in front of
    [rest]; [fuel] bounds the number of digits. *)
Fixpoint decimal_digits (fuel : nat) (n : Z) (rest : string) : string :=
  match fuel with
  | O => rest
  | S k =>
      let rest' := String (digit_char (n mod 10)) rest in
      if n <? 10 then rest' else decimal_digits k (n / 10) rest'
  end.

(** [x.toString()] for a Number [x] that is a non-negative integer [z] up
    to 2^53, the range in which every integer is a Number and is printed
    with all its digits. *)
Definition Number_toString_integer (z : Z) : string :=
  decimal_digits (S (Z.to_nat (Z.log2 z))) z "".

End JsFormat.

(** ** Data model (orderStore.ts) and external collaborators *)

Inductive OrderStatus := valid | used | cancelled.

Record Order := {
  paymentIntentId : string;
  qrToken : string;
  status : OrderStatus;
  createdAt : Z;            (* a Date, as milliseconds since the epoch *)
  femaleQty : float;
  maleQty : float
}.

(** The state of [InMemoryOrderStore]: [orders] is its [Map] from
    PaymentIntent id to Order, [processedPaymentIntents] its [Set]. *)
Record Store := {
  orders : gmap string Order;
  processedPaymentIntents : gset string
}.

Definition empty_store : Store :=
  {| orders := ∅; processedPaymentIntents := ∅ |}.

(** The part of a Stripe PaymentIntent that the service reads. *)
Record PaymentIntent := {
  id : string;
  client_secret : option string;
  metadata : gmap string string
}.

(** A verified Stripe event; [data_object] is [event.data.object], which the
    webhook route reads as a PaymentIntent for [payment_intent.succeeded]. *)
Record StripeEvent := {
  event_id : string;
  event_type : string;
  data_object : PaymentIntent
}.

Record PaymentIntentCreateParams := {
  amount : float;
  currency : string;
  automatic_payment_methods_enabled : bool;
  create_metadata : list (string * string)
}.

(** Outcome of [stripe.paymentIntents.create]: the intent, or a thrown
    value; [has_type] tells whether it is an [Error] with a [type] property. *)
Inductive CreateOutcome :=
| Created (paymentIntent : PaymentIntent)
| Thrown (has_type : bool).

(** What the world outside the handlers answers during one request.  A
    result of [None] stands for a thrown exception. *)
Record Env := {
  STRIPE_WEBHOOK_SECRET : option string;
  constructEvent : list byte -> string -> string -> option StripeEvent;
  entropy : nat -> byte;
  now : Z;
  toDataURL : string -> option string;
  paymentIntents_create : PaymentIntentCreateParams -> CreateOutcome;
  Number_toString : float -> string
}.

(** Store operations and calls to collaborators, as a handler performs
    them. *)
Inductive Effect :=
| ESaveOrder (order : Order)
| EGetOrder (paymentIntentId : string)
| EIsProcessed (paymentIntentId : string)
| EMarkProcessed (paymentIntentId : string)
| EConstructEvent (payload : list byte) (signature secret : string)
| ERandomBytes (size : nat)
| ENewDate
| EToDataURL (token : string)
| EPaymentIntentsCreate (params : PaymentIntentCreateParams).

(** ** Handlers: state of the store and trace of effects *)

Record Outcome (A : Type) := mkOutcome {
  value : A;
  store_after : Store;
  trace : list Effect
}.
Arguments mkOutcome {A} _ _ _.
Arguments value {A} _.
Arguments store_after {A} _.
Arguments trace {A} _.

Definition M (A : Type) : Type := Store -> Outcome A.

Definition ret {A} (a : A) : M A := fun s => mkOutcome a s [].

Definition bind {A B} (m : M A) (k : A -> M B) : M B :=
  fun s =>
    let r := m s in
    let r' := k (value r) (store_after r) in
    mkOutcome (value r') (store_after r') (trace r ++ trace r').

(** A call to a collaborator: recorded, the store untouched. *)
Definition call {A} (e : Effect) (result : A) : M A :=
  fun s => mkOutcome result s [e].

Declare Scope handler_scope.
Delimit Scope handler_scope with handler.
Notation "'do' x <- m ; k" := (bind m (fun x => k))
  (at level 10, x name, m at level 100, k at level 200) : handler_scope.
Local Open Scope handler_scope.

(** ** In-memory order store (inMemoryOrderStore.ts) *)

Module InMemoryOrderStore.

Definition saveOrder (order : Order) : M unit :=
  fun s =>
    mkOutcome tt
      {| orders := <[paymentIntentId order := order]> (orders s);
         processedPaymentIntents := processedPaymentIntents s |}
      [ESaveOrder order].

(** [order || null]: an Order object is truthy, so the result is the
    entry of the map when there is one. *)
Definition getOrderByPaymentIntentId (paymentIntentId : string)
  : M (option Order) :=
  fun s => mkOutcome (orders s !! paymentIntentId) s [EGetOrder paymentIntentId].

Definition isPaymentIntentProcessed (paymentIntentId : string) : M bool :=
  fun s =>
    mkOutcome (bool_decide (paymentIntentId ∈ processedPaymentIntents s)) s
      [EIsProcessed paymentIntentId].

Definition markPaymentIntentProcessed (paymentIntentId : string) : M unit :=
  fun s =>
    mkOutcome tt
      {| orders := orders s;
         processedPaymentIntents :=
           {[paymentIntentId]} ∪ processedPaymentIntents s |}
      [EMarkProcessed paymentIntentId].

End InMemoryOrderStore.

(** ** QR service (qrService.ts) *)

Module QrService.
Import JsString.

(** [crypto.randomBytes(size)] *)
Definition randomBytes (env : Env) (size : nat) : M (list byte) :=
  call (ERandomBytes size) (map (entropy env) (seq 0 size)).

Definition generateQRToken (env : Env) : M string :=
  do bytes <- randomBytes env 32;
  ret (toString_hex bytes).

(** [None]: the renderer threw, and the service rethrows. *)
Definition generateQRCodeDataUrl (env : Env) (token : string)
  : M (option string) :=
  call (EToDataURL token) (toDataURL env token).

End QrService.

(** ** HTTP responses *)

Inductive ResponseBody :=
| BodyError (error : string)
| BodyErrorMessage (error message : string)
| BodyReceived
| BodyPending
| BodyReady (qrToken qrImageDataUrl : string)
| BodyValidationFailed (details : list (string * string))
| BodyIntentCreated (clientSecret : option string) (paymentIntentId : string)
    (pricing : Pricing.PricingResult).

Record Response := {
  statusCode : Z;
  body : ResponseBody
}.

Definition reply (code : Z) (b : ResponseBody) : M Response :=
  ret {| statusCode := code; body := b |}.

(** ** Stripe plugin (plugins/stripe.ts) *)

Module StripePlugin.
Import JsString.

(** [None] when the secret is not configured or the library rejects the
    signature: in both cases the function throws. *)
Definition verifyWebhookSignature (env : Env) (payload : list byte)
    (signature : string) : M (option StripeEvent) :=
  match STRIPE_WEBHOOK_SECRET env with
  | Some webhookSecret =>
      if String.eqb webhookSecret "" then ret None
      else call (EConstructEvent payload signature webhookSecret)
             (constructEvent env payload signature webhookSecret)
  | None => ret None
  end.

End StripePlugin.

(** ** Webhook route (routes/webhook.ts) *)

Module Webhook.
Import JsString InMemoryOrderStore QrService StripePlugin.

Record Request := {
  rawBody : list byte;
  stripe_signature : option string   (* request.headers['stripe-signature'] *)
}.

Definition newDate (env : Env) : M Z := call ENewDate (now env).

Definition handlePaymentIntentSucceeded (env : Env)
    (paymentIntent : PaymentIntent) : M unit :=
  let paymentIntentId := id paymentIntent in
  do alreadyProcessed <- isPaymentIntentProcessed paymentIntentId;
  if alreadyProcessed : bool then ret tt
  else
    do _ <- markPaymentIntentProcessed paymentIntentId;
    let metadata := metadata paymentIntent in
    let femaleQty := parseInt10 (or_default (metadata !! "femaleQty") "0") in
    let maleQty := parseInt10 (or_default (metadata !! "maleQty") "0") in
    do qrToken <- generateQRToken env;
    do createdAt <- newDate env;
    saveOrder {| paymentIntentId := paymentIntentId;
                 qrToken := qrToken;
                 status := valid;
                 createdAt := createdAt;
                 femaleQty := femaleQty;
                 maleQty := maleQty |}.

(** POST /api/webhooks/stripe *)
Definition post (env : Env) (request : Request) : M Response :=
  let signature := stripe_signature request in
  if negb (truthy signature)
  then reply 400 (BodyError "Missing stripe-signature header")
  else
    do verified <-
      verifyWebhookSignature env (rawBody request) (default "" signature);
    match verified with
    | None => reply 400 (BodyError "Webhook signature verification failed")
    | Some event =>
        do _ <- (if String.eqb (event_type event) "payment_intent.succeeded"
                 then handlePaymentIntentSucceeded env (data_object event)
                 else ret tt);
        reply 200 BodyReceived
    end.

End Webhook.

(** ** Order query route (routes/orders.ts) *)

Module Orders.
Import JsString InMemoryOrderStore QrService.

(** GET /api/orders/:paymentIntentId/qr *)
Definition getQr (env : Env) (paymentIntentId : string) : M Response :=
  if negb (truthy (Some paymentIntentId))
     || negb (startsWith paymentIntentId "pi_")
  then reply 400 (BodyError "Invalid PaymentIntent ID format")
  else
    do order <- getOrderByPaymentIntentId paymentIntentId;
    match order with
    | None => reply 200 BodyPending
    | Some order =>
        do qrImageDataUrl <- generateQRCodeDataUrl env (qrToken order);
        match qrImageDataUrl with
        | Some url => reply 200 (BodyReady (qrToken order) url)
        | None => reply 500 (BodyError "Failed to generate QR code")
        end
    end.

End Orders.

(** ** Checkout route (routes/checkout.ts) *)

(** A request body as the JSON parser hands it over. *)
#[local] Unset Elimination Schemes.
Inductive JsValue :=
| JsUndefined
| JsNull
| JsBoolean (b : bool)
| JsNumber (x : float)
| JsString (s : string)
| JsArray (items : list JsValue)
| JsObject (props : list (string * JsValue)).
#[local] Set Elimination Schemes.

Module Zod.
Import JsNumber JsString.

(** [data[key]] on the properties of an object. *)
Fixpoint get (props : list (string * JsValue)) (key : string) : JsValue :=
  match props with
  | [] => JsUndefined
  | (k, v) :: r => if String.eqb k key then v else get r key
  end.

Definition is_nan (x : float) : bool := negb (PrimFloat.eqb x x).

(** zod's [getParsedType] *)
Definition parsedType (v : JsValue) : string :=
  match v with
  | JsUndefined => "undefined"
  | JsNull => "null"
  | JsBoolean _ => "boolean"
  | JsNumber x => if is_nan x then "nan" else "number"
  | JsString _ => "string"
  | JsArray _ => "array"
  | JsObject _ => "object"
  end.

Inductive IssueCode :=
| invalid_type (expected received : string)
| invalid_enum_value (received : string)
| too_small
| custom.

Record Issue := {
  path : list string;
  code : IssueCode;
  message : string
}.

(** Messages of zod's default error map. *)
Definition default_message (c : IssueCode) : string :=
  match c with
  | invalid_type expected received =>
      if String.eqb received "undefined" then "Required"
      else "Expected " ++ expected ++ ", received " ++ received
  | invalid_enum_value received =>
      "Invalid enum value. Expected 'en' | 'es' | 'pt-BR', received '"
      ++ received ++ "'"
  | too_small => "Number must be greater than or equal to 0"
  | custom => "Invalid input"
  end.

Definition issue (p : list string) (c : IssueCode) (msg : option string)
  : Issue :=
  {| path := p; code := c; message := default (default_message c) msg |}.

(** Result of parsing one value: [Parsed v issues] carries the value and
    the issues of failed checks (status valid when there is none, dirty
    otherwise); [Aborted issues] carries no value. *)
Inductive Parse (A : Type) :=
| Parsed (v : A) (issues : list Issue)
| Aborted (issues : list Issue).
Arguments Parsed {A} _ _.
Arguments Aborted {A} _.

Definition issues_of {A} (r : Parse A) : list Issue :=
  match r with
  | Parsed _ i => i
  | Aborted i => i
  end.

(** [z.number().int().min(0, message)] at property [key] *)
Definition parse_quantity (key message : string) (v : JsValue)
  : Parse float :=
  match v with
  | JsNumber x =>
      if is_nan x
      then Aborted [issue [key] (invalid_type "number" "nan") None]
      else
        Parsed x
          ((if Number_isInteger x then []
            else [issue [key] (invalid_type "integer" "float") None])
           ++ (if PrimFloat.ltb x 0 then [issue [key] too_small (Some message)]
               else []))
  | _ => Aborted [issue [key] (invalid_type "number" (parsedType v)) None]
  end.

Definition languages : list string := ["en"; "es"; "pt-BR"].

(** [z.enum(['en', 'es', 'pt-BR']).default('en')] at property [key] *)
Definition parse_language (key : string) (v : JsValue) : Parse string :=
  let v := match v with JsUndefined => JsString "en" | _ => v end in
  match v with
  | JsString s =>
      if existsb (String.eqb s) languages then Parsed s []
      else Aborted [issue [key] (invalid_enum_value s) None]
  | _ =>
      Aborted [issue [key]
                 (invalid_type "'en' | 'es' | 'pt-BR'" (parsedType v)) None]
  end.

Record CreateIntentBody := {
  body_femaleQty : float;
  body_maleQty : float;
  body_language : string
}.

(** The [z.object({...})] of [createIntentSchema]: every property is
    parsed and all issues are collected; one aborted property aborts the
    object. *)
Definition parse_object (v : JsValue) : Parse CreateIntentBody :=
  match v with
  | JsObject props =>
      let f := parse_quantity "femaleQty" "Female quantity cannot be negative"
                 (get props "femaleQty") in
      let m := parse_quantity "maleQty" "Male quantity cannot be negative"
                 (get props "maleQty") in
      let l := parse_language "language" (get props "language") in
      let issues := issues_of f ++ issues_of m ++ issues_of l in
      match f, m, l with
      | Parsed fq _, Parsed mq _, Parsed lang _ =>
          Parsed {| body_femaleQty := fq; body_maleQty := mq;
                    body_language := lang |} issues
      | _, _, _ => Aborted issues
      end
  | _ => Aborted [issue [] (invalid_type "object" (parsedType v)) None]
  end.

(** The refinement of [createIntentSchema] *)
Definition at_least_one_ticket (data : CreateIntentBody) : bool :=
  PrimFloat.ltb 0 (body_femaleQty data) || PrimFloat.ltb 0 (body_maleQty data).

(** [createIntentSchema]: the refinement runs on the value of the object
    unless the object aborted. *)
Definition createIntentSchema (v : JsValue) : Parse CreateIntentBody :=
  match parse_object v with
  | Parsed data issues =>
      Parsed data
        (issues ++
           (if at_least_one_ticket data then []
            else [issue [] custom
                    (Some "At least one ticket must be selected")]))
  | Aborted issues => Aborted issues
  end.

(** [schema.safeParse(data)]: success with the value when no issue was
    raised, the issues otherwise. *)
Definition safeParse {A} (schema : JsValue -> Parse A) (data : JsValue)
  : A + list Issue :=
  match schema data with
  | Parsed v [] => inl v
  | Parsed _ issues => inr issues
  | Aborted issues => inr issues
  end.

(** [path.join('.')] *)
Fixpoint join_path (p : list string) : string :=
  match p with
  | [] => ""
  | [x] => x
  | x :: r => x ++ "." ++ join_path r
  end.

End Zod.

Module Checkout.
Import JsNumber Pricing Zod.

(** POST /api/checkout/create-intent *)
Definition createIntent (env : Env) (requestBody : JsValue) : M Response :=
  match safeParse createIntentSchema requestBody with
  | inr errors =>
      reply 400
        (BodyValidationFailed
           (map (fun e => (join_path (path e), message e)) errors))
  | inl data =>
      let femaleQty := body_femaleQty data in
      let maleQty := body_maleQty data in
      let language := body_language data in
      let pricing := calculatePricing femaleQty maleQty in
      let amountInCents := dollarsToCents (total pricing) in
      let params :=
        {| amount := amountInCents;
           currency := "cad";
           automatic_payment_methods_enabled := true;
           create_metadata :=
             [("femaleQty", Number_toString env femaleQty);
              ("maleQty", Number_toString env maleQty);
              ("subtotal", Number_toString env (subtotal pricing));
              ("fee", Number_toString env (fee pricing));
              ("language", language)] |} in
      do outcome <-
        call (EPaymentIntentsCreate params) (paymentIntents_create env params);
      match outcome with
      | Created paymentIntent =>
          reply 200
            (BodyIntentCreated (client_secret paymentIntent)
               (id paymentIntent) pricing)
      | Thrown true =>
          reply 500
            (BodyErrorMessage "Payment service error"
               "Failed to create payment. Please try again.")
      | Thrown false =>
          reply 500
            (BodyErrorMessage "Internal server error"
               "An unexpected error occurred.")
      end
  end.

End Checkout.

(** ** Server configuration (server.ts) *)

Module Server.
Import JsString.



End Server.

(** ** Rate limit plugin (plugins/rateLimit.ts) *)

Module RateLimit.
Import JsNumber.

Definition max : Z := 100.

(** The time window in milliseconds. *)
Definition timeWindow : Z := 60 * 1000.

Record ErrorResponse := {
  statusCode : Z;
  error : string;
  message : string
}.

(** [errorResponseBuilder(request, context)], which reads [context.ttl],
    the milliseconds until the limit is lifted; [toString] is the
    conversion of a Number to a string that the template literal applies. *)
Definition errorResponseBuilder (toString : float -> string) (ttl : float)
  : ErrorResponse :=
  {| statusCode := 429;
     error := "Too Many Requests";
     message :=
       "Rate limit exceeded. Try again in "
       ++ toString (Math_round (ttl / 1000)%float) ++ " seconds." |}.

End RateLimit.

(** ** The service: requests against the shared store *)

Inductive Request :=
| PostWebhook (request : Webhook.Request)
| GetOrderQr (paymentIntentId : string)
| PostCreateIntent (requestBody : JsValue).

Definition handle (env : Env) (r : Request) : M Response :=
  match r with
  | PostWebhook request => Webhook.post env request
  | GetOrderQr paymentIntentId => Orders.getQr env paymentIntentId
  | PostCreateIntent requestBody => Checkout.createIntent env requestBody
  end.

(** Stores the service can be in: the empty store of a fresh process, and
    the store after any request handled in a reachable store. *)
Inductive reachable : Store -> Prop :=
| reachable_start : reachable empty_store
| reachable_step env r s :
    reachable s -> reachable (store_after (handle env r s)).

(** * Properties *)

(** ** The store: one Order per PaymentIntent id *)

Module StoreFacts.
Import InMemoryOrderStore.

(** The Orders of the store that carry the identifier [pid]. *)
Definition orders_with_id (pid : string) (s : Store) : list Order :=
  filter (fun o => paymentIntentId o = pid) (snd <$> map_to_list (orders s)).

Definition order_count (pid : string) (s : Store) : nat :=
  length (orders_with_id pid s).

(** Every Order is filed under its own identifier. *)
Definition keyed_by_id (s : Store) : Prop :=
  forall k o, orders s !! k = Some o -> paymentIntentId o = k.

(** What an effect does to the store: the two writing operations of the
    store change it, everything else leaves it as it is. *)
Definition apply_effect (s : Store) (e : Effect) : Store :=
  match e with
  | ESaveOrder o => store_after (saveOrder o s)
  | EMarkProcessed pid => store_after (markPaymentIntentProcessed pid s)
  | EGetOrder pid => store_after (getOrderByPaymentIntentId pid s)
  | EIsProcessed pid => store_after (isPaymentIntentProcessed pid s)
  | _ => s
  end.

Definition replay (tr : list Effect) (s : Store) : Store :=
  fold_left apply_effect tr s.

Lemma count_in_keyed_map (pid : string) (m : gmap string Order) :
  (forall k o, m !! k = Some o -> paymentIntentId o = k) ->
  length (filter (fun o => paymentIntentId o = pid) (snd <$> map_to_list m))
  = match m !! pid with Some _ => 1%nat | None => 0%nat end.
Proof.
  induction m as [|k o m Hfresh Hfirst IH] using map_first_key_ind.
  - intros _. rewrite map_to_list_empty. reflexivity.
  - intros Hkeyed.
    rewrite map_to_list_insert_first_key by assumption.
    assert (Hko : paymentIntentId o = k)
      by (apply Hkeyed; apply lookup_insert_eq).
    assert (Hm : forall k' o', m !! k' = Some o' -> paymentIntentId o' = k').
    { intros k' o' Hl. apply Hkeyed.
      rewrite lookup_insert_ne; [exact Hl|]. intros ->. congruence. }
    specialize (IH Hm).
    rewrite fmap_cons, filter_cons. simpl.
    destruct (decide (paymentIntentId o = pid)) as [Heq|Hne].
    + assert (k = pid) as -> by congruence.
      rewrite lookup_insert_eq. simpl. rewrite IH, Hfresh. reflexivity.
    + rewrite lookup_insert_ne by congruence. exact IH.
Qed.

Lemma order_count_keyed (pid : string) (s : Store) :
  keyed_by_id s ->
  order_count pid s
  = match orders s !! pid with Some _ => 1%nat | None => 0%nat end.
Proof. apply count_in_keyed_map. Qed.

Lemma keyed_empty : keyed_by_id empty_store.
Proof. intros k o H. cbn in H. rewrite lookup_empty in H. discriminate. Qed.

Lemma keyed_saveOrder (o : Order) (s : Store) :
  keyed_by_id s -> keyed_by_id (store_after (saveOrder o s)).
Proof.
  intros Hs k o'. cbn.
  destruct (decide (paymentIntentId o = k)) as [<-|Hne].
  - rewrite lookup_insert_eq. congruence.
  - rewrite lookup_insert_ne by assumption. apply Hs.
Qed.

Lemma keyed_apply_effect (e : Effect) (s : Store) :
  keyed_by_id s -> keyed_by_id (apply_effect s e).
Proof.
  destruct e; cbn [apply_effect]; try (intros H; exact H).
  apply keyed_saveOrder.
Qed.

Lemma keyed_replay (tr : list Effect) (s : Store) :
  keyed_by_id s -> keyed_by_id (replay tr s).
Proof.
  revert s. induction tr as [|e tr IH]; intros s Hs; [exact Hs|].
  cbn. apply IH, keyed_apply_effect, Hs.
Qed.

End StoreFacts.

(** ** What each handler does to the store *)

Module HandlerFacts.
Import JsString InMemoryOrderStore QrService StripePlugin StoreFacts.

(** The Order that the finalization step files for a PaymentIntent. *)
Definition new_order (env : Env) (paymentIntent : PaymentIntent) : Order :=
  {| paymentIntentId := id paymentIntent;
     qrToken := toString_hex (map (entropy env) (seq 0 32));
     status := valid;
     createdAt := now env;
     femaleQty :=
       parseInt10 (or_default (metadata paymentIntent !! "femaleQty") "0");
     maleQty :=
       parseInt10 (or_default (metadata paymentIntent !! "maleQty") "0") |}.

Lemma succeeded_already_processed env paymentIntent s :
  id paymentIntent ∈ processedPaymentIntents s ->
  Webhook.handlePaymentIntentSucceeded env paymentIntent s
  = mkOutcome tt s [EIsProcessed (id paymentIntent)].
Proof.
  intros Hin. unfold Webhook.handlePaymentIntentSucceeded, bind.
  cbn. rewrite bool_decide_eq_true_2 by assumption. reflexivity.
Qed.

Lemma succeeded_not_yet_processed env paymentIntent s :
  id paymentIntent ∉ processedPaymentIntents s ->
  Webhook.handlePaymentIntentSucceeded env paymentIntent s
  = mkOutcome tt
      {| orders :=
           <[id paymentIntent := new_order env paymentIntent]> (orders s);
         processedPaymentIntents :=
           {[id paymentIntent]} ∪ processedPaymentIntents s |}
      [EIsProcessed (id paymentIntent);
       EMarkProcessed (id paymentIntent);
       ERandomBytes 32;
       ENewDate;
       ESaveOrder (new_order env paymentIntent)].
Proof.
  intros Hnotin. unfold Webhook.handlePaymentIntentSucceeded, bind.
  cbn. rewrite bool_decide_eq_false_2 by assumption. reflexivity.
Qed.

(** The request carries a signature that the processor's library accepts
    under the configured secret, and the verified event is [event]. *)
Definition signature_verifies (env : Env) (request : Webhook.Request)
    (event : StripeEvent) : Prop :=
  exists signature secret,
    Webhook.stripe_signature request = Some signature
    /\ signature <> ""
    /\ STRIPE_WEBHOOK_SECRET env = Some secret
    /\ secret <> ""
    /\ constructEvent env (Webhook.rawBody request) signature secret
       = Some event.

(** The signature header is absent (or empty), or verification throws. *)
Definition signature_rejected (env : Env) (request : Webhook.Request)
    (s : Store) : Prop :=
  truthy (Webhook.stripe_signature request) = false
  \/ exists signature,
       Webhook.stripe_signature request = Some signature
       /\ value (verifyWebhookSignature env (Webhook.rawBody request)
                   signature s) = None.

Lemma verify_store env payload signature s :
  store_after (verifyWebhookSignature env payload signature s) = s.
Proof.
  unfold verifyWebhookSignature.
  destruct (STRIPE_WEBHOOK_SECRET env) as [secret|]; [|reflexivity].
  destruct (String.eqb secret ""); reflexivity.
Qed.

Lemma eqb_empty_false (x : string) : x <> "" -> String.eqb x "" = false.
Proof. intros H. apply String.eqb_neq. exact H. Qed.

Lemma post_rejected env request s :
  signature_rejected env request s ->
  store_after (Webhook.post env request s) = s
  /\ statusCode (value (Webhook.post env request s)) = 400
  /\ forall e, e ∈ trace (Webhook.post env request s) ->
       exists payload signature secret,
         e = EConstructEvent payload signature secret.
Proof.
  unfold signature_rejected, Webhook.post.
  intros [Hmissing|(signature & Hsig & Hthrows)].
  - rewrite Hmissing. cbn. repeat split. intros e He. inversion He.
  - rewrite Hsig in *. change (default "" (Some signature)) with signature.
    destruct (truthy (Some signature)); cbn [negb].
    + unfold bind. cbv zeta. rewrite Hthrows. cbn. rewrite verify_store.
      repeat split. intros e He. rewrite app_nil_r in He.
      revert He. unfold verifyWebhookSignature.
      destruct (STRIPE_WEBHOOK_SECRET env) as [secret|];
        [destruct (String.eqb secret "")|]; cbn; intros He.
      * inversion He.
      * apply list_elem_of_singleton in He. eauto.
      * inversion He.
    + cbn. repeat split. intros e He. inversion He.
Qed.

Lemma post_verified env request event s :
  signature_verifies env request event ->
  Webhook.post env request s
  = let h := (if String.eqb (event_type event) "payment_intent.succeeded"
              then Webhook.handlePaymentIntentSucceeded env (data_object event)
              else ret tt) s in
    mkOutcome {| statusCode := 200; body := BodyReceived |}
      (store_after h)
      (EConstructEvent (Webhook.rawBody request)
         (default "" (Webhook.stripe_signature request))
         (default "" (STRIPE_WEBHOOK_SECRET env))
       :: trace h).
Proof.
  intros (signature & secret & Hsig & Hne & Hsecret & Hsne & Hev).
  unfold Webhook.post, verifyWebhookSignature, truthy.
  rewrite Hsig, Hsecret. cbn [default negb].
  rewrite !eqb_empty_false by assumption. cbn [negb].
  unfold bind, call, reply, ret. cbn. rewrite Hev. cbn.
  rewrite app_nil_r. reflexivity.
Qed.

Lemma post_succeeded env request event s :
  signature_verifies env request event ->
  event_type event = "payment_intent.succeeded" ->
  Webhook.post env request s
  = let h := Webhook.handlePaymentIntentSucceeded env (data_object event) s in
    mkOutcome {| statusCode := 200; body := BodyReceived |}
      (store_after h)
      (EConstructEvent (Webhook.rawBody request)
         (default "" (Webhook.stripe_signature request))
         (default "" (STRIPE_WEBHOOK_SECRET env))
       :: trace h).
Proof.
  intros Hv Htype. rewrite (post_verified _ _ _ _ Hv), Htype.
  rewrite String.eqb_refl. reflexivity.
Qed.

Lemma post_store env request s :
  store_after (Webhook.post env request s) = s
  \/ exists event,
       signature_verifies env request event
       /\ event_type event = "payment_intent.succeeded"
       /\ store_after (Webhook.post env request s)
          = store_after
              (Webhook.handlePaymentIntentSucceeded env (data_object event) s).
Proof.
  destruct (Webhook.stripe_signature request) as [signature|] eqn:Hsig.
  2:{ left. apply post_rejected. left. rewrite Hsig. reflexivity. }
  destruct (String.eqb signature "") eqn:Hempty.
  { left. apply post_rejected. left. rewrite Hsig. cbn. rewrite Hempty.
    reflexivity. }
  destruct (value (verifyWebhookSignature env (Webhook.rawBody request)
                     signature s)) as [event|] eqn:Hverify.
  2:{ left. apply post_rejected. right. eauto. }
  assert (Hv : signature_verifies env request event).
  { exists signature. revert Hverify. unfold verifyWebhookSignature.
    destruct (STRIPE_WEBHOOK_SECRET env) as [secret|]; [|discriminate].
    destruct (String.eqb secret "") eqn:Hsecret; [discriminate|].
    cbn. intros Hev. exists secret.
    repeat split; try assumption; try reflexivity.
    - apply String.eqb_neq. exact Hempty.
    - apply String.eqb_neq. exact Hsecret. }
  rewrite (post_verified _ _ _ _ Hv). cbn.
  destruct (String.eqb (event_type event) "payment_intent.succeeded")
    eqn:Htype.
  - right. exists event. apply String.eqb_eq in Htype. auto.
  - left. reflexivity.
Qed.

Lemma getQr_store env paymentIntentId s :
  store_after (Orders.getQr env paymentIntentId s) = s.
Proof.
  unfold Orders.getQr.
  destruct (negb (truthy (Some paymentIntentId))
            || negb (startsWith paymentIntentId "pi_")); [reflexivity|].
  unfold bind. cbn.
  destruct (orders s !! paymentIntentId) as [order|]; [|reflexivity].
  cbn. destruct (toDataURL env (qrToken order)); reflexivity.
Qed.

Lemma createIntent_store env requestBody s :
  store_after (Checkout.createIntent env requestBody s) = s.
Proof.
  unfold Checkout.createIntent.
  destruct (Zod.safeParse Zod.createIntentSchema requestBody) as [data|errors];
    [|reflexivity].
  unfold bind. cbn.
  destruct (paymentIntents_create env _) as [paymentIntent|[]]; reflexivity.
Qed.

(** The store of the running service: Orders are filed under their own
    identifier, and an identifier is marked processed exactly when its
    Order is in the store. *)
Definition consistent (s : Store) : Prop :=
  keyed_by_id s
  /\ forall pid, pid ∈ processedPaymentIntents s <-> is_Some (orders s !! pid).

Lemma consistent_empty : consistent empty_store.
Proof.
  split; [apply keyed_empty|]. intros pid. cbn. split.
  - intros H. apply not_elem_of_empty in H. contradiction.
  - rewrite lookup_empty. intros [o Ho]. discriminate.
Qed.

Lemma consistent_succeeded env paymentIntent s :
  consistent s ->
  consistent
    (store_after (Webhook.handlePaymentIntentSucceeded env paymentIntent s)).
Proof.
  intros [Hkeyed Hmarks].
  destruct (decide (id paymentIntent ∈ processedPaymentIntents s)) as [Hin|Hnotin].
  - rewrite succeeded_already_processed by assumption. split; assumption.
  - rewrite succeeded_not_yet_processed by assumption. cbn. split.
    + intros k o. cbn.
      destruct (decide (id paymentIntent = k)) as [<-|Hne].
      * rewrite lookup_insert_eq. intros [= <-]. reflexivity.
      * rewrite lookup_insert_ne by assumption. apply Hkeyed.
    + intros pid. cbn. rewrite elem_of_union, elem_of_singleton.
      destruct (decide (id paymentIntent = pid)) as [<-|Hne].
      * rewrite lookup_insert_eq. split; eauto.
      * rewrite lookup_insert_ne by assumption. rewrite <- Hmarks.
        split; [intros [Heq|H]; [congruence|exact H]|auto].
Qed.

Lemma consistent_handle env r s :
  consistent s -> consistent (store_after (handle env r s)).
Proof.
  intros Hs. destruct r as [request|paymentIntentId|requestBody]; cbn.
  - destruct (post_store env request s) as [->|(event & _ & _ & ->)];
      [exact Hs|apply consistent_succeeded, Hs].
  - rewrite getQr_store. exact Hs.
  - rewrite createIntent_store. exact Hs.
Qed.

Lemma reachable_consistent s : reachable s -> consistent s.
Proof.
  induction 1 as [|env r s _ IH];
    [apply consistent_empty|apply consistent_handle, IH].
Qed.

End HandlerFacts.

(** ** Traces and the store *)

Module TraceFacts.
Import JsString InMemoryOrderStore StoreFacts HandlerFacts.

(** The Orders that a trace files, in order. *)
Definition saved_orders (tr : list Effect) : list Order :=
  omap (fun e => match e with ESaveOrder o => Some o | _ => None end) tr.

Definition generates_token (e : Effect) : Prop :=
  exists size, e = ERandomBytes size.

Definition creates_order (e : Effect) : Prop :=
  exists order, e = ESaveOrder order.

Definition calls_processor (e : Effect) : Prop :=
  exists params, e = EPaymentIntentsCreate params.

Lemma replay_verification tr s :
  (forall e, e ∈ tr ->
     exists payload signature secret,
       e = EConstructEvent payload signature secret) ->
  replay tr s = s.
Proof.
  induction tr as [|e tr IH]; intros Htr; [reflexivity|].
  destruct (Htr e) as (payload & sig & secret & ->); [left|].
  cbn. apply IH. intros e' He'. apply Htr. right. exact He'.
Qed.

(** The store after a handler is the store before it with the writes of
    its trace applied. *)
Lemma succeeded_replay env paymentIntent s :
  let r := Webhook.handlePaymentIntentSucceeded env paymentIntent s in
  store_after r = replay (trace r) s.
Proof.
  destruct (decide (id paymentIntent ∈ processedPaymentIntents s)) as [Hin|Hnotin].
  - rewrite succeeded_already_processed by assumption. reflexivity.
  - rewrite succeeded_not_yet_processed by assumption. reflexivity.
Qed.

Lemma handle_replay env r s :
  store_after (handle env r s) = replay (trace (handle env r s)) s.
Proof.
  destruct r as [request|paymentIntentId|requestBody]; cbn [handle].
  - destruct (Webhook.stripe_signature request) as [signature|] eqn:Hsig.
    2:{ unfold Webhook.post. rewrite Hsig. reflexivity. }
    destruct (String.eqb signature "") eqn:Hempty.
    { unfold Webhook.post, truthy. rewrite Hsig, Hempty. reflexivity. }
    destruct (value (StripePlugin.verifyWebhookSignature env
                       (Webhook.rawBody request) signature s))
      as [event|] eqn:Hverify.
    + assert (Hv : signature_verifies env request event).
      { exists signature. revert Hverify.
        unfold StripePlugin.verifyWebhookSignature.
        destruct (STRIPE_WEBHOOK_SECRET env) as [secret|]; [|discriminate].
        destruct (String.eqb secret "") eqn:Hsecret; [discriminate|].
        cbn. intros Hev. exists secret.
        repeat split; try assumption; try reflexivity.
        - apply String.eqb_neq. exact Hempty.
        - apply String.eqb_neq. exact Hsecret. }
      rewrite (post_verified _ _ _ _ Hv). cbn.
      destruct (String.eqb (event_type event) "payment_intent.succeeded");
        [apply succeeded_replay|reflexivity].
    + assert (Hrej : signature_rejected env request s) by (right; eauto).
      destruct (post_rejected _ _ _ Hrej) as (Hstore & _ & Htrace).
      rewrite Hstore. symmetry. apply replay_verification, Htrace.
  - unfold Orders.getQr.
    destruct (negb (truthy (Some paymentIntentId))
              || negb (startsWith paymentIntentId "pi_")); [reflexivity|].
    unfold bind. cbn.
    destruct (orders s !! paymentIntentId) as [order|]; [|reflexivity].
    cbn. destruct (toDataURL env (qrToken order)); reflexivity.
  - unfold Checkout.createIntent.
    destruct (Zod.safeParse Zod.createIntentSchema requestBody)
      as [data|errors]; [|reflexivity].
    unfold bind. cbn.
    destruct (paymentIntents_create env _) as [paymentIntent|[]]; reflexivity.
Qed.

(** Every store of the running service is the empty store with a
    sequence of effects applied. *)
Lemma reachable_replay s : reachable s -> exists tr, s = replay tr empty_store.
Proof.
  induction 1 as [|env r s _ [tr ->]].
  - exists []. reflexivity.
  - exists (tr ++ trace (handle env r (replay tr empty_store))).
    rewrite handle_replay. unfold replay. rewrite fold_left_app. reflexivity.
Qed.

End TraceFacts.

(** ** Sample inputs *)

Module Samples.

Definition intent (pid : string) (md : gmap string string) : PaymentIntent :=
  {| id := pid; client_secret := Some "secret"; metadata := md |}.

Definition succeeded (paymentIntent : PaymentIntent) : StripeEvent :=
  {| event_id := "evt_1";
     event_type := "payment_intent.succeeded";
     data_object := paymentIntent |}.

(** A world whose processor accepts the signature ["t=1,v1=good"] under
    the secret ["whsec_test"] and then delivers [event]. *)
Definition env (event : StripeEvent) : Env :=
  {| STRIPE_WEBHOOK_SECRET := Some "whsec_test";
     constructEvent := fun _ signature secret =>
       if String.eqb signature "t=1,v1=good" && String.eqb secret "whsec_test"
       then Some event else None;
     entropy := fun _ => "*"%byte;
     now := 1700000000000;
     toDataURL := fun token => Some ("data:image/png;base64," ++ token)%string;
     paymentIntents_create := fun _ => Thrown true;
     Number_toString := fun _ => "0" |}.

Definition signed : Webhook.Request :=
  {| Webhook.rawBody := []; Webhook.stripe_signature := Some "t=1,v1=good" |}.

Definition mis_signed : Webhook.Request :=
  {| Webhook.rawBody := []; Webhook.stripe_signature := Some "t=1,v1=bad" |}.

Definition paid : PaymentIntent :=
  intent "pi_1" (<["femaleQty" := "2"]> (<["maleQty" := "1"]> ∅)).

Definition bare : PaymentIntent := intent "pi_1" ∅.

End Samples.

(** ** Webhook receiver *)

Module WebhookClaims.
Import JsString InMemoryOrderStore StoreFacts HandlerFacts TraceFacts.

(** C1. Delivering the same correctly signed payment_intent.succeeded
    notification twice, in any store the service can be in: both
    deliveries are acknowledged with status 200, the second delivery
    leaves the store exactly as the first one left it and files no Order,
    and the store then holds exactly one Order for the identifier; over
    the two deliveries the number of Orders grows by one when the
    identifier had no Order yet, and not at all otherwise.  The two
    deliveries may see different random bytes and clocks. *)
Theorem duplicate_delivery_is_idempotent
    (env1 env2 : Env) (request : Webhook.Request) (event : StripeEvent)
    (s : Store) :
  reachable s ->
  signature_verifies env1 request event ->
  signature_verifies env2 request event ->
  event_type event = "payment_intent.succeeded" ->
  let pid := id (data_object event) in
  let first := Webhook.post env1 request s in
  let second := Webhook.post env2 request (store_after first) in
  statusCode (value first) = 200
  /\ statusCode (value second) = 200
  /\ store_after second = store_after first
  /\ saved_orders (trace second) = []
  /\ order_count pid (store_after second) = 1%nat
  /\ size (orders (store_after second))
     = match orders s !! pid with
       | Some _ => size (orders s)
       | None => S (size (orders s))
       end.
Proof.
  intros Hreach Hv1 Hv2 Htype pid first second.
  subst first second.
  destruct (reachable_consistent s Hreach) as [Hkeyed Hmarks].
  rewrite (post_succeeded _ _ _ s Hv1 Htype). cbn zeta.
  destruct (decide (pid ∈ processedPaymentIntents s)) as [Hin|Hnotin].
  - rewrite (succeeded_already_processed env1) by exact Hin.
    cbn [store_after].
    rewrite (post_succeeded _ _ _ s Hv2 Htype). cbn zeta.
    rewrite (succeeded_already_processed env2) by exact Hin.
    cbn [value store_after trace statusCode].
    destruct (proj1 (Hmarks pid) Hin) as [o Ho].
    rewrite (order_count_keyed pid s Hkeyed). rewrite Ho.
    repeat split; reflexivity.
  - rewrite (succeeded_not_yet_processed env1) by exact Hnotin.
    cbn [store_after].
    set (s1 := {| orders := _; processedPaymentIntents := _ |}).
    assert (Hin1 : pid ∈ processedPaymentIntents s1)
      by (cbn; apply elem_of_union_l, elem_of_singleton; reflexivity).
    rewrite (post_succeeded _ _ _ s1 Hv2 Htype). cbn zeta.
    rewrite (succeeded_already_processed env2) by exact Hin1.
    cbn [value store_after trace statusCode].
    assert (Hnone : orders s !! pid = None).
    { destruct (orders s !! pid) eqn:Ho; [|reflexivity].
      exfalso. apply Hnotin, Hmarks. eauto. }
    assert (Hkeyed1 : keyed_by_id s1).
    { apply (keyed_saveOrder (new_order env1 (data_object event))
               {| orders := orders s;
                  processedPaymentIntents := processedPaymentIntents s1 |}).
      exact Hkeyed. }
    rewrite (order_count_keyed pid s1 Hkeyed1). rewrite Hnone.
    subst s1. cbn [orders]. fold pid. rewrite lookup_insert_eq.
    rewrite map_size_insert_None by exact Hnone.
    repeat split; reflexivity.
Qed.

Lemma duplicate_delivery_is_idempotent_witness :
  let event := Samples.succeeded Samples.paid in
  let first := Webhook.post (Samples.env event) Samples.signed empty_store in
  let second :=
    Webhook.post (Samples.env event) Samples.signed (store_after first) in
  statusCode (value first) = 200
  /\ statusCode (value second) = 200
  /\ store_after second = store_after first
  /\ saved_orders (trace second) = []
  /\ order_count "pi_1" (store_after second) = 1%nat
  /\ size (orders (store_after second)) = 1%nat.
Proof.
  assert (Hv : signature_verifies (Samples.env (Samples.succeeded Samples.paid))
                 Samples.signed (Samples.succeeded Samples.paid)).
  { exists "t=1,v1=good", "whsec_test".
    repeat split; try reflexivity; discriminate. }
  exact (duplicate_delivery_is_idempotent
           (Samples.env (Samples.succeeded Samples.paid))
           (Samples.env (Samples.succeeded Samples.paid))
           Samples.signed (Samples.succeeded Samples.paid) empty_store
           reachable_start Hv Hv eq_refl).
Defined.

(** C2. A correctly signed payment_intent.succeeded notification for a
    fresh identifier (not marked processed, no Order in the store) is
    acknowledged with status 200 and files exactly one Order: the trace
    of the request saves one Order, it carries the identifier and is
    filed under it, the store has one Order more than before and is
    otherwise unchanged, and a following lookup by the identifier returns
    that Order. *)
Theorem fresh_notification_creates_one_order
    (env : Env) (request : Webhook.Request) (event : StripeEvent)
    (s : Store) :
  signature_verifies env request event ->
  event_type event = "payment_intent.succeeded" ->
  id (data_object event) ∉ processedPaymentIntents s ->
  orders s !! id (data_object event) = None ->
  let pid := id (data_object event) in
  let r := Webhook.post env request s in
  exists order,
    statusCode (value r) = 200
    /\ saved_orders (trace r) = [order]
    /\ paymentIntentId order = pid
    /\ orders (store_after r) !! pid = Some order
    /\ size (orders (store_after r)) = S (size (orders s))
    /\ delete pid (orders (store_after r)) = orders s
    /\ value (getOrderByPaymentIntentId pid (store_after r)) = Some order.
Proof.
  intros Hv Htype Hnotin Hnone pid r. subst r.
  rewrite (post_succeeded _ _ _ s Hv Htype). cbn zeta.
  rewrite succeeded_not_yet_processed by exact Hnotin.
  exists (new_order env (data_object event)).
  cbn [value store_after trace statusCode orders getOrderByPaymentIntentId].
  fold pid. rewrite lookup_insert_eq.
  rewrite map_size_insert_None by exact Hnone.
  rewrite delete_insert_id by exact Hnone.
  repeat split; reflexivity.
Qed.

Lemma fresh_notification_creates_one_order_witness :
  let event := Samples.succeeded Samples.paid in
  let r := Webhook.post (Samples.env event) Samples.signed empty_store in
  exists order,
    statusCode (value r) = 200
    /\ saved_orders (trace r) = [order]
    /\ paymentIntentId order = "pi_1"
    /\ orders (store_after r) !! "pi_1" = Some order
    /\ size (orders (store_after r)) = 1%nat
    /\ delete "pi_1" (orders (store_after r)) = ∅
    /\ value (getOrderByPaymentIntentId "pi_1" (store_after r)) = Some order.
Proof.
  assert (Hv : signature_verifies (Samples.env (Samples.succeeded Samples.paid))
                 Samples.signed (Samples.succeeded Samples.paid)).
  { exists "t=1,v1=good", "whsec_test".
    repeat split; try reflexivity; discriminate. }
  assert (Hnew : "pi_1" ∉ processedPaymentIntents empty_store)
    by apply not_elem_of_empty.
  exact (fresh_notification_creates_one_order
           (Samples.env (Samples.succeeded Samples.paid)) Samples.signed
           (Samples.succeeded Samples.paid) empty_store
           Hv eq_refl Hnew eq_refl).
Defined.

(** C3. A webhook request whose signature header is missing (or empty),
    or whose signature fails verification, is answered with the
    client-error status 400 and changes nothing: the store after the
    request is the store before it, and the request files no Order and
    marks no identifier as processed. *)
Theorem rejected_signature_changes_nothing
    (env : Env) (request : Webhook.Request) (s : Store) :
  signature_rejected env request s ->
  let r := Webhook.post env request s in
  statusCode (value r) = 400
  /\ store_after r = s
  /\ orders (store_after r) = orders s
  /\ processedPaymentIntents (store_after r) = processedPaymentIntents s
  /\ saved_orders (trace r) = []
  /\ forall pid, EMarkProcessed pid ∉ trace r.
Proof.
  intros Hrej r. subst r.
  destruct (post_rejected _ _ _ Hrej) as (Hstore & Hstatus & Htrace).
  rewrite Hstore. repeat split; try assumption.
  - revert Htrace. generalize (trace (Webhook.post env request s)).
    induction l as [|e l IH]; intros Hl; [reflexivity|].
    destruct (Hl e) as (payload & sig & secret & ->); [left|].
    cbn. apply IH. intros e' He'. apply Hl. right. exact He'.
  - intros pid Hin. destruct (Htrace _ Hin) as (? & ? & ? & Heq).
    discriminate.
Qed.

Lemma rejected_signature_changes_nothing_witness :
  let env := Samples.env (Samples.succeeded Samples.paid) in
  let r := Webhook.post env Samples.mis_signed empty_store in
  statusCode (value r) = 400
  /\ store_after r = empty_store
  /\ orders (store_after r) = ∅
  /\ processedPaymentIntents (store_after r) = ∅
  /\ saved_orders (trace r) = []
  /\ forall pid, EMarkProcessed pid ∉ trace r.
Proof.
  assert (Hrej : signature_rejected
                   (Samples.env (Samples.succeeded Samples.paid))
                   Samples.mis_signed empty_store).
  { right. exists "t=1,v1=bad". split; reflexivity. }
  exact (rejected_signature_changes_nothing
           (Samples.env (Samples.succeeded Samples.paid))
           Samples.mis_signed empty_store Hrej).
Defined.

(** C4. In the finalization step for an identifier that is not yet
    marked processed, the identifier is marked before the access token is
    generated and before the Order is filed: the trace holds the marking,
    the token generation and the filing of the Order at positions
    [i < j] and [i < k]; and at every token generation and every filing of
    an Order in the trace, the marking has already happened and the store
    at that moment holds the marker. *)
Theorem marking_precedes_token_and_order
    (env : Env) (paymentIntent : PaymentIntent) (s : Store) :
  id paymentIntent ∉ processedPaymentIntents s ->
  let pid := id paymentIntent in
  let tr := trace (Webhook.handlePaymentIntentSucceeded env paymentIntent s) in
  (exists (i j k : nat) (order : Order),
     tr !! i = Some (EMarkProcessed pid)
     /\ tr !! j = Some (ERandomBytes 32)
     /\ tr !! k = Some (ESaveOrder order)
     /\ (i < j)%nat /\ (i < k)%nat)
  /\ forall before e after,
       tr = before ++ e :: after ->
       generates_token e \/ creates_order e ->
       EMarkProcessed pid ∈ before
       /\ pid ∈ processedPaymentIntents (replay before s).
Proof.
  intros Hnotin pid tr. subst tr.
  rewrite succeeded_not_yet_processed by exact Hnotin.
  cbn [trace]. fold pid. split.
  - exists 1%nat, 2%nat, 4%nat, (new_order env paymentIntent).
    repeat split; try reflexivity; lia.
  - intros before e after Heq He.
    assert (Hmarked : forall s', pid ∈ processedPaymentIntents
              (store_after (markPaymentIntentProcessed pid s')))
      by (intros s'; cbn; apply elem_of_union_l, elem_of_singleton;
          reflexivity).
    destruct before as [|e0 [|e1 [|e2 [|e3 [|e4 [|e5 before]]]]]];
      cbn in Heq; simplify_eq;
      try (destruct after; discriminate);
      try (destruct He as [[? ?]|[? ?]]; discriminate).
    + split; [right; left|apply Hmarked].
    + split; [right; left|apply Hmarked].
Qed.

Lemma marking_precedes_token_and_order_witness :
  let tr := trace (Webhook.handlePaymentIntentSucceeded
                     (Samples.env (Samples.succeeded Samples.paid))
                     Samples.paid empty_store) in
  (exists (i j k : nat) (order : Order),
     tr !! i = Some (EMarkProcessed "pi_1")
     /\ tr !! j = Some (ERandomBytes 32)
     /\ tr !! k = Some (ESaveOrder order)
     /\ (i < j)%nat /\ (i < k)%nat)
  /\ forall before e after,
       tr = before ++ e :: after ->
       generates_token e \/ creates_order e ->
       EMarkProcessed "pi_1" ∈ before
       /\ "pi_1" ∈ processedPaymentIntents (replay before empty_store).
Proof.
  assert (Hnew : "pi_1" ∉ processedPaymentIntents empty_store)
    by apply not_elem_of_empty.
  exact (marking_precedes_token_and_order
           (Samples.env (Samples.succeeded Samples.paid))
           Samples.paid empty_store Hnew).
Defined.

(** A metadata key is missing: absent, or present with the empty string. *)
Definition lacks (md : gmap string string) (key : string) : Prop :=
  md !! key = None \/ md !! key = Some "".

Lemma lacks_parses_to_zero md key :
  lacks md key -> parseInt10 (or_default (md !! key) "0") = 0%float.
Proof. intros [->| ->]; reflexivity. Qed.

(** C9, as stated, fails for a repeated notification: once "pi_1" has been
    finalized with quantities 2 and 1, a correctly signed
    payment_intent.succeeded notification for "pi_1" whose metadata has
    neither quantity files no Order at all, and the Order in the store
    keeps its quantities 2 and 1. *)
Lemma repeated_notification_files_no_order :
  let first := Samples.succeeded Samples.paid in
  let s := store_after
             (Webhook.post (Samples.env first) Samples.signed empty_store) in
  let event := Samples.succeeded Samples.bare in
  let r := Webhook.post (Samples.env event) Samples.signed s in
  reachable s
  /\ signature_verifies (Samples.env event) Samples.signed event
  /\ event_type event = "payment_intent.succeeded"
  /\ lacks (metadata (data_object event)) "femaleQty"
  /\ lacks (metadata (data_object event)) "maleQty"
  /\ statusCode (value r) = 200
  /\ saved_orders (trace r) = []
  /\ ~ (exists order, order ∈ saved_orders (trace r))
  /\ store_after r = s
  /\ (femaleQty <$> orders (store_after r) !! "pi_1") = Some 2%float
  /\ (maleQty <$> orders (store_after r) !! "pi_1") = Some 1%float.
Proof.
  cbv zeta. split; [apply (reachable_step _ (PostWebhook _)), reachable_start|].
  split.
  { exists "t=1,v1=good", "whsec_test".
    repeat split; try reflexivity; discriminate. }
  split; [reflexivity|]. split; [left; reflexivity|].
  split; [left; reflexivity|]. split; [reflexivity|].
  split; [vm_compute; reflexivity|].
  split; [intros [order Hin]; vm_compute in Hin; inversion Hin|].
  repeat split; vm_compute; reflexivity.
Qed.

(** C9, amended. For a correctly signed payment_intent.succeeded
    notification whose identifier is not yet marked processed, the handler
    files one Order under the identifier even when the metadata lacks the
    femaleQty or maleQty keys (or carries empty strings for them), and
    each missing quantity of that Order is 0. *)
Theorem missing_quantities_default_to_zero
    (env : Env) (request : Webhook.Request) (event : StripeEvent)
    (s : Store) :
  signature_verifies env request event ->
  event_type event = "payment_intent.succeeded" ->
  id (data_object event) ∉ processedPaymentIntents s ->
  let md := metadata (data_object event) in
  let r := Webhook.post env request s in
  exists order,
    statusCode (value r) = 200
    /\ saved_orders (trace r) = [order]
    /\ orders (store_after r) !! id (data_object event) = Some order
    /\ (lacks md "femaleQty" -> femaleQty order = 0%float)
    /\ (lacks md "maleQty" -> maleQty order = 0%float).
Proof.
  intros Hv Htype Hnotin md r. subst r.
  rewrite (post_succeeded _ _ _ s Hv Htype). cbn zeta.
  rewrite succeeded_not_yet_processed by exact Hnotin.
  exists (new_order env (data_object event)).
  cbn [value store_after trace statusCode orders].
  rewrite lookup_insert_eq.
  repeat split; try reflexivity; intros Hlacks; cbn;
    apply lacks_parses_to_zero, Hlacks.
Qed.

Lemma missing_quantities_default_to_zero_witness :
  let event := Samples.succeeded Samples.bare in
  let r := Webhook.post (Samples.env event) Samples.signed empty_store in
  exists order,
    statusCode (value r) = 200
    /\ saved_orders (trace r) = [order]
    /\ orders (store_after r) !! "pi_1" = Some order
    /\ (lacks ∅ "femaleQty" -> femaleQty order = 0%float)
    /\ (lacks ∅ "maleQty" -> maleQty order = 0%float).
Proof.
  assert (Hv : signature_verifies (Samples.env (Samples.succeeded Samples.bare))
                 Samples.signed (Samples.succeeded Samples.bare)).
  { exists "t=1,v1=good", "whsec_test".
    repeat split; try reflexivity; discriminate. }
  assert (Hnew : "pi_1" ∉ processedPaymentIntents empty_store)
    by apply not_elem_of_empty.
  exact (missing_quantities_default_to_zero
           (Samples.env (Samples.succeeded Samples.bare)) Samples.signed
           (Samples.succeeded Samples.bare) empty_store Hv eq_refl Hnew).
Defined.

End WebhookClaims.

(** ** Order query endpoint *)

Module OrdersClaims.
Import JsString InMemoryOrderStore HandlerFacts.

(** C7, as stated, fails for identifiers without the processor's prefix:
    "abc" has no Order in the empty store, and the endpoint answers the
    query with status 400 and an error body, not with "pending". *)
Lemma unknown_id_without_prefix_is_an_error :
  let r := value (Orders.getQr (Samples.env (Samples.succeeded Samples.paid))
                    "abc" empty_store) in
  orders empty_store !! "abc" = None
  /\ statusCode r = 400
  /\ body r = BodyError "Invalid PaymentIntent ID format"
  /\ body r <> BodyPending.
Proof. repeat split; try reflexivity. discriminate. Qed.

(** C7, amended. For every identifier that starts with "pi_" and has no
    Order in the store, the endpoint answers with status 200 and the body
    [{ status: 'pending' }]. *)
Theorem unknown_id_is_pending (env : Env) (paymentIntentId : string)
    (s : Store) :
  startsWith paymentIntentId "pi_" = true ->
  orders s !! paymentIntentId = None ->
  value (Orders.getQr env paymentIntentId s)
  = {| statusCode := 200; body := BodyPending |}.
Proof.
  intros Hprefix Hnone. unfold Orders.getQr. rewrite Hprefix.
  assert (Htruthy : truthy (Some paymentIntentId) = true).
  { destruct paymentIntentId; [discriminate|reflexivity]. }
  rewrite Htruthy. cbn [negb orb]. unfold bind. cbn. rewrite Hnone.
  reflexivity.
Qed.

Lemma unknown_id_is_pending_witness :
  value (Orders.getQr (Samples.env (Samples.succeeded Samples.paid))
           "pi_404" empty_store)
  = {| statusCode := 200; body := BodyPending |}.
Proof.
  exact (unknown_id_is_pending (Samples.env (Samples.succeeded Samples.paid))
           "pi_404" empty_store eq_refl eq_refl).
Defined.

(** C10. Whatever the outcome of a request to the order query endpoint
    (invalid format, pending, ready, or failure to render), the store
    after the request is the store before it: the Order map and the set
    of processed identifiers are unchanged, and the request performs no
    writing operation of the store. *)
Theorem order_query_is_read_only (env : Env) (paymentIntentId : string)
    (s : Store) :
  let r := Orders.getQr env paymentIntentId s in
  store_after r = s
  /\ orders (store_after r) = orders s
  /\ processedPaymentIntents (store_after r) = processedPaymentIntents s
  /\ TraceFacts.saved_orders (trace r) = []
  /\ (forall pid, EMarkProcessed pid ∉ trace r)
  /\ (statusCode (value r) = 400 \/ statusCode (value r) = 200
      \/ statusCode (value r) = 500).
Proof.
  cbv zeta. rewrite getQr_store. unfold Orders.getQr.
  destruct (negb (truthy (Some paymentIntentId))
            || negb (startsWith paymentIntentId "pi_")).
  { cbn. repeat split; auto. intros pid H. inversion H. }
  unfold bind. cbn.
  destruct (orders s !! paymentIntentId) as [order|].
  - cbn. destruct (toDataURL env (qrToken order)); cbn;
      repeat split; auto; intros pid H;
      repeat (apply elem_of_cons in H as [H|H]; [discriminate|]);
      inversion H.
  - cbn. repeat split; auto. intros pid H.
    repeat (apply elem_of_cons in H as [H|H]; [discriminate|]);
      inversion H.
Qed.

End OrdersClaims.

(** ** Reconciliation store *)

Module StoreClaims.
Import InMemoryOrderStore StoreFacts.

(** C8. In every store reached from the empty store by any sequence of
    store operations (saveOrder, getOrderByPaymentIntentId,
    isPaymentIntentProcessed, markPaymentIntentProcessed, interleaved with
    anything else the handlers do), at most one Order exists per
    identifier, and every further operation keeps it so.  saveOrder is an
    upsert on the identifier of the Order: afterwards a lookup by that
    identifier returns the saved Order, exactly one Order carries the
    identifier, every other entry and the processed markers are
    unchanged, and the map has grown by one entry exactly when the
    identifier had none. *)
Theorem at_most_one_order_per_payment_intent
    (history : list Effect) (next : Effect) (order : Order) (pid : string) :
  let s := replay history empty_store in
  let saved := store_after (saveOrder order s) in
  (order_count pid s <= 1)%nat
  /\ (order_count pid (apply_effect s next) <= 1)%nat
  /\ value (getOrderByPaymentIntentId (paymentIntentId order) saved)
     = Some order
  /\ order_count (paymentIntentId order) saved = 1%nat
  /\ delete (paymentIntentId order) (orders saved)
     = delete (paymentIntentId order) (orders s)
  /\ processedPaymentIntents saved = processedPaymentIntents s
  /\ size (orders saved)
     = match orders s !! paymentIntentId order with
       | Some _ => size (orders s)
       | None => S (size (orders s))
       end
  /\ store_after (getOrderByPaymentIntentId pid s) = s
  /\ store_after (isPaymentIntentProcessed pid s) = s
  /\ orders (store_after (markPaymentIntentProcessed pid s)) = orders s.
Proof.
  intros s saved.
  assert (Hs : keyed_by_id s) by (apply keyed_replay, keyed_empty).
  assert (Hbound : forall s', keyed_by_id s' -> (order_count pid s' <= 1)%nat).
  { intros s' Hs'. rewrite (order_count_keyed pid s' Hs').
    destruct (orders s' !! pid); lia. }
  split; [apply Hbound, Hs|].
  split; [apply Hbound, keyed_apply_effect, Hs|].
  split; [cbn; apply lookup_insert_eq|].
  split.
  { rewrite order_count_keyed by (apply keyed_saveOrder, Hs).
    cbn. rewrite lookup_insert_eq. reflexivity. }
  split; [cbn; apply delete_insert_eq|].
  split; [reflexivity|].
  split; [|repeat split; reflexivity].
  cbn. destruct (orders s !! paymentIntentId order) as [old|] eqn:Hold.
  - rewrite <- (insert_delete_id (orders s) _ _ Hold) at 1.
    rewrite insert_insert_eq.
    rewrite map_size_insert_None by apply lookup_delete_eq.
    rewrite <- (insert_delete_id (orders s) _ _ Hold) at 2.
    rewrite map_size_insert_None by apply lookup_delete_eq.
    reflexivity.
  - apply map_size_insert_None, Hold.
Qed.

End StoreClaims.

(** ** Payment-intent initiator *)

Module CheckoutClaims.
Import JsNumber Zod TraceFacts.

(** A Number equal to zero is one of the two zeros of binary64. *)
Lemma zero_cases (x : float) :
  PrimFloat.eqb x 0 = true -> x = 0%float \/ x = (- 0)%float.
Proof.
  rewrite FloatAxioms.eqb_spec. intros H.
  rewrite <- (SF2Prim_Prim2SF x).
  destruct (Prim2SF x) as [[|]|[|]| |[|] mx ex]; try discriminate H.
  - right. reflexivity.
  - left. reflexivity.
Qed.

Lemma parse_zero_quantity key message (x : float) :
  PrimFloat.eqb x 0 = true ->
  parse_quantity key message (JsNumber x) = Parsed x []
  /\ PrimFloat.ltb 0 x = false.
Proof. intros H. destruct (zero_cases x H) as [-> | ->]; split; reflexivity. Qed.

(** C6. A create-intent request whose body carries zero for both
    quantities is rejected with status 400 and a "Validation failed" body
    whose details are field/message pairs: the refinement's message "At
    least one ticket must be selected" (at the root of the body), or, when
    the language is invalid as well, the message for the language field.
    The handler performs no effect at all: the external processor is never
    called, and the store is unchanged. *)
Theorem zero_quantities_are_rejected
    (env : Env) (props : list (string * JsValue)) (f m : float) (s : Store) :
  get props "femaleQty" = JsNumber f ->
  get props "maleQty" = JsNumber m ->
  PrimFloat.eqb f 0 = true ->
  PrimFloat.eqb m 0 = true ->
  let r := Checkout.createIntent env (JsObject props) s in
  statusCode (value r) = 400
  /\ (exists details,
        body (value r) = BodyValidationFailed details
        /\ (details = [("", "At least one ticket must be selected")]
            \/ exists message, details = [("language", message)]))
  /\ trace r = []
  /\ (forall e, e ∈ trace r -> ~ calls_processor e)
  /\ store_after r = s.
Proof.
  intros Hf Hm Hf0 Hm0 r. subst r.
  destruct (parse_zero_quantity "femaleQty"
              "Female quantity cannot be negative" f Hf0) as [Hpf Hltf].
  destruct (parse_zero_quantity "maleQty"
              "Male quantity cannot be negative" m Hm0) as [Hpm Hltm].
  unfold Checkout.createIntent, safeParse, createIntentSchema, parse_object.
  rewrite Hf, Hm, Hpf, Hpm.
  destruct (parse_language "language" (get props "language"))
    as [lang issues|issues] eqn:Hlang.
  - assert (issues = []) as ->.
    { revert Hlang. unfold parse_language.
      destruct (get props "language") as [| | | |l| |]; cbn -[existsb];
        try discriminate; try (intros [= _ <-]; reflexivity).
      destruct (existsb (String.eqb l) languages); [|discriminate].
      intros [= _ <-]. reflexivity. }
    unfold at_least_one_ticket. cbn [body_femaleQty body_maleQty].
    rewrite Hltf, Hltm. cbn.
    repeat split; eauto. intros e He. inversion He.
  - assert (exists msg, issues = [issue ["language"] msg None]) as [msg ->].
    { revert Hlang. unfold parse_language.
      destruct (get props "language") as [| | | |l| |]; cbn -[existsb];
        try discriminate; try (intros [= <-]; eauto).
      destruct (existsb (String.eqb l) languages); [discriminate|].
      intros [= <-]. eauto. }
    cbn. repeat split; eauto. intros e He. inversion He.
Qed.

Lemma zero_quantities_are_rejected_witness :
  let r := Checkout.createIntent (Samples.env (Samples.succeeded Samples.paid))
             (JsObject [("femaleQty", JsNumber 0); ("maleQty", JsNumber 0);
                        ("language", JsString "es")]) empty_store in
  statusCode (value r) = 400
  /\ (exists details,
        body (value r) = BodyValidationFailed details
        /\ (details = [("", "At least one ticket must be selected")]
            \/ exists message, details = [("language", message)]))
  /\ trace r = []
  /\ (forall e, e ∈ trace r -> ~ calls_processor e)
  /\ store_after r = empty_store.
Proof.
  exact (zero_quantities_are_rejected
           (Samples.env (Samples.succeeded Samples.paid))
           [("femaleQty", JsNumber 0); ("maleQty", JsNumber 0);
            ("language", JsString "es")] 0%float 0%float empty_store
           eq_refl eq_refl eq_refl eq_refl).
Defined.

End CheckoutClaims.

(** ** Pricing: agreement with the specification on binary64 *)

Module PricingFacts.
Import JsNumber Pricing.

(** Bounded universal statements over Numbers are settled by running the
    calculator at every point of the range. *)
Fixpoint forall_from (fuel : nat) (i : Z) (P : Z -> bool) : bool :=
  match fuel with
  | O => true
  | S k => P i && forall_from k (i + 1) P
  end.

Lemma forall_from_spec (P : Z -> bool) (fuel : nat) :
  forall a i, forall_from fuel a P = true ->
    a <= i < a + Z.of_nat fuel -> P i = true.
Proof.
  induction fuel as [|k IH]; intros a i Hall Hi; simpl in Hall.
  - lia.
  - apply andb_prop in Hall as [Ha Hrest].
    destruct (Z.eq_dec i a) as [->|Hne]; [exact Ha|].
    apply (IH (a + 1)); [exact Hrest|lia].
Qed.

(** What [calculatePricing] computes once the subtotal is known. *)
Definition pricing_of_subtotal (subtotal : float) : PricingResult :=
  let fee := (Math_round (subtotal * FEE_PERCENTAGE * 100) / 100)%float in
  {| subtotal := subtotal; fee := fee; total := (subtotal + fee)%float |}.

Lemma calculatePricing_of_subtotal femaleQty maleQty :
  calculatePricing femaleQty maleQty
  = pricing_of_subtotal
      (femaleQty * FEMALE_TICKET_PRICE + maleQty * MALE_TICKET_PRICE)%float.
Proof. reflexivity. Qed.

Definition max_checked_qty : Z := 1000.

Definition subtotal_exact_b (f m : Z) : bool :=
  PrimFloat.Leibniz.eqb
    (of_Z f * FEMALE_TICKET_PRICE + of_Z m * MALE_TICKET_PRICE)%float
    (of_Z (f * 1 + m * 2)).

Definition option_Z_eqb (a : option Z) (b : Z) : bool :=
  match a with Some x => x =? b | None => false end.

Definition from_subtotal_b (s : Z) : bool :=
  let p := pricing_of_subtotal (of_Z s) in
  option_Z_eqb (to_Z (subtotal p)) s
  && PrimFloat.Leibniz.eqb (fee p)
       (dollars_of_cents (round_div (s * 100 * 8) 100))
  && option_Z_eqb (to_Z (dollarsToCents (total p)))
       (s * 100 + round_div (s * 100 * 8) 100).

Lemma subtotal_exact_checked :
  forall_from 1001 0
    (fun f => forall_from 1001 0 (fun m => subtotal_exact_b f m)) = true.
Proof. vm_compute. reflexivity. Qed.

Lemma from_subtotal_checked : forall_from 3001 0 from_subtotal_b = true.
Proof. vm_compute. reflexivity. Qed.

End PricingFacts.

(** ** Binary64 rounding, from the specification of the primitive floats *)

Module Binary64.

Lemma pow2_pos (k : Z) : 0 <= k -> 0 < 2 ^ k.
Proof. intros. apply Z.pow_pos_nonneg; lia. Qed.

Lemma pow2_le (a b : Z) : a <= b -> 2 ^ a <= 2 ^ b.
Proof. intros. apply Z.pow_le_mono_r; lia. Qed.

Lemma pow2_lt_inv (a b : Z) : 0 <= b -> 2 ^ a < 2 ^ b -> a < b.
Proof. intros Hb H. apply (Z.pow_lt_mono_r_iff 2); [lia|exact Hb|exact H]. Qed.

Lemma pow2_split (a b : Z) : 0 <= a -> 0 <= b -> 2 ^ (a + b) = 2 ^ a * 2 ^ b.
Proof. intros. apply Z.pow_add_r; assumption. Qed.

Lemma pow2_succ (a : Z) : 0 <= a -> 2 ^ (a + 1) = 2 * 2 ^ a.
Proof. intros. rewrite pow2_split by lia. change (2 ^ 1) with 2. lia. Qed.

(** Number of binary digits. *)
Lemma digits2_pos_bounds (p : positive) :
  2 ^ (Z.pos (digits2_pos p) - 1) <= Z.pos p < 2 ^ Z.pos (digits2_pos p).
Proof.
  induction p as [p IH|p IH|]; cbn [digits2_pos];
    [rewrite Pos2Z.inj_xI|rewrite Pos2Z.inj_xO|cbn; lia];
    rewrite Pos2Z.inj_succ;
    replace (Z.succ (Z.pos (digits2_pos p)) - 1)
      with (Z.pos (digits2_pos p) - 1 + 1) by lia;
    replace (Z.succ (Z.pos (digits2_pos p)))
      with (Z.pos (digits2_pos p) + 1) by lia;
    rewrite !pow2_succ by lia; lia.
Qed.

Lemma Zdigits2_bounds (q : Z) :
  0 < q -> 0 < Zdigits2 q /\ 2 ^ (Zdigits2 q - 1) <= q < 2 ^ Zdigits2 q.
Proof.
  destruct q as [|p|p]; try lia. intros _. cbn [Zdigits2].
  split; [lia|apply digits2_pos_bounds].
Qed.

Lemma Zdigits2_unique (q k : Z) :
  2 ^ (k - 1) <= q < 2 ^ k -> 1 <= k -> Zdigits2 q = k.
Proof.
  intros Hq Hk.
  assert (Hpos : 0 < q) by (pose proof (pow2_pos (k - 1)); lia).
  destruct (Zdigits2_bounds q Hpos) as [Hd Hb].
  destruct (Z.lt_trichotomy (Zdigits2 q) k) as [Hlt|[Heq|Hgt]]; [|exact Heq|].
  - pose proof (pow2_le (Zdigits2 q) (k - 1)). lia.
  - pose proof (pow2_le k (Zdigits2 q - 1)). lia.
Qed.

(** Iterated shifts. *)
Lemma iter_pos_nat {A : Type} (f : A -> A) (p : positive) :
  forall x, SpecFloat.iter_pos f p x = Nat.iter (Pos.to_nat p) f x.
Proof.
  induction p as [p IH|p IH|]; intros x; cbn [SpecFloat.iter_pos].
  - rewrite !IH, Pos2Nat.inj_xI.
    replace (S (2 * Pos.to_nat p))%nat
      with (Pos.to_nat p + S (Pos.to_nat p))%nat by lia.
    rewrite Nat.iter_add, Nat.iter_succ_r. reflexivity.
  - rewrite !IH, Pos2Nat.inj_xO.
    replace (2 * Pos.to_nat p)%nat
      with (Pos.to_nat p + Pos.to_nat p)%nat by lia.
    rewrite Nat.iter_add. reflexivity.
  - reflexivity.
Qed.

Lemma iter_xO (d m : positive) : Z.pos (Pos.iter xO m d) = Z.pos m * 2 ^ Z.pos d.
Proof.
  induction d as [|d IH] using Pos.peano_ind.
  - cbn. lia.
  - rewrite Pos.iter_succ, Pos2Z.inj_xO, IH, Pos2Z.inj_succ.
    replace (Z.succ (Z.pos d)) with (Z.pos d + 1) by lia.
    rewrite pow2_succ by lia. lia.
Qed.

Lemma shr_1_spec (m : Z) (r s : bool) :
  0 <= m ->
  shr_1 (Build_shr_record m r s) = Build_shr_record (m / 2) (Z.odd m) (r || s).
Proof.
  intros Hm. rewrite <- Z.div2_div.
  destruct m as [|[p|p|]|p]; try lia; reflexivity.
Qed.

Lemma mod_pow2_succ (m k : Z) :
  0 <= k ->
  m mod 2 ^ (k + 1) = m mod 2 ^ k + 2 ^ k * ((m / 2 ^ k) mod 2).
Proof.
  intros Hk. rewrite pow2_succ by lia. pose proof (pow2_pos k Hk).
  rewrite (Z.mul_comm 2). apply Z.rem_mul_r; lia.
Qed.

Lemma shr_iter (k : nat) (m : Z) (r0 s0 : bool) :
  0 <= m ->
  Nat.iter (S k) shr_1 (Build_shr_record m r0 s0)
  = Build_shr_record (m / 2 ^ (Z.of_nat k + 1))
      (Z.odd (m / 2 ^ Z.of_nat k))
      (negb (m mod 2 ^ Z.of_nat k =? 0) || (r0 || s0)).
Proof.
  intros Hm. induction k as [|k IH].
  - cbn [Nat.iter]. rewrite shr_1_spec by exact Hm.
    change (2 ^ (Z.of_nat 0 + 1)) with 2. change (2 ^ Z.of_nat 0) with 1.
    rewrite Z.div_1_r, Z.mod_1_r. reflexivity.
  - change (Nat.iter (S (S k)) shr_1 (Build_shr_record m r0 s0))
      with (shr_1 (Nat.iter (S k) shr_1 (Build_shr_record m r0 s0))).
    rewrite IH. clear IH.
    assert (Hk : 0 <= Z.of_nat k) by lia.
    pose proof (pow2_pos _ Hk) as Hp.
    rewrite shr_1_spec by (apply Z.div_pos; [lia|apply pow2_pos; lia]).
    rewrite Nat2Z.inj_succ.
    replace (Z.succ (Z.of_nat k)) with (Z.of_nat k + 1) by lia.
    f_equal.
    + rewrite Z.div_div by (try apply pow2_pos; lia).
      rewrite (pow2_succ (Z.of_nat k + 1)) by lia.
      rewrite (Z.mul_comm 2). reflexivity.
    + rewrite (mod_pow2_succ m (Z.of_nat k)) by lia.
      rewrite (Zodd_mod (m / 2 ^ Z.of_nat k)).
      pose proof (Z.mod_pos_bound (m / 2 ^ Z.of_nat k) 2 ltac:(lia)) as Hb.
      pose proof (Z.mod_pos_bound m (2 ^ Z.of_nat k) Hp) as Hl.
      destruct (Z.eqb_spec ((m / 2 ^ Z.of_nat k) mod 2) 1) as [->|Hne];
        destruct (Z.eqb_spec (m mod 2 ^ Z.of_nat k) 0) as [->|Hne'];
        cbn [negb orb].
      * destruct (Z.eqb_spec (0 + 2 ^ Z.of_nat k * 1) 0); [lia|reflexivity].
      * destruct (Z.eqb_spec (m mod 2 ^ Z.of_nat k + 2 ^ Z.of_nat k * 1) 0);
          [lia|reflexivity].
      * replace ((m / 2 ^ Z.of_nat k) mod 2) with 0 by lia.
        destruct (Z.eqb_spec (0 + 2 ^ Z.of_nat k * 0) 0); [|lia].
        reflexivity.
      * replace ((m / 2 ^ Z.of_nat k) mod 2) with 0 by lia.
        destruct (Z.eqb_spec (m mod 2 ^ Z.of_nat k + 2 ^ Z.of_nat k * 0) 0);
          [lia|reflexivity].
Qed.

(** Where a quotient with remainder [r] of [m2] lies between two
    integers: the location the division computes. *)
Definition loc_of_rem (r m2 : Z) : location :=
  if r =? 0 then loc_Exact else loc_Inexact (2 * r ?= m2).

Lemma round_shift (q r m2 : Z) (n : nat) :
  0 <= q -> 0 <= r < m2 ->
  let mrs := Nat.iter n shr_1 (shr_record_of_loc q (loc_of_rem r m2)) in
  let m1 := round_nearest_even (shr_m mrs) (loc_of_shr_record mrs) in
  q / 2 ^ Z.of_nat n <= m1 <= q / 2 ^ Z.of_nat n + 1
  /\ 2 * Z.abs (m1 * 2 ^ Z.of_nat n * m2 - (q * m2 + r))
     <= 2 ^ Z.of_nat n * m2.
Proof.
  intros Hq Hr. destruct n as [|k].
  - cbn [Nat.iter]. change (2 ^ Z.of_nat 0) with 1. rewrite Z.div_1_r.
    unfold loc_of_rem.
    destruct (Z.eqb_spec r 0) as [->|Hne]; cbn.
    + lia.
    + destruct (Z.compare_spec (2 * r) m2) as [He|Hl|Hg]; cbn;
        try destruct (Z.even q); lia.
  - assert (Hrec : exists r0 s0,
               shr_record_of_loc q (loc_of_rem r m2) = Build_shr_record q r0 s0
               /\ (r0 || s0 = negb (r =? 0))).
    { unfold loc_of_rem. destruct (Z.eqb_spec r 0) as [->|Hne].
      - exists false, false. split; reflexivity.
      - destruct (2 * r ?= m2); cbn [shr_record_of_loc negb];
          [exists true, false|exists false, true|exists true, true];
          split; reflexivity. }
    destruct Hrec as (r0 & s0 & -> & Hst).
    rewrite shr_iter by exact Hq. rewrite Hst. clear Hst r0 s0.
    assert (Hk : 0 <= Z.of_nat k) by lia.
    pose proof (pow2_pos _ Hk) as Hp.
    rewrite Nat2Z.inj_succ.
    replace (Z.succ (Z.of_nat k)) with (Z.of_nat k + 1) by lia.
    pose proof (mod_pow2_succ q (Z.of_nat k) Hk) as Hmod.
    assert (Hp1 : 0 < 2 ^ (Z.of_nat k + 1)) by (apply pow2_pos; lia).
    pose proof (Z.div_mod q (2 ^ (Z.of_nat k + 1)) ltac:(lia)) as Hdm.
    pose proof (Z.mod_pos_bound q (2 ^ Z.of_nat k) Hp) as Hlow.
    pose proof (Z.mod_pos_bound (q / 2 ^ Z.of_nat k) 2 ltac:(lia)) as Hbit.
    rewrite (Zodd_mod (q / 2 ^ Z.of_nat k)).
    rewrite Hmod in Hdm. clear Hmod.
    rewrite (pow2_succ (Z.of_nat k)) in * by lia.
    set (P := 2 ^ Z.of_nat k) in *.
    set (q' := q / (2 * P)) in *.
    set (low := q mod P) in *.
    set (bit := (q / P) mod 2) in *.
    cbn [shr_m loc_of_shr_record].
    assert (Hlm : low * m2 + m2 <= P * m2) by nia.
    destruct (Z.eqb_spec bit 1) as [Hb|Hb].
    + destruct (Z.eqb_spec low 0) as [Hl0|Hl0];
        destruct (Z.eqb_spec r 0) as [Hr0|Hr0]; cbn [negb orb];
        cbn [round_nearest_even]; try destruct (Z.even q'); nia.
    + assert (bit = 0) by lia.
      destruct (Z.eqb_spec low 0) as [Hl0|Hl0];
        destruct (Z.eqb_spec r 0) as [Hr0|Hr0]; cbn [negb orb];
        cbn [round_nearest_even]; nia.
Qed.


Lemma shr_nat (mrs : shr_record) (e n : Z) :
  0 <= n -> shr mrs e n = (Nat.iter (Z.to_nat n) shr_1 mrs, e + n).
Proof.
  destruct n as [|p|p]; intros Hn; try lia.
  - cbn. f_equal. lia.
  - cbn [shr]. rewrite iter_pos_nat. reflexivity.
Qed.

Lemma fexp_normal (e : Z) : -1074 <= e - 53 -> fexp prec emax e = e - 53.
Proof. unfold fexp, emin, prec, emax. lia. Qed.

(** [rounds_to N D E mz ez]: the binary64 number [mz * 2 ^ ez] is a
    nearest one to the positive rational [(N / D) * 2 ^ E], whose binade
    starts at [2 ^ (52 + u)]; the error is at most half a unit in the last
    place of that binade. *)
Definition rounds_to (N D E mz ez : Z) : Prop :=
  exists u,
    E <= u /\ (ez = u \/ ez = u + 1)
    /\ 2 ^ 52 <= mz < 2 ^ 53
    /\ 2 ^ (52 + (u - E)) * D <= N < 2 ^ (53 + (u - E)) * D
    /\ 2 * Z.abs (mz * 2 ^ (ez - E) * D - N) <= 2 ^ (u - E) * D.

Lemma binary_round_aux_spec (sx : bool) (q r m2 ex : Z) :
  0 < q -> 0 <= r < m2 -> 53 <= Zdigits2 q ->
  -1074 <= ex -> ex + (Zdigits2 q - 53) + 1 <= 971 ->
  exists mz ez,
    binary_round_aux prec emax sx q ex (loc_of_rem r m2)
    = S754_finite sx (Z.to_pos mz) ez
    /\ rounds_to (q * m2 + r) m2 ex mz ez.
Proof.
  intros Hq Hr Hd Hlo Hhi.
  destruct (Zdigits2_bounds q Hq) as [_ Hqb].
  set (d := Zdigits2 q) in *. set (n := d - 53) in *.
  assert (Hn : 0 <= n) by lia.
  replace (d - 1) with (52 + n) in Hqb by lia.
  replace d with (53 + n) in Hqb by lia.
  pose proof (pow2_pos n Hn) as Hpn.
  assert (Hq52 : 2 ^ 52 <= q / 2 ^ n < 2 ^ 53).
  { rewrite !(pow2_split _ n) in Hqb by lia. split.
    - apply Z.div_le_lower_bound; lia.
    - apply Z.div_lt_upper_bound; lia. }
  unfold binary_round_aux, shr_fexp. fold d.
  rewrite fexp_normal by lia.
  replace (d + ex - 53 - ex) with n by lia.
  rewrite shr_nat by exact Hn. cbv beta iota.
  destruct (round_shift q r m2 (Z.to_nat n) ltac:(lia) Hr) as [Hm1 Herr].
  rewrite Z2Nat.id in Hm1, Herr by exact Hn.
  set (m1 := round_nearest_even _ _) in *.
  assert (HN : 2 ^ (52 + n) * m2 <= q * m2 + r < 2 ^ (53 + n) * m2) by nia.
  destruct (Z_lt_le_dec m1 (2 ^ 53)) as [Hlt|Hge].
  - rewrite (Zdigits2_unique m1 53) by (change (53 - 1) with 52; lia).
    rewrite fexp_normal by lia.
    replace (53 + (ex + n) - 53 - (ex + n)) with 0 by lia.
    cbn [shr shr_record_of_loc shr_m].
    destruct m1 as [|p|p] eqn:Em1; try lia.
    replace (ex + n <=? emax - prec) with true
      by (symmetry; apply Z.leb_le; unfold emax, prec; lia).
    exists (Z.pos p), (ex + n). split; [reflexivity|].
    exists (ex + n). replace (ex + n - ex) with n by lia.
    repeat split; try lia.
  - assert (Em1 : m1 = 2 ^ 53) by lia. rewrite Em1.
    change (Zdigits2 (2 ^ 53)) with 54.
    rewrite fexp_normal by lia.
    replace (54 + (ex + n) - 53 - (ex + n)) with 1 by lia.
    cbn [shr shr_record_of_loc SpecFloat.iter_pos].
    change (shr_m (shr_1 {| shr_m := 2 ^ 53; shr_r := false; shr_s := false |}))
      with (2 ^ 52).
    change (2 ^ 52) with 4503599627370496 at 1.
    cbv beta iota.
    replace (ex + n + 1 <=? emax - prec) with true
      by (symmetry; apply Z.leb_le; unfold emax, prec; lia).
    exists (2 ^ 52), (ex + n + 1). split; [reflexivity|].
    exists (ex + n). replace (ex + n - ex) with n by lia.
    replace (ex + n + 1 - ex) with (n + 1) by lia.
    rewrite Em1 in Herr. rewrite pow2_succ by lia.
    repeat split; try lia.
Qed.


Lemma rounds_to_exponent (N D E mz ez a b : Z) :
  rounds_to N D E mz ez -> 0 < D -> 0 <= a ->
  2 ^ a * D <= N < 2 ^ b * D ->
  E + a - 52 <= ez <= E + b - 52.
Proof.
  intros (u & Hu & Hez & _ & HN & _) HD Ha Hab.
  assert (Hb : 0 <= b).
  { destruct (Z_lt_le_dec b 0) as [Hneg|]; [|assumption].
    rewrite (Z.pow_neg_r 2 b Hneg) in Hab.
    pose proof (pow2_pos a Ha). nia. }
  assert (H1 : a < 53 + (u - E)).
  { apply pow2_lt_inv; [lia|].
    apply (Z.mul_lt_mono_pos_r D); [exact HD|]. lia. }
  assert (H2 : 52 + (u - E) < b).
  { apply pow2_lt_inv; [lia|].
    apply (Z.mul_lt_mono_pos_r D); [exact HD|]. lia. }
  lia.
Qed.

(** A rounding is exact when the value has at most 53 significant bits. *)
Lemma rounds_to_exact (N E mz ez a j : Z) :
  rounds_to N 1 E mz ez -> N = a * 2 ^ j -> 0 < a < 2 ^ 53 -> 0 <= j ->
  mz * 2 ^ (ez - E) = N.
Proof.
  intros (u & Hu & Hez & Hmz & HN & Herr) -> Ha Hj.
  pose proof (pow2_pos j Hj) as Hpj.
  assert (Hle : u - E <= j).
  { assert (52 + (u - E) < 53 + j); [|lia].
    apply pow2_lt_inv; [lia|]. rewrite (pow2_split 53 j) by lia. nia. }
  set (n := u - E) in *. assert (Hn : 0 <= n) by lia.
  pose proof (pow2_pos n Hn) as Hpn.
  assert (Hj' : 2 ^ j = 2 ^ n * 2 ^ (j - n))
    by (rewrite <- pow2_split by lia; f_equal; lia).
  assert (Hez' : 2 ^ (ez - E) = 2 ^ n * 2 ^ (ez - E - n))
    by (rewrite <- pow2_split by lia; f_equal; lia).
  pose proof (pow2_pos (j - n) ltac:(lia)) as Hp1.
  pose proof (pow2_pos (ez - E - n) ltac:(lia)) as Hp2.
  rewrite Hj', Hez' in *.
  set (A := 2 ^ n) in *. set (B := 2 ^ (j - n)) in *.
  set (C := 2 ^ (ez - E - n)) in *.
  assert (Hd : mz * C - a * B = 0) by nia.
  nia.
Qed.

Lemma canonical_unique (E m e m' e' : Z) :
  2 ^ 52 <= m < 2 ^ 53 -> 2 ^ 52 <= m' < 2 ^ 53 -> E <= e -> E <= e' ->
  m * 2 ^ (e - E) = m' * 2 ^ (e' - E) -> m = m' /\ e = e'.
Proof.
  assert (Hhalf : forall m e m' e',
             2 ^ 52 <= m < 2 ^ 53 -> 2 ^ 52 <= m' < 2 ^ 53 -> E <= e -> e < e' ->
             m * 2 ^ (e - E) = m' * 2 ^ (e' - E) -> False).
  { intros m0 e0 m0' e0' Hm Hm' He Hlt Heq.
    replace (e0' - E) with ((e0 - E) + (e0' - e0)) in Heq by lia.
    rewrite pow2_split in Heq by lia.
    pose proof (pow2_pos (e0 - E) ltac:(lia)).
    pose proof (pow2_le 1 (e0' - e0) ltac:(lia)) as Hge.
    change (2 ^ 1) with 2 in Hge.
    assert (Hc : m0 = m0' * 2 ^ (e0' - e0)).
    { apply (Z.mul_reg_r _ _ (2 ^ (e0 - E))); lia. }
    nia. }
  intros Hm Hm' He He' Heq.
  destruct (Z.lt_trichotomy e e') as [Hlt|[->|Hgt]].
  - exfalso. exact (Hhalf m e m' e' Hm Hm' He Hlt Heq).
  - pose proof (pow2_pos (e' - E) ltac:(lia)). split; [nia|reflexivity].
  - exfalso. symmetry in Heq. exact (Hhalf m' e' m e Hm' Hm He' Hgt Heq).
Qed.

(** [represents x m e]: [x] is the positive normal binary64 number
    [m * 2 ^ e]. *)
Definition represents (x : float) (m e : Z) : Prop :=
  Prim2SF x = S754_finite false (Z.to_pos m) e
  /\ 2 ^ 52 <= m < 2 ^ 53
  /\ -1074 <= e <= 971.

Lemma represents_inj (x y : float) (m e : Z) :
  represents x m e -> represents y m e -> x = y.
Proof.
  intros (Hx & _) (Hy & _). apply Prim2SF_inj. congruence.
Qed.

Lemma Zdigits2_range (q a b : Z) :
  0 <= a -> 2 ^ a <= q < 2 ^ b -> a < Zdigits2 q <= b.
Proof.
  intros Ha Hq. pose proof (pow2_pos a Ha).
  destruct (Zdigits2_bounds q ltac:(lia)) as [Hd Hb].
  split.
  - apply pow2_lt_inv; lia.
  - assert (Zdigits2 q - 1 < b); [|lia].
    apply pow2_lt_inv; [|lia].
    destruct (Z_lt_le_dec b 0) as [Hneg|]; [|assumption].
    rewrite (Z.pow_neg_r 2 b Hneg) in Hq. lia.
Qed.

(** Multiplication of two positive normal numbers. *)
Lemma mul_rounds (x y : float) (mx ex my ey : Z) :
  represents x mx ex -> represents y my ey ->
  -1074 <= ex + ey -> ex + ey + 54 <= 971 ->
  exists mz ez,
    represents (x * y) mz ez /\ rounds_to (mx * my) 1 (ex + ey) mz ez.
Proof.
  intros (Hx & Hmx & Hex) (Hy & Hmy & Hey) Hlo Hhi.
  assert (Hq : 2 ^ 104 <= mx * my < 2 ^ 106).
  { change (2 ^ 104) with (2 ^ 52 * 2 ^ 52).
    change (2 ^ 106) with (2 ^ 53 * 2 ^ 53). nia. }
  pose proof (Zdigits2_range (mx * my) 104 106 ltac:(lia) Hq) as Hd.
  destruct (binary_round_aux_spec false (mx * my) 0 1 (ex + ey))
    as (mz & ez & Hround & Hto); try lia.
  replace (mx * my * 1 + 0) with (mx * my) in Hto by lia.
  exists mz, ez. split; [|exact Hto].
  pose proof (rounds_to_exponent _ _ _ _ _ 104 106 Hto ltac:(lia) ltac:(lia)
                ltac:(lia)) as Hez.
  split; [|split; [destruct Hto as (u & _ & _ & Hmz & _); exact Hmz|lia]].
  rewrite FloatAxioms.mul_spec, Hx, Hy. unfold SF64mul, SFmul. cbn [xorb].
  rewrite Pos2Z.inj_mul, !Z2Pos.id by lia. exact Hround.
Qed.

Lemma div_eucl_div_mod (a b : Z) : Z.div_eucl a b = (a / b, a mod b).
Proof. unfold Z.div, Z.modulo. destruct (Z.div_eucl a b). reflexivity. Qed.

(** Division of two positive normal numbers, the divisor with an even
    significand. *)
Lemma div_rounds (x y : float) (mx ex my ey : Z) :
  represents x mx ex -> represents y my ey -> Z.even my = true ->
  -1074 <= ex - ey - 53 -> ex - ey - 53 + 2 <= 971 ->
  exists mz ez,
    represents (x / y) mz ez
    /\ rounds_to (mx * 2 ^ 53) my (ex - ey - 53) mz ez.
Proof.
  intros (Hx & Hmx & Hex) (Hy & Hmy & Hey) Heven Hlo Hhi.
  set (q := (mx * 2 ^ 53) / my). set (r := (mx * 2 ^ 53) mod my).
  assert (Hr : 0 <= r < my) by (apply Z.mod_pos_bound; lia).
  assert (Hqr : q * my + r = mx * 2 ^ 53).
  { pose proof (Z.div_mod (mx * 2 ^ 53) my ltac:(lia)). subst q r. lia. }
  assert (Hq : 2 ^ 52 <= q < 2 ^ 54).
  { split.
    - apply Z.div_le_lower_bound; [lia|]. nia.
    - apply Z.div_lt_upper_bound; [lia|].
      change (2 ^ 54) with (2 * 2 ^ 53). nia. }
  pose proof (Zdigits2_range q 52 54 ltac:(lia) Hq) as Hd.
  destruct (binary_round_aux_spec false q r my (ex - ey - 53))
    as (mz & ez & Hround & Hto); try lia.
  rewrite Hqr in Hto.
  exists mz, ez. split; [|exact Hto].
  assert (HN : 2 ^ 52 * my <= mx * 2 ^ 53 < 2 ^ 54 * my)
    by (change (2 ^ 54) with (2 * 2 ^ 53); nia).
  pose proof (rounds_to_exponent _ _ _ _ _ 52 54 Hto ltac:(lia) ltac:(lia) HN)
    as Hez.
  split; [|split; [destruct Hto as (u & _ & _ & Hmz & _); exact Hmz|lia]].
  rewrite FloatAxioms.div_spec, Hx, Hy. unfold SF64div, SFdiv, SFdiv_core_binary.
  cbn [xorb].
  rewrite !Z2Pos.id by lia.
  rewrite !(Zdigits2_unique _ 53) by (change (53 - 1) with 52; lia).
  replace (53 + ex - (53 + ey)) with (ex - ey) by lia.
  rewrite fexp_normal by lia.
  rewrite Z.min_l by lia.
  replace (ex - ey - (ex - ey - 53)) with 53 by lia.
  cbv beta iota zeta.
  rewrite Z.shiftl_mul_pow2 by lia.
  rewrite div_eucl_div_mod. fold q r.
  unfold new_location. rewrite Heven. exact Hround.
Qed.

Lemma shl_align_fst (mx : positive) (ex ez : Z) :
  ez <= ex -> Z.pos (fst (shl_align mx ex ez)) = Z.pos mx * 2 ^ (ex - ez).
Proof.
  intros Hle. unfold shl_align.
  destruct (ez - ex) as [|d|d] eqn:Hd; try lia; cbn [fst].
  - replace (ex - ez) with 0 by lia. lia.
  - rewrite iter_xO. f_equal. f_equal. lia.
Qed.

(** Addition of two positive normal numbers. *)
Lemma add_rounds (x y : float) (mx ex my ey : Z) :
  represents x mx ex -> represents y my ey ->
  ex <= 900 -> ey <= 900 ->
  let E := Z.min ex ey in
  exists mz ez,
    represents (x + y) mz ez
    /\ rounds_to (mx * 2 ^ (ex - E) + my * 2 ^ (ey - E)) 1 E mz ez.
Proof.
  intros (Hx & Hmx & Hex) (Hy & Hmy & Hey) Hxhi Hyhi E.
  set (N := mx * 2 ^ (ex - E) + my * 2 ^ (ey - E)).
  pose proof (pow2_pos (ex - E) ltac:(lia)) as Hpx.
  pose proof (pow2_pos (ey - E) ltac:(lia)) as Hpy.
  set (D := Z.max ex ey - E).
  assert (Hbx : 2 ^ (ex - E) <= 2 ^ D) by (apply pow2_le; lia).
  assert (Hby : 2 ^ (ey - E) <= 2 ^ D) by (apply pow2_le; lia).
  assert (Hone : 2 ^ (ex - E) = 1 \/ 2 ^ (ey - E) = 1).
  { destruct (Z.le_ge_cases ex ey).
    - left. replace (ex - E) with 0 by lia. reflexivity.
    - right. replace (ey - E) with 0 by lia. reflexivity. }
  assert (HD : 2 ^ (54 + D) = 2 ^ 54 * 2 ^ D) by (apply pow2_split; lia).
  assert (HN : 2 ^ 52 <= N < 2 ^ (54 + D)).
  { rewrite HD. change (2 ^ 54) with (2 * 2 ^ 53). subst N. split; nia. }
  pose proof (Zdigits2_range N 52 (54 + D) ltac:(lia) HN) as Hd.
  destruct (binary_round_aux_spec false N 0 1 E)
    as (mz & ez & Hround & Hto); try lia.
  replace (N * 1 + 0) with N in Hto by lia.
  exists mz, ez. split; [|exact Hto].
  pose proof (rounds_to_exponent _ _ _ _ _ 52 (54 + D) Hto ltac:(lia)
                ltac:(lia) ltac:(lia)) as Hez.
  split; [|split; [destruct Hto as (u & _ & _ & Hmz & _); exact Hmz|lia]].
  rewrite FloatAxioms.add_spec, Hx, Hy. unfold SF64add, SFadd. fold E.
  cbn [cond_Zopp].
  rewrite !shl_align_fst by lia. rewrite !Z2Pos.id by lia. fold N.
  destruct N as [|p|p] eqn:EN; try lia.
  unfold binary_normalize, binary_round.
  change (Z.pos (digits2_pos p)) with (Zdigits2 (Z.pos p)).
  rewrite fexp_normal by lia.
  unfold shl_align.
  destruct (Zdigits2 (Z.pos p) + E - 53 - E) as [|k|k] eqn:Hk; try lia;
    exact Hround.
Qed.

(** Fixed-point view: the value of [m * 2 ^ e] in units of [2 ^ (- 256)]. *)
Definition scaled (m e : Z) : Z := m * 2 ^ (e + 256).

Lemma rounds_to_scaled (N D E mz ez k : Z) :
  rounds_to N D E mz ez -> 0 < D -> 0 <= E + 256 -> 0 <= k - 53 + 256 ->
  N * 2 ^ (E + 256) < D * 2 ^ (k + 256) ->
  2 * Z.abs (scaled mz ez * D - N * 2 ^ (E + 256)) <= 2 ^ (k - 53 + 256) * D
  /\ E <= ez <= k - 52.
Proof.
  intros (u & Hu & Hez & Hmz & HN & Herr) HD HE Hk Hlt.
  pose proof (pow2_pos (E + 256) HE) as HpE.
  assert (Huk : 52 + u + 256 < k + 256).
  { apply pow2_lt_inv; [lia|].
    replace (52 + u + 256) with (52 + (u - E) + (E + 256)) by lia.
    rewrite pow2_split by lia.
    pose proof (pow2_pos (52 + (u - E)) ltac:(lia)).
    apply (Z.mul_lt_mono_pos_r D); [exact HD|]. nia. }
  split; [|lia].
  unfold scaled.
  replace (ez + 256) with ((ez - E) + (E + 256)) by lia.
  rewrite pow2_split by lia.
  assert (Hb : 2 ^ (u - E) * 2 ^ (E + 256) <= 2 ^ (k - 53 + 256)).
  { rewrite <- pow2_split by lia. apply pow2_le. lia. }
  pose proof (pow2_pos (u - E) ltac:(lia)).
  set (A := 2 ^ (ez - E)) in *. set (B := 2 ^ (E + 256)) in *.
  set (C := 2 ^ (u - E)) in *.
  replace (mz * (A * B) * D - N * B) with ((mz * A * D - N) * B) by ring.
  rewrite Z.abs_mul, (Z.abs_eq B) by lia.
  nia.
Qed.

End Binary64.

(** ** The pricing calculator on binary64, by error analysis

    Values are compared in fixed point, in units of 2^-256. *)

Module PricingAnalysis.
Import JsNumber Pricing PricingFacts Binary64.

Lemma scaled_shift (m e n K : Z) :
  m = n * 2 ^ (- e) -> e <= 0 -> 0 <= e + K -> m * 2 ^ (e + K) = n * 2 ^ K.
Proof.
  intros -> He HK. rewrite <- Z.mul_assoc, <- pow2_split by lia.
  f_equal. f_equal. lia.
Qed.

(** Integers below 2^53 are Numbers. *)
Lemma of_Z_represents (n : Z) :
  0 < n < 2 ^ 53 ->
  exists m e, represents (of_Z n) m e /\ -52 <= e <= 0 /\ m = n * 2 ^ (- e).
Proof.
  intros Hn. destruct n as [|p|p]; try lia.
  destruct (Zdigits2_bounds (Z.pos p) ltac:(lia)) as [Hd0 Hd].
  assert (Hd53 : Zdigits2 (Z.pos p) <= 53).
  { assert (Zdigits2 (Z.pos p) - 1 < 53); [|lia]. apply pow2_lt_inv; lia. }
  set (d := Zdigits2 (Z.pos p)) in *. set (e := d - 53).
  set (q := Z.pos p * 2 ^ (- e)).
  pose proof (pow2_pos (- e) ltac:(lia)) as Hpe.
  assert (Hq : 2 ^ 52 <= q < 2 ^ 53).
  { assert (H52 : 2 ^ 52 = 2 ^ (d - 1) * 2 ^ (- e))
      by (rewrite <- pow2_split by lia; f_equal; lia).
    assert (H53 : 2 ^ 53 = 2 ^ d * 2 ^ (- e))
      by (rewrite <- pow2_split by lia; f_equal; lia).
    rewrite H52, H53. subst q. nia. }
  destruct (binary_round_aux_spec false q 0 1 e)
    as (mz & ez & Hround & Hto); try lia;
    try (rewrite (Zdigits2_unique q 53) by (change (53 - 1) with 52; lia); lia).
  replace (q * 1 + 0) with q in Hto by lia.
  pose proof (rounds_to_exact q e mz ez q 0 Hto ltac:(cbn; lia) ltac:(lia)
                ltac:(lia)) as Hex.
  pose proof (rounds_to_exponent _ _ _ _ _ 52 53 Hto ltac:(lia) ltac:(lia)
                ltac:(lia)) as Hez.
  assert (Hmz : 2 ^ 52 <= mz < 2 ^ 53)
    by (destruct Hto as (u & _ & _ & H & _); exact H).
  destruct (canonical_unique e mz ez q e Hmz Hq ltac:(lia) ltac:(lia))
    as [-> ->].
  { rewrite Hex. replace (e - e) with 0 by lia. cbn. lia. }
  exists q, e. split; [|split; [lia|reflexivity]].
  split; [|split; [exact Hq|lia]].
  rewrite <- Hround. unfold of_Z.
  replace ((0 <=? Z.pos p) && (Z.pos p <? 9223372036854775808)) with true
    by (symmetry; apply andb_true_intro; split;
        [apply Z.leb_le|apply Z.ltb_lt]; lia).
  rewrite of_uint63_spec, Uint63.of_Z_spec.
  rewrite Z.mod_small by (change wB with 9223372036854775808; lia).
  unfold binary_normalize, binary_round.
  change (Z.pos (digits2_pos p)) with d.
  rewrite fexp_normal by lia. rewrite Z.add_0_r. fold e.
  unfold shl_align. rewrite Z.sub_0_r.
  destruct e as [|k|k] eqn:Ee; try lia.
  - subst q. change (2 ^ (- 0)) with 1. rewrite Z.mul_1_r. reflexivity.
  - subst q. change (- Z.neg k) with (Z.pos k). rewrite <- iter_xO.
    reflexivity.
Qed.

Lemma represents_of_Z (x : float) (m e n : Z) :
  represents x m e -> -256 <= e -> scaled m e = n * 2 ^ 256 ->
  0 < n < 2 ^ 53 -> x = of_Z n.
Proof.
  intros Hx He Hs Hn.
  destruct (of_Z_represents n Hn) as (m' & e' & Hy & He' & Hm').
  pose proof (scaled_shift m' e' n 256 Hm' ltac:(lia) ltac:(lia)) as Hs'.
  destruct (canonical_unique (-256) m e m' e') as [-> ->].
  - apply Hx.
  - apply Hy.
  - lia.
  - lia.
  - unfold scaled in Hs.
    replace (e - -256) with (e + 256) by lia.
    replace (e' - -256) with (e' + 256) by lia. lia.
  - exact (represents_inj _ _ _ _ Hx Hy).
Qed.

Lemma exact_scaled (N E mz ez : Z) :
  mz * 2 ^ (ez - E) = N -> E <= ez -> 0 <= E + 256 ->
  scaled mz ez = N * 2 ^ (E + 256).
Proof.
  intros <- Hle HE. unfold scaled.
  rewrite <- Z.mul_assoc, <- pow2_split by lia. f_equal. f_equal. lia.
Qed.

Lemma to_Z_of_Z (n : Z) : 0 < n < 2 ^ 53 -> to_Z (of_Z n) = Some n.
Proof.
  intros Hn. destruct (of_Z_represents n Hn) as (m & e & Hx & He & Hm).
  destruct Hx as (Hx & Hmb & _).
  pose proof (pow2_pos (- e) ltac:(lia)) as Hp.
  unfold to_Z, Number_isInteger. rewrite Hx.
  rewrite Z2Pos.id by lia.
  rewrite Z.land_ones by lia.
  rewrite Hm. rewrite Z.mod_mul by lia.
  rewrite Z.eqb_refl, orb_true_r.
  rewrite Z.shiftl_div_pow2 by lia.
  rewrite Z.div_mul by lia. reflexivity.
Qed.

(** [Math.round] of a positive Number within half a unit of the integer
    [n] (the lower end included) is [n]. *)
Lemma Math_round_nearest (x : float) (m e n : Z) :
  represents x m e -> -256 <= e -> 0 < n < 2 ^ 52 ->
  (2 * n - 1) * 2 ^ 256 <= 2 * scaled m e < (2 * n + 1) * 2 ^ 256 ->
  Math_round x = of_Z n.
Proof.
  intros (Hx & Hm & _) He Hn Hs. unfold scaled in Hs.
  assert (Hneg : e < 0).
  { destruct (Z_lt_le_dec e 0) as [|Hge]; [assumption|exfalso].
    pose proof (pow2_le 256 (e + 256) ltac:(lia)). nia. }
  pose proof (pow2_pos (- e) ltac:(lia)) as Hp.
  pose proof (pow2_pos (e + 256) ltac:(lia)) as Hq.
  assert (HW : 2 ^ 256 = 2 ^ (- e) * 2 ^ (e + 256))
    by (rewrite <- pow2_split by lia; f_equal; lia).
  rewrite HW in Hs.
  set (P := 2 ^ (- e)) in *. set (Q := 2 ^ (e + 256)) in *.
  assert (Hlo : (2 * n - 1) * P <= 2 * m) by nia.
  assert (Hhi : 2 * m < (2 * n + 1) * P) by nia.
  unfold Math_round. rewrite Hx.
  replace (0 <=? e) with false by (symmetry; apply Z.leb_gt; lia).
  cbv zeta. rewrite Z2Pos.id by lia.
  rewrite Z.shiftl_mul_pow2, Z.shiftr_div_pow2 by lia.
  rewrite Z.mul_1_l. fold P.
  replace (- e + 1) with (1 + - e) by lia.
  rewrite pow2_split by lia. change (2 ^ 1) with 2. fold P.
  assert (Hz : (2 * m + P) / (2 * P) = n).
  { apply Z.le_antisymm.
    - assert ((2 * m + P) / (2 * P) < n + 1); [|lia].
      apply Z.div_lt_upper_bound; lia.
    - apply Z.div_le_lower_bound; lia. }
  rewrite Hz.
  replace (n =? 0) with false by (symmetry; apply Z.eqb_neq; lia).
  reflexivity.
Qed.

Lemma represents_one : represents 1 (2 ^ 52) (-52).
Proof. split; [reflexivity|lia]. Qed.

Lemma represents_two : represents 2 (2 ^ 52) (-51).
Proof. split; [reflexivity|lia]. Qed.

Lemma represents_hundred : represents 100 (100 * 2 ^ 46) (-46).
Proof. split; [reflexivity|lia]. Qed.

Lemma represents_fee_percentage :
  represents FEE_PERCENTAGE 5764607523034235 (-56).
Proof. split; [reflexivity|lia]. Qed.

(** Multiplying an integer Number by 1 or by 2 is exact. *)
Lemma mul_pow2_exact (n j : Z) (c : float) :
  0 < n -> 0 <= j -> n * 2 ^ j < 2 ^ 53 ->
  represents c (2 ^ 52) (j - 52) ->
  (of_Z n * c)%float = of_Z (n * 2 ^ j).
Proof.
  intros Hn Hj Hb Hc. pose proof (pow2_pos j Hj) as Hpj.
  assert (Hj53 : j < 53) by (apply pow2_lt_inv; [lia|nia]).
  destruct (of_Z_represents n ltac:(nia)) as (m & e & Hx & He & Hm).
  destruct (mul_rounds _ _ _ _ _ _ Hx Hc ltac:(lia) ltac:(lia))
    as (mz & ez & Hz & Hto).
  assert (Hmb : 2 ^ 52 <= m < 2 ^ 53) by apply Hx.
  pose proof (rounds_to_exact _ _ _ _ m 52 Hto eq_refl ltac:(lia) ltac:(lia))
    as Hex.
  pose proof (rounds_to_exponent _ _ _ _ _ 104 106 Hto ltac:(lia) ltac:(lia))
    as Hez.
  assert (Hq : 2 ^ 104 * 1 <= m * 2 ^ 52 < 2 ^ 106 * 1).
  { change (2 ^ 104) with (2 ^ 52 * 2 ^ 52).
    change (2 ^ 106) with (2 ^ 54 * 2 ^ 52). lia. }
  specialize (Hez Hq).
  apply (represents_of_Z _ mz ez); [exact Hz|lia| |nia].
  rewrite (exact_scaled _ _ _ _ Hex) by lia.
  replace (e + (j - 52) + 256) with ((e + 204) + j) by lia.
  rewrite pow2_split by lia.
  replace (m * 2 ^ 52 * (2 ^ (e + 204) * 2 ^ j))
    with (m * (2 ^ 52 * 2 ^ (e + 204)) * 2 ^ j) by ring.
  rewrite <- pow2_split by lia.
  replace (52 + (e + 204)) with (e + 256) by lia.
  rewrite (scaled_shift m e n 256 Hm) by lia. ring.
Qed.

(** Adding two integer Numbers whose sum is below 2^53 is exact. *)
Lemma add_exact (a b : Z) :
  0 < a -> 0 < b -> a + b < 2 ^ 53 ->
  (of_Z a + of_Z b)%float = of_Z (a + b).
Proof.
  intros Ha Hb Hab.
  destruct (of_Z_represents a ltac:(lia)) as (ma & ea & Hx & Hea & Hma).
  destruct (of_Z_represents b ltac:(lia)) as (mb & eb & Hy & Heb & Hmb).
  destruct (add_rounds _ _ _ _ _ _ Hx Hy ltac:(lia) ltac:(lia))
    as (mz & ez & Hz & Hto).
  set (E := Z.min ea eb) in *.
  pose proof (pow2_pos (- E) ltac:(lia)) as HpE.
  assert (HN : ma * 2 ^ (ea - E) + mb * 2 ^ (eb - E) = (a + b) * 2 ^ (- E)).
  { replace (ea - E) with (ea + - E) by lia.
    replace (eb - E) with (eb + - E) by lia.
    rewrite (scaled_shift ma ea a (- E) Hma) by lia.
    rewrite (scaled_shift mb eb b (- E) Hmb) by lia. ring. }
  rewrite HN in Hto.
  pose proof (rounds_to_exact _ _ _ _ (a + b) (- E) Hto eq_refl ltac:(lia)
                ltac:(lia)) as Hex.
  assert (HE : E <= ez) by (destruct Hto as (u & ? & ? & _); lia).
  assert (Hez : -1074 <= ez <= 971) by apply Hz.
  apply (represents_of_Z _ mz ez); [exact Hz|lia| |lia].
  rewrite (exact_scaled _ _ _ _ Hex) by lia.
  rewrite <- Z.mul_assoc, <- pow2_split by lia. f_equal. f_equal. lia.
Qed.

Lemma add_zero_l (x : float) (m e : Z) : represents x m e -> (0 + x)%float = x.
Proof.
  intros (Hx & _). apply Prim2SF_inj.
  rewrite FloatAxioms.add_spec, Hx. reflexivity.
Qed.

Lemma add_zero_r (x : float) (m e : Z) : represents x m e -> (x + 0)%float = x.
Proof.
  intros (Hx & _). apply Prim2SF_inj.
  rewrite FloatAxioms.add_spec, Hx. reflexivity.
Qed.

(** The subtotal is exact as long as it is below 2^53. *)
Lemma subtotal_of_Z (f m : Z) :
  0 <= f -> 0 <= m -> f + 2 * m < 2 ^ 53 ->
  (of_Z f * FEMALE_TICKET_PRICE + of_Z m * MALE_TICKET_PRICE)%float
  = of_Z (f + 2 * m).
Proof.
  intros Hf Hm Hb. unfold FEMALE_TICKET_PRICE, MALE_TICKET_PRICE.
  assert (Hone : 0 < f -> (of_Z f * 1.00)%float = of_Z f).
  { intros H. rewrite (mul_pow2_exact f 0 _ H ltac:(lia) ltac:(cbn; lia)
                         represents_one).
    f_equal. cbn. lia. }
  assert (Htwo : 0 < m -> (of_Z m * 2.00)%float = of_Z (2 * m)).
  { intros H. rewrite (mul_pow2_exact m 1 _ H ltac:(lia) ltac:(cbn; lia)
                         represents_two).
    f_equal. cbn. lia. }
  destruct (Z.eq_dec f 0) as [->|Hf0]; destruct (Z.eq_dec m 0) as [->|Hm0].
  - reflexivity.
  - rewrite Htwo by lia.
    change (of_Z 0 * 1.00)%float with 0%float.
    destruct (of_Z_represents (2 * m) ltac:(lia)) as (m' & e' & Hx & _).
    rewrite (add_zero_l _ _ _ Hx). f_equal.
  - rewrite Hone by lia.
    change (of_Z 0 * 2.00)%float with 0%float.
    destruct (of_Z_represents f ltac:(lia)) as (m' & e' & Hx & _).
    rewrite (add_zero_r _ _ _ Hx). f_equal. lia.
  - rewrite Hone, Htwo by lia. apply add_exact; lia.
Qed.


Definition max_total_cents : Z := 100 * 2 ^ 45.

(** The fee in minor units: [Math.round(subtotal * 0.08 * 100)] is
    8 * subtotal exactly.  The Number 0.08 is 5764607523034235 * 2^-56;
    the first product is below 2^42 and is off by at most 2^-12, the
    second is below 2^48 and adds at most 2^-6: the result stays well
    within half a unit of 8 * subtotal. *)
Lemma fee_cents_of_subtotal (s : Z) :
  0 < s -> 108 * s < max_total_cents ->
  Math_round (of_Z s * FEE_PERCENTAGE * 100)%float = of_Z (8 * s).
Proof.
  unfold max_total_cents. intros Hs Hb.
  destruct (of_Z_represents s ltac:(lia)) as (ms & es & Hxs & Hes & Hms).
  destruct (mul_rounds _ _ _ _ _ _ Hxs represents_fee_percentage
              ltac:(lia) ltac:(lia)) as (m1 & e1 & H1 & Hto1).
  assert (HN1 : ms * 5764607523034235 * 2 ^ (es + -56 + 256)
                = s * 5764607523034235 * 2 ^ 200).
  { replace (es + -56 + 256) with (es + 200) by lia.
    pose proof (scaled_shift ms es s 200 Hms ltac:(lia) ltac:(lia)). nia. }
  destruct (rounds_to_scaled _ _ _ _ _ 42 Hto1 ltac:(lia) ltac:(lia)
              ltac:(lia) ltac:(rewrite HN1; lia)) as [Herr1 He1].
  rewrite HN1 in Herr1.
  destruct (mul_rounds _ _ _ _ _ _ H1 represents_hundred
              ltac:(lia) ltac:(lia)) as (m2 & e2 & H2 & Hto2).
  assert (HN2 : m1 * (100 * 2 ^ 46) * 2 ^ (e1 + -46 + 256)
                = 100 * scaled m1 e1).
  { unfold scaled. replace (e1 + 256) with (46 + (e1 + -46 + 256)) by lia.
    rewrite (pow2_split 46) by lia. ring. }
  destruct (rounds_to_scaled _ _ _ _ _ 48 Hto2 ltac:(lia) ltac:(lia)
              ltac:(lia) ltac:(rewrite HN2; lia)) as [Herr2 He2].
  rewrite HN2 in Herr2.
  apply (Math_round_nearest _ m2 e2); [exact H2|lia|lia|lia].
Qed.

(** The amount in minor units: [Math.round(total * 100)] is
    108 * subtotal exactly.  The fee is below 2^42 and off by at most
    2^-12, the total is below 2^45 and adds at most 2^-9, the product by
    100 is below 2^52 and adds at most 1/4: in minor units the error is at
    most 100 * 2^-12 + 100 * 2^-9 + 1/4, less than 1/2. *)
Lemma total_cents_of_subtotal (s : Z) :
  0 < s -> 108 * s < max_total_cents ->
  Math_round ((of_Z s + of_Z (8 * s) / 100) * 100)%float = of_Z (108 * s).
Proof.
  unfold max_total_cents. intros Hs Hb.
  destruct (of_Z_represents s ltac:(lia)) as (ms & es & Hxs & Hes & Hms).
  destruct (of_Z_represents (8 * s) ltac:(lia))
    as (m8 & e8 & Hx8 & He8 & Hm8).
  pose proof (scaled_shift ms es s 256 Hms ltac:(lia) ltac:(lia)) as Hvs.
  fold (scaled ms es) in Hvs.
  destruct (div_rounds _ _ _ _ _ _ Hx8 represents_hundred eq_refl
              ltac:(lia) ltac:(lia)) as (mf & ef & Hf & Htof).
  assert (HNf : m8 * 2 ^ 53 * 2 ^ (e8 - -46 - 53 + 256)
                = 8 * s * 2 ^ 302).
  { replace (e8 - -46 - 53 + 256) with (e8 + 249) by lia.
    rewrite <- Z.mul_assoc, <- pow2_split by lia.
    replace (53 + (e8 + 249)) with (e8 + 302) by lia.
    apply (scaled_shift m8 e8 (8 * s) 302 Hm8); lia. }
  destruct (rounds_to_scaled _ _ _ _ _ 42 Htof ltac:(lia) ltac:(lia)
              ltac:(lia) ltac:(rewrite HNf; lia)) as [Herrf Hef].
  rewrite HNf in Herrf.
  destruct (add_rounds _ _ _ _ _ _ Hxs Hf ltac:(lia) ltac:(lia))
    as (mt & et & Ht & Htot).
  set (E := Z.min es ef) in *.
  assert (HNt : (ms * 2 ^ (es - E) + mf * 2 ^ (ef - E)) * 2 ^ (E + 256)
                = scaled ms es + scaled mf ef).
  { unfold scaled. rewrite Z.mul_add_distr_r.
    rewrite <- !Z.mul_assoc, <- !pow2_split by lia.
    f_equal; f_equal; f_equal; lia. }
  destruct (rounds_to_scaled _ _ _ _ _ 45 Htot ltac:(lia) ltac:(lia)
              ltac:(lia) ltac:(rewrite HNt; lia)) as [Herrt Het].
  rewrite HNt in Herrt.
  destruct (mul_rounds _ _ _ _ _ _ Ht represents_hundred
              ltac:(lia) ltac:(lia)) as (mu & eu & Hu & Htou).
  assert (HNu : mt * (100 * 2 ^ 46) * 2 ^ (et + -46 + 256)
                = 100 * scaled mt et).
  { unfold scaled. replace (et + 256) with (46 + (et + -46 + 256)) by lia.
    rewrite (pow2_split 46) by lia. ring. }
  destruct (rounds_to_scaled _ _ _ _ _ 52 Htou ltac:(lia) ltac:(lia)
              ltac:(lia) ltac:(rewrite HNu; lia)) as [Herru Heu].
  rewrite HNu in Herru.
  apply (Math_round_nearest _ mu eu); [exact Hu|lia|lia|lia].
Qed.


(** Just above a total of 2^45 dollars the analysis no longer applies;
    the remaining subtotals below 32578122304486 are settled by running
    the calculator. *)
Definition fee_and_cents_b (s : Z) : bool :=
  PrimFloat.Leibniz.eqb
    (Math_round (of_Z s * FEE_PERCENTAGE * 100)%float) (of_Z (8 * s))
  && PrimFloat.Leibniz.eqb
       (Math_round ((of_Z s + of_Z (8 * s) / 100) * 100)%float)
       (of_Z (108 * s)).

Lemma fee_and_cents_checked :
  forall_from 11 32578122304475 fee_and_cents_b = true.
Proof. vm_compute. reflexivity. Qed.

(** For every positive integer subtotal below 32578122304486 the fee and
    the amount in minor units are computed without error. *)
Lemma cents_of_subtotal (s : Z) :
  0 < s < 32578122304486 ->
  Math_round (of_Z s * FEE_PERCENTAGE * 100)%float = of_Z (8 * s)
  /\ Math_round ((of_Z s + of_Z (8 * s) / 100) * 100)%float
     = of_Z (108 * s).
Proof.
  intros Hs. destruct (Z_lt_le_dec (108 * s) max_total_cents) as [Hlt|Hge].
  - split; [apply fee_cents_of_subtotal|apply total_cents_of_subtotal]; lia.
  - unfold max_total_cents in Hge.
    assert (Hb : fee_and_cents_b s = true)
      by (apply (forall_from_spec _ 11 32578122304475 s
                   fee_and_cents_checked); lia).
    apply andb_prop in Hb as [Hfee Hcents].
    split; apply FloatAxioms.Leibniz.eqb_spec; assumption.
Qed.

Lemma round_div_fee (s : Z) : round_div (s * 100 * 8) 100 = 8 * s.
Proof.
  unfold round_div.
  replace (2 * (s * 100 * 8) + 100) with (100 + (8 * s) * (2 * 100)) by lia.
  rewrite Z.div_add by lia. reflexivity.
Qed.

(** The calculator agrees with the decimal specification for every
    quantity pair whose subtotal is below 32578122304486. *)
Lemma pricing_agrees_below (femaleQty maleQty : Z) :
  0 <= femaleQty -> 0 <= maleQty ->
  0 < femaleQty * 1 + maleQty * 2 < 32578122304486 ->
  pricing_agrees femaleQty maleQty.
Proof.
  intros Hf Hm Hs. unfold pricing_agrees, calculatePricing.
  cbn [subtotal fee total]. unfold dollarsToCents.
  rewrite subtotal_of_Z by lia.
  unfold spec_total_cents, spec_fee_cents, spec_subtotal_cents,
    dollars_of_cents.
  replace (femaleQty * 100 + maleQty * 200)
    with ((femaleQty + 2 * maleQty) * 100) by lia.
  rewrite round_div_fee.
  replace (femaleQty * 1 + maleQty * 2) with (femaleQty + 2 * maleQty) in *
    by lia.
  set (s := femaleQty + 2 * maleQty) in *.
  destruct (cents_of_subtotal s Hs) as [Hfee Hcents].
  rewrite Hfee, Hcents.
  split; [apply to_Z_of_Z; lia|].
  split; [reflexivity|].
  split; [reflexivity|].
  rewrite to_Z_of_Z by lia. f_equal. lia.
Qed.

End PricingAnalysis.

(** ** Pricing calculator *)

Module PricingClaims.
Import JsNumber Pricing PricingFacts.

Lemma subtotal_exact (f m : Z) :
  0 <= f <= max_checked_qty -> 0 <= m <= max_checked_qty ->
  (of_Z f * FEMALE_TICKET_PRICE + of_Z m * MALE_TICKET_PRICE)%float
  = of_Z (f * 1 + m * 2).
Proof.
  unfold max_checked_qty. intros Hf Hm.
  apply FloatAxioms.Leibniz.eqb_spec.
  change (subtotal_exact_b f m = true).
  apply (forall_from_spec (fun m => subtotal_exact_b f m) 1001 0 m); [|lia].
  apply (forall_from_spec
           (fun f => forall_from 1001 0 (fun m => subtotal_exact_b f m))
           1001 0 f); [|lia].
  exact subtotal_exact_checked.
Qed.

Lemma from_subtotal_exact (s : Z) :
  0 <= s <= 3 * max_checked_qty ->
  let p := pricing_of_subtotal (of_Z s) in
  to_Z (subtotal p) = Some s
  /\ fee p = dollars_of_cents (round_div (s * 100 * 8) 100)
  /\ to_Z (dollarsToCents (total p))
     = Some (s * 100 + round_div (s * 100 * 8) 100).
Proof.
  intros Hs p. unfold max_checked_qty in Hs.
  assert (Hb : from_subtotal_b s = true)
    by (apply (forall_from_spec _ 3001 0 s from_subtotal_checked); lia).
  unfold from_subtotal_b in Hb. fold p in Hb.
  apply andb_prop in Hb as [Hb Hcents]. apply andb_prop in Hb as [Hsub Hfee].
  assert (Hopt : forall a b, option_Z_eqb a b = true -> a = Some b).
  { intros [a|] b H; [|discriminate]. apply Z.eqb_eq in H. congruence. }
  repeat split.
  - apply Hopt, Hsub.
  - apply FloatAxioms.Leibniz.eqb_spec, Hfee.
  - apply Hopt, Hcents.
Qed.

(** The total is the binary64 sum of subtotal and fee, which need not be the
    Number of the decimal total: for 7 female tickets it is
    7.5600000000000005, the Number next to that of the decimal 7.56; its
    minor-unit amount is 756 all the same. *)
Example total_is_a_binary64_sum :
  let p := calculatePricing 7 0 in
  total p = 7.5600000000000005%float
  /\ dollars_of_cents 756 = 7.56%float
  /\ dollarsToCents (total p) = 756%float.
Proof. repeat split; reflexivity. Qed.

(** Far beyond that range even the subtotal is lost: 2^54 =
    18014398509481984 and 1 are non-negative integers which the request
    schema accepts, and for them the calculator returns the subtotal
    18014398509481984, not 18014398509481984 * 1.00 + 1 * 2.00 =
    18014398509481986. *)
Lemma pricing_disagrees_for_large_quantities :
  let f := 18014398509481984 in
  let m := 1 in
  let p := calculatePricing (of_Z f) (of_Z m) in
  0 <= f /\ 0 < m
  /\ to_Z (of_Z f) = Some f /\ to_Z (of_Z m) = Some m
  /\ Zod.safeParse Zod.createIntentSchema
       (JsObject [("femaleQty", JsNumber (of_Z f));
                  ("maleQty", JsNumber (of_Z m))])
     = inl {| Zod.body_femaleQty := of_Z f; Zod.body_maleQty := of_Z m;
              Zod.body_language := "en" |}
  /\ to_Z (subtotal p) = Some 18014398509481984
  /\ f * 1 + m * 2 = 18014398509481986
  /\ ~ pricing_agrees f m.
Proof.
  cbv zeta. repeat split; try reflexivity; try lia.
  intros [Hsub _]. vm_compute in Hsub. discriminate Hsub.
Qed.

(** C5, as stated, fails on binary64: 32578122304486 and 0 are
    non-negative integers, one of them positive, which the request schema
    accepts.  The calculator returns the subtotal 32578122304486 and the
    fee 2606249784358.88 as specified; the exact total is
    35184372088844.88, that is 3518437208884488 minor units, but the
    binary64 sum of subtotal and fee lies above 2^45, where Numbers are
    1/128 apart, and the minor-unit amount computed from it is
    3518437208884489. *)
Lemma pricing_disagrees_at_subtotal_32578122304486 :
  let f := 32578122304486 in
  let m := 0 in
  let p := calculatePricing (of_Z f) (of_Z m) in
  0 < f /\ 0 <= m
  /\ to_Z (of_Z f) = Some f /\ to_Z (of_Z m) = Some m
  /\ Zod.safeParse Zod.createIntentSchema
       (JsObject [("femaleQty", JsNumber (of_Z f));
                  ("maleQty", JsNumber (of_Z m))])
     = inl {| Zod.body_femaleQty := of_Z f; Zod.body_maleQty := of_Z m;
              Zod.body_language := "en" |}
  /\ to_Z (subtotal p) = Some (f * 1 + m * 2)
  /\ fee p = dollars_of_cents 260624978435888
  /\ total p = 35184372088844.8828125%float
  /\ spec_total_cents f m = 3518437208884488
  /\ to_Z (dollarsToCents (total p)) = Some 3518437208884489
  /\ ~ pricing_agrees f m.
Proof.
  cbv zeta. repeat split; try reflexivity; try lia.
  intros (_ & _ & _ & Hcents). vm_compute in Hcents. discriminate Hcents.
Qed.

(** C5, amended. For all non-negative integer quantity pairs with at
    least one positive whose subtotal femaleQty * 1.00 + maleQty * 2.00
    is below 32578122304486, the calculator returns that subtotal exactly,
    the fee round(subtotal * 0.08, 2 decimals) as the Number of that
    decimal, and the total as the sum of the two Numbers, and the
    minor-unit amount is exactly round(total * 100) of the exact total;
    and the quantities (2, 1) yield 4.00, 0.32, 4.32 and 432. *)
Theorem pricing_agrees_with_specification (femaleQty maleQty : Z) :
  0 <= femaleQty ->
  0 <= maleQty ->
  0 < femaleQty \/ 0 < maleQty ->
  femaleQty * 1 + maleQty * 2 < 32578122304486 ->
  pricing_agrees femaleQty maleQty /\ pricing_example.
Proof.
  intros Hf Hm Hpos Hs. split.
  - apply PricingAnalysis.pricing_agrees_below; lia.
  - split; reflexivity.
Qed.

Lemma pricing_agrees_with_specification_witness :
  pricing_agrees 1000000000000 1000000000000 /\ pricing_example.
Proof.
  apply (pricing_agrees_with_specification 1000000000000 1000000000000); lia.
Defined.

End PricingClaims.

(** * Further properties of the code *)

(** ** In-memory order store: how the operations compose *)

Module StoreProps.
Import InMemoryOrderStore StoreFacts.

(** Two saves in a row: for the same identifier the later Order replaces
    the earlier one, as if only the later save had happened; for different
    identifiers the order of the two saves does not matter.  Either way
    the later Order is the one a lookup by its identifier returns. *)
Theorem saveOrder_twice (first second : Order) (s : Store) :
  let both := store_after (saveOrder second (store_after (saveOrder first s))) in
  both
  = (if decide (paymentIntentId first = paymentIntentId second)
     then store_after (saveOrder second s)
     else store_after (saveOrder first (store_after (saveOrder second s))))
  /\ value (getOrderByPaymentIntentId (paymentIntentId second) both)
     = Some second
  /\ value (getOrderByPaymentIntentId (paymentIntentId first) both)
     = Some (if decide (paymentIntentId first = paymentIntentId second)
             then second else first).
Proof.
  cbn. destruct (decide (paymentIntentId first = paymentIntentId second))
    as [Heq|Hne].
  - rewrite Heq, insert_insert_eq, lookup_insert_eq. auto.
  - rewrite lookup_insert_eq, lookup_insert_ne, lookup_insert_eq by congruence.
    repeat split. f_equal. apply insert_insert_ne. congruence.
Qed.

(** The processed markers: an identifier is reported processed right after
    it has been marked; marking answers for another identifier exactly as
    before; marking twice is marking once; and markers and Orders do not
    touch each other: saving an Order changes no answer of
    isPaymentIntentProcessed, marking changes no answer of
    getOrderByPaymentIntentId. *)
Theorem markers_and_orders_are_independent
    (pid other : string) (order : Order) (s : Store) :
  let marked := store_after (markPaymentIntentProcessed pid s) in
  value (isPaymentIntentProcessed pid marked) = true
  /\ value (isPaymentIntentProcessed other marked)
     = bool_decide (other = pid) || value (isPaymentIntentProcessed other s)
  /\ store_after (markPaymentIntentProcessed pid marked) = marked
  /\ value (isPaymentIntentProcessed other (store_after (saveOrder order s)))
     = value (isPaymentIntentProcessed other s)
  /\ value (getOrderByPaymentIntentId other marked)
     = value (getOrderByPaymentIntentId other s).
Proof.
  cbn. repeat split.
  - apply bool_decide_eq_true, elem_of_union_l, elem_of_singleton.
    reflexivity.
  - destruct (decide (other = pid)) as [->|Hne].
    + rewrite (bool_decide_eq_true_2 (pid = pid)) by reflexivity.
      apply bool_decide_eq_true, elem_of_union_l, elem_of_singleton.
      reflexivity.
    + rewrite (bool_decide_eq_false_2 (other = pid)) by assumption.
      cbn. apply bool_decide_ext.
      rewrite elem_of_union, elem_of_singleton. tauto.
  - f_equal. apply set_eq. intros x.
    rewrite !elem_of_union, !elem_of_singleton. tauto.
Qed.

End StoreProps.

(** ** QR service: the access token *)

Module QrProps.
Import JsString QrService.

Fixpoint all_chars (p : ascii -> bool) (s : string) : bool :=
  match s with
  | EmptyString => true
  | String c r => p c && all_chars p r
  end.

(** The value of a lowercase hexadecimal digit, ['0'..'9'] or ['a'..'f']. *)
Definition hex_value (c : ascii) : option N :=
  let n := N_of_ascii c in
  if ((48 <=? n) && (n <=? 57))%N then Some (n - 48)%N
  else if ((97 <=? n) && (n <=? 102))%N then Some (n - 87)%N
  else None.

Definition is_lower_hex (c : ascii) : bool :=
  match hex_value c with Some _ => true | None => false end.

(** The byte that two hexadecimal characters spell. *)

Definition byte_of_hex (hi lo : ascii) : option byte :=
  match hex_value hi, hex_value lo with
  | Some h, Some l => Byte.of_N (16 * h + l)
  | _, _ => None
  end.

Lemma hex_of_byte_decodes (b : byte) :
  byte_of_hex (hex_digit (Byte.to_N b / 16)) (hex_digit (Byte.to_N b mod 16))
  = Some b.
Proof. destruct b; reflexivity. Qed.

Lemma hex_of_byte_is_hex (b : byte) :
  is_lower_hex (hex_digit (Byte.to_N b / 16)) = true
  /\ is_lower_hex (hex_digit (Byte.to_N b mod 16)) = true.
Proof. destruct b; split; reflexivity. Qed.

Lemma toString_hex_cons (b : byte) (r : list byte) :
  toString_hex (b :: r)
  = String (hex_digit (Byte.to_N b / 16))
      (String (hex_digit (Byte.to_N b mod 16)) (toString_hex r)).
Proof. reflexivity. Qed.

Lemma toString_hex_length (bytes : list byte) :
  String.length (toString_hex bytes) = (2 * length bytes)%nat.
Proof.
  induction bytes as [|b r IH]; [reflexivity|].
  rewrite toString_hex_cons. cbn [String.length length]. rewrite IH. lia.
Qed.

Lemma toString_hex_all_hex (bytes : list byte) :
  all_chars is_lower_hex (toString_hex bytes) = true.
Proof.
  induction bytes as [|b r IH]; [reflexivity|].
  rewrite toString_hex_cons. cbn [all_chars].
  destruct (hex_of_byte_is_hex b) as [-> ->]. exact IH.
Qed.

Lemma toString_hex_inj (a b : list byte) :
  toString_hex a = toString_hex b -> a = b.
Proof.
  revert b. induction a as [|x a IH]; intros [|y b] H;
    try reflexivity; try discriminate H.
  rewrite !toString_hex_cons in H. injection H as H1 H2 H3.
  f_equal; [|apply IH, H3].
  assert (Some x = Some y) as [= ->]; [|reflexivity].
  rewrite <- (hex_of_byte_decodes x), <- (hex_of_byte_decodes y), H1, H2.
  reflexivity.
Qed.

(** generateQRToken returns a string of exactly 64 characters, all of them
    lowercase hexadecimal digits; it asks the random source once, for 32
    bytes, and does not touch the store. *)
Theorem token_is_64_hex_characters (env : Env) (s : Store) :
  let r := generateQRToken env s in
  String.length (value r) = 64%nat
  /\ all_chars is_lower_hex (value r) = true
  /\ trace r = [ERandomBytes 32]
  /\ store_after r = s.
Proof.
  unfold generateQRToken, randomBytes, bind, call, ret.
  cbn [value store_after trace app].
  split; [|split; [apply toString_hex_all_hex|split; reflexivity]].
  rewrite toString_hex_length, length_map, length_seq. reflexivity.
Qed.

(** The token keeps all the randomness it is made of: two calls return the
    same token exactly when the random source gave the same 32 bytes. *)
Theorem token_determines_its_random_bytes (env1 env2 : Env) (s1 s2 : Store) :
  value (generateQRToken env1 s1) = value (generateQRToken env2 s2)
  <-> forall i, (i < 32)%nat -> entropy env1 i = entropy env2 i.
Proof.
  unfold generateQRToken, randomBytes, bind, call, ret.
  cbn [value store_after]. split.
  - intros H i Hi. apply toString_hex_inj in H.
    assert (Hi' : seq 0 32 !! i = Some i).
    { rewrite lookup_seq. split; [reflexivity|exact Hi]. }
    pose proof (f_equal (fun l => l !! i) H) as Hl. cbn beta in Hl.
    rewrite !list_lookup_fmap, Hi' in Hl. cbn in Hl. congruence.
  - intros H. f_equal. apply map_ext_in. intros i Hi.
    apply H. apply in_seq in Hi. lia.
Qed.

End QrProps.

(** ** Webhook receiver: acknowledgement, verification, Orders over time *)

Module WebhookProps.
Import JsString InMemoryOrderStore StripePlugin StoreFacts HandlerFacts
  TraceFacts QrProps.

Lemma verified_or_rejected env request s :
  signature_rejected env request s
  \/ exists event, signature_verifies env request event.
Proof.
  destruct (Webhook.stripe_signature request) as [signature|] eqn:Hsig.
  2:{ left. left. rewrite Hsig. reflexivity. }
  destruct (String.eqb signature "") eqn:Hempty.
  { left. left. rewrite Hsig. cbn. rewrite Hempty. reflexivity. }
  destruct (value (verifyWebhookSignature env (Webhook.rawBody request)
                     signature s)) as [event|] eqn:Hverify.
  2:{ left. right. eauto. }
  right. exists event, signature. revert Hverify.
  unfold verifyWebhookSignature.
  destruct (STRIPE_WEBHOOK_SECRET env) as [secret|]; [|discriminate].
  destruct (String.eqb secret "") eqn:Hsecret; [discriminate|].
  cbn. intros Hev. exists secret.
  repeat split; try assumption; try reflexivity.
  - apply String.eqb_neq. exact Hempty.
  - apply String.eqb_neq. exact Hsecret.
Qed.

(** Every webhook request gets one of two answers.  Either its signature
    verifies, and it is acknowledged with status 200 and the body
    [{ received: true }], whatever the type of the event and whatever the
    store holds; or it does not, and it is answered with status 400 and
    the store is left as it was. *)
Theorem webhook_acknowledges_exactly_the_authenticated
    (env : Env) (request : Webhook.Request) (s : Store) :
  let r := Webhook.post env request s in
  ((exists event, signature_verifies env request event)
   /\ value r = {| statusCode := 200; body := BodyReceived |})
  \/ (signature_rejected env request s
      /\ statusCode (value r) = 400
      /\ (exists message, body (value r) = BodyError message)
      /\ store_after r = s).
Proof.
  cbv zeta.
  destruct (verified_or_rejected env request s) as [Hrej|[event Hv]].
  - right. destruct (post_rejected _ _ _ Hrej) as (Hstore & Hstatus & _).
    repeat split; try assumption.
    revert Hstatus. unfold Webhook.post.
    destruct (negb (truthy (Webhook.stripe_signature request)));
      [cbn; eauto|].
    unfold bind. cbv zeta.
    destruct (value (verifyWebhookSignature env (Webhook.rawBody request)
                       (default "" (Webhook.stripe_signature request)) s));
      cbn; [discriminate|eauto].
  - left. split; [eauto|]. rewrite (post_verified _ _ _ _ Hv). reflexivity.
Qed.

(** A correctly signed event of any type other than
    payment_intent.succeeded is acknowledged with status 200 and touches
    nothing: the store is unchanged and the only effect of the request is
    the verification of the signature. *)
Theorem unhandled_event_is_acknowledged_and_ignored
    (env : Env) (request : Webhook.Request) (event : StripeEvent) (s : Store) :
  signature_verifies env request event ->
  event_type event <> "payment_intent.succeeded" ->
  let r := Webhook.post env request s in
  value r = {| statusCode := 200; body := BodyReceived |}
  /\ store_after r = s
  /\ exists signature secret,
       trace r = [EConstructEvent (Webhook.rawBody request) signature secret].
Proof.
  intros Hv Htype r. subst r. rewrite (post_verified _ _ _ _ Hv).
  apply String.eqb_neq in Htype. rewrite Htype. cbn. eauto.
Qed.

Lemma unhandled_event_is_acknowledged_and_ignored_witness :
  let event := {| event_id := "evt_2"; event_type := "charge.refunded";
                  data_object := Samples.paid |} in
  let r := Webhook.post (Samples.env event) Samples.signed empty_store in
  value r = {| statusCode := 200; body := BodyReceived |}
  /\ store_after r = empty_store
  /\ exists signature secret,
       trace r = [EConstructEvent (Webhook.rawBody Samples.signed)
                    signature secret].
Proof.
  assert (Hv : signature_verifies
                 (Samples.env {| event_id := "evt_2";
                                 event_type := "charge.refunded";
                                 data_object := Samples.paid |})
                 Samples.signed
                 {| event_id := "evt_2"; event_type := "charge.refunded";
                    data_object := Samples.paid |}).
  { exists "t=1,v1=good", "whsec_test".
    repeat split; try reflexivity; discriminate. }
  assert (Hother : "charge.refunded" <> "payment_intent.succeeded")
    by discriminate.
  exact (unhandled_event_is_acknowledged_and_ignored _ _ _ empty_store
           Hv Hother).
Defined.

(** The processor's library is asked to verify a signature only with the
    raw body of the request exactly as received, a signature header that is
    present and not empty, and a configured, non-empty secret. *)
Theorem verification_uses_raw_body_header_and_secret
    (env : Env) (request : Webhook.Request) (s : Store)
    (payload : list byte) (signature secret : string) :
  EConstructEvent payload signature secret ∈ trace (Webhook.post env request s) ->
  payload = Webhook.rawBody request
  /\ Webhook.stripe_signature request = Some signature
  /\ signature <> ""
  /\ STRIPE_WEBHOOK_SECRET env = Some secret
  /\ secret <> "".
Proof.
  unfold Webhook.post, truthy.
  destruct (Webhook.stripe_signature request) as [sig|];
    [|cbn; intros H; inversion H].
  destruct (String.eqb sig "") eqn:Hsig; [cbn; intros H; inversion H|].
  change (default "" (Some sig)) with sig. cbn [negb].
  unfold bind, verifyWebhookSignature. cbv zeta.
  destruct (STRIPE_WEBHOOK_SECRET env) as [sec|];
    [|cbn; intros H; inversion H].
  destruct (String.eqb sec "") eqn:Hsec; [cbn; intros H; inversion H|].
  cbn [call value store_after trace].
  intros Hin. apply elem_of_app in Hin as [Hin|Hin].
  - apply list_elem_of_singleton in Hin. injection Hin as -> -> ->.
    repeat split; try reflexivity; apply String.eqb_neq; assumption.
  - exfalso. revert Hin.
    destruct (constructEvent env (Webhook.rawBody request) sig sec)
      as [event|]; [|cbn; intros H; inversion H].
    unfold bind. cbv zeta. cbn [reply ret trace value store_after].
    rewrite app_nil_r.
    destruct (String.eqb (event_type event) "payment_intent.succeeded");
      [|cbn; intros H; inversion H].
    destruct (decide (id (data_object event) ∈ processedPaymentIntents s))
      as [Hp|Hp].
    + rewrite succeeded_already_processed by exact Hp. cbn. intros H.
      apply list_elem_of_singleton in H. discriminate.
    + rewrite succeeded_not_yet_processed by exact Hp. cbn. intros H.
      repeat (apply elem_of_cons in H as [H|H]; [discriminate|]).
      inversion H.
Qed.

Lemma verification_uses_raw_body_header_and_secret_witness :
  [] = Webhook.rawBody Samples.signed
  /\ Webhook.stripe_signature Samples.signed = Some "t=1,v1=good"
  /\ "t=1,v1=good" <> ""
  /\ STRIPE_WEBHOOK_SECRET (Samples.env (Samples.succeeded Samples.paid))
     = Some "whsec_test"
  /\ "whsec_test" <> "".
Proof.
  apply (verification_uses_raw_body_header_and_secret
           (Samples.env (Samples.succeeded Samples.paid)) Samples.signed
           empty_store).
  vm_compute. left.
Defined.

(** Without a configured webhook secret (unset or empty) no notification
    gets through: every request is answered with status 400, the
    processor's library is not consulted at all, and the store is
    unchanged. *)
Theorem missing_secret_rejects_every_notification
    (env : Env) (request : Webhook.Request) (s : Store) :
  STRIPE_WEBHOOK_SECRET env = None \/ STRIPE_WEBHOOK_SECRET env = Some "" ->
  let r := Webhook.post env request s in
  statusCode (value r) = 400
  /\ trace r = []
  /\ store_after r = s.
Proof.
  intros Hsecret r. subst r. unfold Webhook.post.
  destruct (negb (truthy (Webhook.stripe_signature request)));
    [repeat split|].
  unfold bind, verifyWebhookSignature. cbv zeta.
  destruct Hsecret as [-> | ->]; repeat split.
Qed.

Lemma missing_secret_rejects_every_notification_witness :
  let env :=
    {| STRIPE_WEBHOOK_SECRET := None;
       constructEvent := fun _ _ _ => Some (Samples.succeeded Samples.paid);
       entropy := fun _ => "*"%byte;
       now := 0;
       toDataURL := fun _ => None;
       paymentIntents_create := fun _ => Thrown true;
       Number_toString := fun _ => "0" |} in
  let r := Webhook.post env Samples.signed empty_store in
  statusCode (value r) = 400
  /\ trace r = []
  /\ store_after r = empty_store.
Proof.
  apply (missing_secret_rejects_every_notification
           {| STRIPE_WEBHOOK_SECRET := None;
              constructEvent := fun _ _ _ => Some (Samples.succeeded Samples.paid);
              entropy := fun _ => "*"%byte;
              now := 0;
              toDataURL := fun _ => None;
              paymentIntents_create := fun _ => Thrown true;
              Number_toString := fun _ => "0" |}
           Samples.signed empty_store).
  left. reflexivity.
Defined.

End WebhookProps.

(** ** The store over the life of the service *)

Module ServiceProps.
Import JsString InMemoryOrderStore StoreFacts HandlerFacts TraceFacts QrProps.

(** An Order as the service files it: under its own identifier, with
    status valid and a token of 64 lowercase hexadecimal digits. *)
Definition well_formed (pid : string) (o : Order) : Prop :=
  paymentIntentId o = pid
  /\ status o = valid
  /\ String.length (qrToken o) = 64%nat
  /\ all_chars is_lower_hex (qrToken o) = true.

Lemma new_order_well_formed env paymentIntent :
  well_formed (id paymentIntent) (new_order env paymentIntent).
Proof.
  split; [reflexivity|]. split; [reflexivity|]. split.
  - unfold new_order. cbn [qrToken].
    rewrite toString_hex_length, length_map, length_seq. reflexivity.
  - apply toString_hex_all_hex.
Qed.

(** What one request can do to the store: nothing, or the finalization of
    one PaymentIntent that was not marked processed. *)
Lemma handle_store env r s :
  store_after (handle env r s) = s
  \/ exists paymentIntent,
       (id paymentIntent ∉ processedPaymentIntents s)
       /\ store_after (handle env r s)
          = {| orders := <[id paymentIntent := new_order env paymentIntent]>
                           (orders s);
               processedPaymentIntents :=
                 {[id paymentIntent]} ∪ processedPaymentIntents s |}.
Proof.
  destruct r as [request|paymentIntentId|requestBody]; cbn [handle].
  - destruct (post_store env request s) as [->|(event & _ & _ & ->)];
      [left; reflexivity|].
    destruct (decide (id (data_object event) ∈ processedPaymentIntents s))
      as [Hin|Hnotin].
    + left. rewrite succeeded_already_processed by exact Hin. reflexivity.
    + right. exists (data_object event).
      rewrite succeeded_not_yet_processed by exact Hnotin. auto.
  - left. apply getQr_store.
  - left. apply createIntent_store.
Qed.

(** In every store the service can be in, an identifier is marked
    processed exactly when its Order is in the store, and every Order in
    the store is filed under its own identifier, has status valid (the
    statuses used and cancelled never occur) and carries a token of 64
    lowercase hexadecimal digits. *)
Theorem reachable_stores_are_well_formed (s : Store) :
  reachable s ->
  (forall pid, pid ∈ processedPaymentIntents s <-> is_Some (orders s !! pid))
  /\ (forall pid o, orders s !! pid = Some o -> well_formed pid o).
Proof.
  intros Hreach. split; [apply (reachable_consistent s Hreach)|].
  induction Hreach as [|env r s _ IH].
  - intros pid o H. cbn in H. rewrite lookup_empty in H. discriminate.
  - destruct (handle_store env r s) as [->|(paymentIntent & _ & ->)];
      [exact IH|].
    intros pid o. cbn [orders].
    destruct (decide (id paymentIntent = pid)) as [<-|Hne].
    + rewrite lookup_insert_eq. intros [= <-]. apply new_order_well_formed.
    + rewrite lookup_insert_ne by exact Hne. apply IH.
Qed.

Lemma reachable_stores_are_well_formed_witness :
  let s := store_after
             (handle (Samples.env (Samples.succeeded Samples.paid))
                (PostWebhook Samples.signed) empty_store) in
  (forall pid, pid ∈ processedPaymentIntents s <-> is_Some (orders s !! pid))
  /\ (forall pid o, orders s !! pid = Some o -> well_formed pid o).
Proof.
  exact (reachable_stores_are_well_formed _
           (reachable_step (Samples.env (Samples.succeeded Samples.paid))
              (PostWebhook Samples.signed) empty_store reachable_start)).
Defined.

(** No request ever changes or removes what the store holds: whatever
    request the service handles in a store it can be in, every Order of
    that store is still there afterwards, unchanged (token included), and
    every processed marker is still set. *)
Theorem orders_are_never_changed (env : Env) (r : Request) (s : Store) :
  reachable s ->
  let s' := store_after (handle env r s) in
  orders s ⊆ orders s'
  /\ processedPaymentIntents s ⊆ processedPaymentIntents s'
  /\ forall pid o, orders s !! pid = Some o -> orders s' !! pid = Some o.
Proof.
  intros Hreach s'. subst s'.
  destruct (reachable_consistent s Hreach) as [_ Hmarks].
  assert (Hsub : orders s ⊆ orders (store_after (handle env r s))
                 /\ processedPaymentIntents s
                    ⊆ processedPaymentIntents (store_after (handle env r s))).
  { destruct (handle_store env r s) as [->|(paymentIntent & Hnew & ->)];
      [split; reflexivity|].
    cbn [orders processedPaymentIntents]. split.
    - apply insert_subseteq.
      destruct (orders s !! id paymentIntent) eqn:Ho; [|reflexivity].
      exfalso. apply Hnew, Hmarks. eauto.
    - apply union_subseteq_r. }
  destruct Hsub as [Ho Hp]. repeat split; try assumption.
  intros pid o Hl. eapply lookup_weaken; eassumption.
Qed.

Lemma orders_are_never_changed_witness :
  let env1 := Samples.env (Samples.succeeded Samples.paid) in
  let env2 := Samples.env (Samples.succeeded (Samples.intent "pi_2" ∅)) in
  let s := store_after (handle env1 (PostWebhook Samples.signed) empty_store) in
  let s' := store_after (handle env2 (PostWebhook Samples.signed) s) in
  orders s !! "pi_1" = Some (new_order env1 Samples.paid)
  /\ "pi_1" ∈ processedPaymentIntents s
  /\ orders s' !! "pi_2" = Some (new_order env2 (Samples.intent "pi_2" ∅))
  /\ orders s ⊆ orders s'
  /\ processedPaymentIntents s ⊆ processedPaymentIntents s'
  /\ forall pid o, orders s !! pid = Some o -> orders s' !! pid = Some o.
Proof.
  split; [vm_compute; reflexivity|].
  split; [apply (bool_decide_unpack _); vm_compute; reflexivity|].
  split; [vm_compute; reflexivity|].
  exact (orders_are_never_changed
           (Samples.env (Samples.succeeded (Samples.intent "pi_2" ∅)))
           (PostWebhook Samples.signed)
           (store_after
              (handle (Samples.env (Samples.succeeded Samples.paid))
                 (PostWebhook Samples.signed) empty_store))
           (reachable_step (Samples.env (Samples.succeeded Samples.paid))
              (PostWebhook Samples.signed) empty_store reachable_start)).
Defined.

End ServiceProps.

(** ** Order query endpoint: found Orders, malformed identifiers *)

Module OrdersProps.
Import JsString InMemoryOrderStore QrService StoreFacts HandlerFacts QrProps.

Lemma getQr_known env paymentIntentId order s :
  startsWith paymentIntentId "pi_" = true ->
  orders s !! paymentIntentId = Some order ->
  trace (Orders.getQr env paymentIntentId s)
  = [EGetOrder paymentIntentId; EToDataURL (qrToken order)]
  /\ value (Orders.getQr env paymentIntentId s)
     = match toDataURL env (qrToken order) with
       | Some image =>
           {| statusCode := 200; body := BodyReady (qrToken order) image |}
       | None =>
           {| statusCode := 500;
              body := BodyError "Failed to generate QR code" |}
       end.
Proof.
  intros Hprefix Hsome. unfold Orders.getQr. rewrite Hprefix.
  assert (Htruthy : truthy (Some paymentIntentId) = true).
  { destruct paymentIntentId; [discriminate|reflexivity]. }
  rewrite Htruthy. cbn [negb orb]. unfold bind. cbn. rewrite Hsome. cbn.
  destruct (toDataURL env (qrToken order)); split; reflexivity.
Qed.

(** For an identifier that starts with "pi_" and has an Order in the store,
    the endpoint reads the store once and asks the renderer once, for the
    token of that Order: when the renderer returns an image the answer is
    status 200 with "ready", the stored token and that image; when the
    renderer throws it is status 500 with an error, distinct from
    "pending". *)
Theorem known_id_is_ready_or_render_error
    (env : Env) (paymentIntentId : string) (order : Order) (s : Store) :
  startsWith paymentIntentId "pi_" = true ->
  orders s !! paymentIntentId = Some order ->
  let r := Orders.getQr env paymentIntentId s in
  trace r = [EGetOrder paymentIntentId; EToDataURL (qrToken order)]
  /\ value r
     = match toDataURL env (qrToken order) with
       | Some image =>
           {| statusCode := 200; body := BodyReady (qrToken order) image |}
       | None =>
           {| statusCode := 500;
              body := BodyError "Failed to generate QR code" |}
       end.
Proof. intros Hprefix Hsome. apply getQr_known; assumption. Qed.

Lemma known_id_is_ready_or_render_error_witness :
  let env := Samples.env (Samples.succeeded Samples.paid) in
  let s := store_after (Webhook.post env Samples.signed empty_store) in
  let order := HandlerFacts.new_order env Samples.paid in
  let r := Orders.getQr env "pi_1" s in
  trace r = [EGetOrder "pi_1"; EToDataURL (qrToken order)]
  /\ value r
     = match toDataURL env (qrToken order) with
       | Some image =>
           {| statusCode := 200; body := BodyReady (qrToken order) image |}
       | None =>
           {| statusCode := 500;
              body := BodyError "Failed to generate QR code" |}
       end.
Proof.
  exact (known_id_is_ready_or_render_error
           (Samples.env (Samples.succeeded Samples.paid)) "pi_1"
           (HandlerFacts.new_order
              (Samples.env (Samples.succeeded Samples.paid)) Samples.paid)
           (store_after
              (Webhook.post (Samples.env (Samples.succeeded Samples.paid))
                 Samples.signed empty_store))
           eq_refl eq_refl).
Defined.

(** An identifier that does not start with "pi_" (the empty one included)
    is refused with status 400 before anything else happens: the store is
    not read and the renderer is not called, even if an Order is filed
    under that identifier. *)
Theorem malformed_id_is_refused_without_lookup
    (env : Env) (paymentIntentId : string) (s : Store) :
  startsWith paymentIntentId "pi_" = false ->
  let r := Orders.getQr env paymentIntentId s in
  value r = {| statusCode := 400;
               body := BodyError "Invalid PaymentIntent ID format" |}
  /\ trace r = []
  /\ store_after r = s.
Proof.
  intros Hprefix. unfold Orders.getQr. rewrite Hprefix.
  rewrite orb_true_r. repeat split.
Qed.

Lemma malformed_id_is_refused_without_lookup_witness :
  let r := Orders.getQr (Samples.env (Samples.succeeded Samples.paid))
             "ch_1" empty_store in
  value r = {| statusCode := 400;
               body := BodyError "Invalid PaymentIntent ID format" |}
  /\ trace r = []
  /\ store_after r = empty_store.
Proof.
  exact (malformed_id_is_refused_without_lookup
           (Samples.env (Samples.succeeded Samples.paid)) "ch_1" empty_store
           eq_refl).
Defined.

(** From payment to ticket.  Once a correctly signed
    payment_intent.succeeded notification for a not yet processed
    identifier starting with "pi_" has been handled, a query for that
    identifier is answered from the Order just filed: with "ready", the
    token made of the 32 random bytes of that delivery, and the image the
    renderer returns for it (or status 500 when the renderer throws).  A
    repeated delivery of the notification, even with other random bytes
    and another clock, does not change that answer. *)
Theorem paid_order_is_ready_with_its_first_token
    (env1 env2 envq : Env) (request : Webhook.Request) (event : StripeEvent)
    (s : Store) :
  signature_verifies env1 request event ->
  signature_verifies env2 request event ->
  event_type event = "payment_intent.succeeded" ->
  id (data_object event) ∉ processedPaymentIntents s ->
  startsWith (id (data_object event)) "pi_" = true ->
  let pid := id (data_object event) in
  let once := store_after (Webhook.post env1 request s) in
  let twice := store_after (Webhook.post env2 request once) in
  let token := value (generateQRToken env1 s) in
  value (Orders.getQr envq pid once)
  = match toDataURL envq token with
    | Some image => {| statusCode := 200; body := BodyReady token image |}
    | None => {| statusCode := 500;
                 body := BodyError "Failed to generate QR code" |}
    end
  /\ value (Orders.getQr envq pid twice) = value (Orders.getQr envq pid once).
Proof.
  intros Hv1 Hv2 Htype Hnew Hprefix pid once twice token.
  subst once twice token.
  rewrite (post_succeeded _ _ _ s Hv1 Htype). cbv zeta.
  rewrite succeeded_not_yet_processed by exact Hnew. cbn [store_after].
  set (s1 := {| orders := _; processedPaymentIntents := _ |}).
  assert (Hin1 : pid ∈ processedPaymentIntents s1)
    by (cbn; apply elem_of_union_l, elem_of_singleton; reflexivity).
  rewrite (post_succeeded _ _ _ s1 Hv2 Htype). cbv zeta.
  rewrite succeeded_already_processed by exact Hin1. cbn [store_after].
  split; [|reflexivity].
  assert (Hsome : orders s1 !! pid = Some (new_order env1 (data_object event)))
    by (cbn; apply lookup_insert_eq).
  destruct (getQr_known envq pid _ s1 Hprefix Hsome) as [_ ->].
  reflexivity.
Qed.

Lemma paid_order_is_ready_with_its_first_token_witness :
  let env := Samples.env (Samples.succeeded Samples.paid) in
  let once := store_after (Webhook.post env Samples.signed empty_store) in
  let twice := store_after (Webhook.post env Samples.signed once) in
  let token := value (generateQRToken env empty_store) in
  value (Orders.getQr env "pi_1" once)
  = match toDataURL env token with
    | Some image => {| statusCode := 200; body := BodyReady token image |}
    | None => {| statusCode := 500;
                 body := BodyError "Failed to generate QR code" |}
    end
  /\ value (Orders.getQr env "pi_1" twice) = value (Orders.getQr env "pi_1" once).
Proof.
  assert (Hv : signature_verifies (Samples.env (Samples.succeeded Samples.paid))
                 Samples.signed (Samples.succeeded Samples.paid)).
  { exists "t=1,v1=good", "whsec_test".
    repeat split; try reflexivity; discriminate. }
  assert (Hnew : "pi_1" ∉ processedPaymentIntents empty_store)
    by apply not_elem_of_empty.
  exact (paid_order_is_ready_with_its_first_token
           (Samples.env (Samples.succeeded Samples.paid))
           (Samples.env (Samples.succeeded Samples.paid))
           (Samples.env (Samples.succeeded Samples.paid))
           Samples.signed (Samples.succeeded Samples.paid) empty_store
           Hv Hv eq_refl Hnew eq_refl).
Defined.

End OrdersProps.

(** ** Payment-intent initiator: validation and the call to the processor *)

Module CheckoutProps.
Import JsNumber Pricing Zod TraceFacts.

Lemma is_nan_spec (x : float) :
  is_nan x = match Prim2SF x with S754_nan => true | _ => false end.
Proof.
  unfold is_nan. rewrite FloatAxioms.eqb_spec. unfold SFeqb.
  destruct (Prim2SF x) as [s|s| |s m e]; cbn.
  - reflexivity.
  - destruct s; reflexivity.
  - reflexivity.
  - rewrite Z.compare_refl, Pos.compare_cont_refl. destruct s; reflexivity.
Qed.

Lemma integer_is_not_nan (x : float) :
  Number_isInteger x = true -> is_nan x = false.
Proof.
  rewrite is_nan_spec. unfold Number_isInteger.
  destruct (Prim2SF x); try reflexivity. discriminate.
Qed.

Lemma negative_is_not_nan (x : float) :
  PrimFloat.ltb x 0 = true -> is_nan x = false.
Proof.
  rewrite is_nan_spec, FloatAxioms.ltb_spec.
  destruct (Prim2SF x); try reflexivity. discriminate.
Qed.

Lemma parse_quantity_clean key message v x :
  parse_quantity key message v = Parsed x [] ->
  v = JsNumber x /\ Number_isInteger x = true /\ PrimFloat.ltb x 0 = false.
Proof.
  unfold parse_quantity. destruct v as [| | |y| | |]; try discriminate.
  destruct (is_nan y); [discriminate|].
  destruct (Number_isInteger y) eqn:Hint; [|discriminate].
  destruct (PrimFloat.ltb y 0) eqn:Hneg; [discriminate|].
  intros [= <-]. auto.
Qed.

Lemma parse_quantity_valid key message x :
  Number_isInteger x = true -> PrimFloat.ltb x 0 = false ->
  parse_quantity key message (JsNumber x) = Parsed x [].
Proof.
  intros Hint Hneg. unfold parse_quantity.
  rewrite (integer_is_not_nan x Hint), Hint, Hneg. reflexivity.
Qed.

(** The language of a body: absent, or one of the three tags. *)
Definition language_of (v : JsValue) (language : string) : Prop :=
  (v = JsUndefined /\ language = "en")
  \/ (v = JsString language /\ language ∈ languages).

Lemma parse_language_parsed key v language issues :
  parse_language key v = Parsed language issues ->
  issues = [] /\ language_of v language.
Proof.
  unfold parse_language, language_of.
  destruct v as [| | | |l| |]; cbn -[existsb]; try discriminate.
  - intros [= <- <-]. auto.
  - destruct (existsb (String.eqb l) languages) eqn:Hl; [|discriminate].
    intros [= <- <-]. split; [reflexivity|]. right. split; [reflexivity|].
    apply existsb_exists in Hl as (l' & Hin & Heq).
    apply String.eqb_eq in Heq as ->. apply list_elem_of_In, Hin.
Qed.

Lemma parse_language_valid key v language :
  language_of v language -> parse_language key v = Parsed language [].
Proof.
  unfold parse_language. intros [[-> ->]|[-> Hin]]; [reflexivity|].
  assert (Hl : existsb (String.eqb language) languages = true).
  { apply existsb_exists. exists language. split.
    - apply list_elem_of_In, Hin.
    - apply String.eqb_refl. }
  rewrite Hl. reflexivity.
Qed.

(** A body passes [createIntentSchema] exactly when it is an object whose
    two quantities are integral Numbers that are not negative, at least one
    of them positive, and whose language is absent or one of the tags. *)
Definition valid_body (body : JsValue) (data : CreateIntentBody) : Prop :=
  exists props,
    body = JsObject props
    /\ get props "femaleQty" = JsNumber (body_femaleQty data)
    /\ get props "maleQty" = JsNumber (body_maleQty data)
    /\ Number_isInteger (body_femaleQty data) = true
    /\ Number_isInteger (body_maleQty data) = true
    /\ PrimFloat.ltb (body_femaleQty data) 0 = false
    /\ PrimFloat.ltb (body_maleQty data) 0 = false
    /\ PrimFloat.ltb 0 (body_femaleQty data)
       || PrimFloat.ltb 0 (body_maleQty data) = true
    /\ language_of (get props "language") (body_language data).

Lemma safeParse_success body data :
  safeParse createIntentSchema body = inl data <-> valid_body body data.
Proof.
  unfold safeParse, createIntentSchema, parse_object, valid_body. split.
  - destruct body as [| | | | | |props]; try discriminate.
    destruct (parse_quantity "femaleQty" _ (get props "femaleQty"))
      as [f fi|fi] eqn:Hf; [|discriminate].
    destruct (parse_quantity "maleQty" _ (get props "maleQty"))
      as [m mi|mi] eqn:Hm; [|discriminate].
    destruct (parse_language "language" (get props "language"))
      as [l li|li] eqn:Hl; [|discriminate].
    cbn [issues_of].
    destruct (parse_language_parsed _ _ _ _ Hl) as [-> Hlang].
    destruct fi as [|i fi]; [|discriminate].
    destruct mi as [|i mi]; [|discriminate].
    destruct (parse_quantity_clean _ _ _ _ Hf) as (Hgf & Hif & Hnf).
    destruct (parse_quantity_clean _ _ _ _ Hm) as (Hgm & Him & Hnm).
    cbn [app].
    destruct (at_least_one_ticket _) eqn:Hone; [|discriminate].
    intros [= <-]. exists props. cbn. auto 12.
  - intros (props & -> & Hgf & Hgm & Hif & Him & Hnf & Hnm & Hone & Hlang).
    rewrite Hgf, Hgm.
    rewrite (parse_quantity_valid _ _ _ Hif Hnf).
    rewrite (parse_quantity_valid _ _ _ Him Hnm).
    rewrite (parse_language_valid _ _ _ Hlang). cbn [issues_of app].
    unfold at_least_one_ticket. cbn [body_femaleQty body_maleQty].
    rewrite Hone. destruct data. reflexivity.
Qed.

(** What the handler does once the body has passed the schema. *)
Lemma createIntent_valid env body data s :
  safeParse createIntentSchema body = inl data ->
  let pricing := calculatePricing (body_femaleQty data) (body_maleQty data) in
  exists params,
    amount params = dollarsToCents (total pricing)
    /\ currency params = "cad"
    /\ create_metadata params
       = [("femaleQty", Number_toString env (body_femaleQty data));
          ("maleQty", Number_toString env (body_maleQty data));
          ("subtotal", Number_toString env (subtotal pricing));
          ("fee", Number_toString env (fee pricing));
          ("language", body_language data)]
    /\ trace (Checkout.createIntent env body s) = [EPaymentIntentsCreate params]
    /\ store_after (Checkout.createIntent env body s) = s
    /\ value (Checkout.createIntent env body s)
       = match paymentIntents_create env params with
         | Created paymentIntent =>
             {| statusCode := 200;
                body := BodyIntentCreated (client_secret paymentIntent)
                          (id paymentIntent) pricing |}
         | Thrown true =>
             {| statusCode := 500;
                body := BodyErrorMessage "Payment service error"
                          "Failed to create payment. Please try again." |}
         | Thrown false =>
             {| statusCode := 500;
                body := BodyErrorMessage "Internal server error"
                          "An unexpected error occurred." |}
         end.
Proof.
  intros Hparse pricing. unfold Checkout.createIntent. rewrite Hparse.
  fold pricing.
  exists {| amount := dollarsToCents (total pricing);
            currency := "cad";
            automatic_payment_methods_enabled := true;
            create_metadata :=
              [("femaleQty", Number_toString env (body_femaleQty data));
               ("maleQty", Number_toString env (body_maleQty data));
               ("subtotal", Number_toString env (subtotal pricing));
               ("fee", Number_toString env (fee pricing));
               ("language", body_language data)] |}.
  split; [reflexivity|]. split; [reflexivity|]. split; [reflexivity|].
  unfold bind, call. cbn.
  destruct (paymentIntents_create env _) as [paymentIntent|[|]];
    repeat split; reflexivity.
Qed.

Lemma createIntent_invalid env body errors s :
  safeParse createIntentSchema body = inr errors ->
  Checkout.createIntent env body s
  = mkOutcome
      {| statusCode := 400;
         body := BodyValidationFailed
                   (map (fun e => (join_path (path e), message e)) errors) |}
      s [].
Proof.
  intros Hparse. unfold Checkout.createIntent. rewrite Hparse. reflexivity.
Qed.

(** Where the schema can raise an issue: at the root of the body or at one
    of its three properties. *)
Definition known_field (field : string) : Prop :=
  field ∈ [""; "femaleQty"; "maleQty"; "language"].

Lemma parse_quantity_issues key message v :
  Forall (fun i => path i = [key]) (issues_of (parse_quantity key message v))
  /\ (forall issues, parse_quantity key message v = Aborted issues ->
        issues <> []).
Proof.
  unfold parse_quantity. destruct v as [| | |x| | |];
    try (split; [repeat constructor|intros ? [= <-]; discriminate]).
  destruct (is_nan x);
    [split; [repeat constructor|intros ? [= <-]; discriminate]|].
  split; [|discriminate]. cbn [issues_of]. apply Forall_app. split.
  - destruct (Number_isInteger x); repeat constructor.
  - destruct (PrimFloat.ltb x 0); repeat constructor.
Qed.

Lemma parse_language_issues key v :
  Forall (fun i => path i = [key]) (issues_of (parse_language key v))
  /\ (forall issues, parse_language key v = Aborted issues -> issues <> []).
Proof.
  unfold parse_language. destruct v as [| | | |l| |]; cbn -[existsb];
    try (split; [repeat constructor|intros ? [= <-]; discriminate]).
  all: match goal with
       | |- context [existsb ?f ?l] => destruct (existsb f l)
       end;
    (split; [repeat constructor|first [discriminate|intros ? [= <-]; discriminate]]).
Qed.

Lemma schema_errors body errors :
  safeParse createIntentSchema body = inr errors ->
  errors <> []
  /\ Forall (fun e => known_field (join_path (path e))) errors.
Proof.
  assert (Hroot : known_field "") by (left).
  assert (Hf : known_field "femaleQty") by (right; left).
  assert (Hm : known_field "maleQty") by (do 2 right; left).
  assert (Hl : known_field "language") by (do 3 right; left).
  assert (Hkey : forall key (l : list Issue),
             known_field key -> Forall (fun i => path i = [key]) l ->
             Forall (fun e => known_field (join_path (path e))) l).
  { intros key l Hk HF. apply (Forall_impl _ _ _ HF). intros i ->. exact Hk. }
  unfold safeParse, createIntentSchema, parse_object.
  destruct body as [| | | | | |props];
    try (intros [= <-]; split; [discriminate|repeat constructor; exact Hroot]).
  pose proof (parse_quantity_issues "femaleQty"
                "Female quantity cannot be negative" (get props "femaleQty"))
    as [Hfi Hfa].
  pose proof (parse_quantity_issues "maleQty"
                "Male quantity cannot be negative" (get props "maleQty"))
    as [Hmi Hma].
  pose proof (parse_language_issues "language" (get props "language"))
    as [Hli Hla].
  assert (Hall : Forall (fun e => known_field (join_path (path e)))
            (issues_of (parse_quantity "femaleQty"
                          "Female quantity cannot be negative"
                          (get props "femaleQty"))
             ++ issues_of (parse_quantity "maleQty"
                             "Male quantity cannot be negative"
                             (get props "maleQty"))
             ++ issues_of (parse_language "language" (get props "language")))).
  { repeat (apply Forall_app; split); eauto. }
  revert Hall.
  destruct (parse_quantity "femaleQty" _ (get props "femaleQty"))
    as [f fi|fi]; cbn [issues_of].
  2:{ intros Hall [= <-]. split; [|exact Hall].
      specialize (Hfa fi eq_refl). destruct fi; [congruence|discriminate]. }
  destruct (parse_quantity "maleQty" _ (get props "maleQty"))
    as [m mi|mi]; cbn [issues_of].
  2:{ intros Hall [= <-]. split; [|exact Hall].
      specialize (Hma mi eq_refl). destruct mi; [congruence|].
      destruct fi; discriminate. }
  destruct (parse_language "language" (get props "language"))
    as [l li|li]; cbn [issues_of].
  2:{ intros Hall [= <-]. split; [|exact Hall].
      specialize (Hla li eq_refl). destruct li; [congruence|].
      destruct fi, mi; discriminate. }
  intros Hall.
  destruct (at_least_one_ticket _).
  - rewrite app_nil_r.
    destruct (fi ++ mi ++ li) eqn:Hi; [discriminate|].
    intros [= <-]. split; [discriminate|exact Hall].
  - destruct ((fi ++ mi ++ li) ++ _) eqn:Hi.
    { apply app_eq_nil in Hi as [_ Hi]. discriminate. }
    intros [= <-]. rewrite <- Hi. split; [rewrite Hi; discriminate|].
    apply Forall_app. split; [exact Hall|].
    constructor; [exact Hroot|constructor].
Qed.

(** A body that does not pass the schema is answered with status 400 and a
    "Validation failed" body that lists at least one field/message pair,
    each for the root of the body or one of its three properties; nothing
    else happens: the processor is not called and the store is unchanged. *)
Theorem invalid_body_is_rejected_without_effect
    (env : Env) (body : JsValue) (s : Store) :
  (forall data, ~ valid_body body data) ->
  let r := Checkout.createIntent env body s in
  exists details,
    value r = {| statusCode := 400; body := BodyValidationFailed details |}
    /\ details <> []
    /\ Forall (fun d => known_field (fst d)) details
    /\ trace r = []
    /\ store_after r = s.
Proof.
  intros Hinvalid r. subst r.
  destruct (safeParse createIntentSchema body) as [data|errors] eqn:Hparse.
  { exfalso. apply (Hinvalid data), safeParse_success, Hparse. }
  rewrite (createIntent_invalid _ _ _ _ Hparse). cbn [value trace store_after].
  destruct (schema_errors _ _ Hparse) as [Hne Hfields].
  eexists. split; [reflexivity|]. split; [|split; [|split; reflexivity]].
  - destruct errors; [congruence|discriminate].
  - apply Forall_map. exact Hfields.
Qed.

Lemma invalid_body_is_rejected_without_effect_witness :
  let r := Checkout.createIntent (Samples.env (Samples.succeeded Samples.paid))
             (JsArray []) empty_store in
  exists details,
    value r = {| statusCode := 400; body := BodyValidationFailed details |}
    /\ details <> []
    /\ Forall (fun d => known_field (fst d)) details
    /\ trace r = []
    /\ store_after r = empty_store.
Proof.
  apply (invalid_body_is_rejected_without_effect
           (Samples.env (Samples.succeeded Samples.paid)) (JsArray [])
           empty_store).
  intros data (props & Hbody & _). discriminate Hbody.
Defined.

(** A body that passes the schema makes the handler call the processor
    exactly once, for the minor-unit amount of the total it computes, in
    the currency "cad", with the quantities, subtotal, fee and language as
    metadata.  When the processor returns an intent the answer is status
    200 with its client secret, its identifier and the price breakdown;
    when it throws, the answer is status 500 with one of two fixed
    messages.  The store is not touched. *)
Theorem valid_body_calls_processor_once
    (env : Env) (body : JsValue) (data : CreateIntentBody) (s : Store) :
  valid_body body data ->
  let pricing := calculatePricing (body_femaleQty data) (body_maleQty data) in
  let r := Checkout.createIntent env body s in
  exists params,
    amount params = dollarsToCents (total pricing)
    /\ currency params = "cad"
    /\ create_metadata params
       = [("femaleQty", Number_toString env (body_femaleQty data));
          ("maleQty", Number_toString env (body_maleQty data));
          ("subtotal", Number_toString env (subtotal pricing));
          ("fee", Number_toString env (fee pricing));
          ("language", body_language data)]
    /\ trace r = [EPaymentIntentsCreate params]
    /\ store_after r = s
    /\ value r
       = match paymentIntents_create env params with
         | Created paymentIntent =>
             {| statusCode := 200;
                body := BodyIntentCreated (client_secret paymentIntent)
                          (id paymentIntent) pricing |}
         | Thrown true =>
             {| statusCode := 500;
                body := BodyErrorMessage "Payment service error"
                          "Failed to create payment. Please try again." |}
         | Thrown false =>
             {| statusCode := 500;
                body := BodyErrorMessage "Internal server error"
                          "An unexpected error occurred." |}
         end.
Proof.
  intros Hvalid. apply createIntent_valid, safeParse_success, Hvalid.
Qed.

Lemma valid_body_calls_processor_once_witness :
  let env := Samples.env (Samples.succeeded Samples.paid) in
  let pricing := calculatePricing 2 1 in
  let r := Checkout.createIntent env
             (JsObject [("femaleQty", JsNumber 2); ("maleQty", JsNumber 1)])
             empty_store in
  exists params,
    amount params = dollarsToCents (total pricing)
    /\ currency params = "cad"
    /\ create_metadata params
       = [("femaleQty", Number_toString env 2%float);
          ("maleQty", Number_toString env 1%float);
          ("subtotal", Number_toString env (subtotal pricing));
          ("fee", Number_toString env (fee pricing));
          ("language", "en")]
    /\ trace r = [EPaymentIntentsCreate params]
    /\ store_after r = empty_store
    /\ value r
       = match paymentIntents_create env params with
         | Created paymentIntent =>
             {| statusCode := 200;
                body := BodyIntentCreated (client_secret paymentIntent)
                          (id paymentIntent) pricing |}
         | Thrown true =>
             {| statusCode := 500;
                body := BodyErrorMessage "Payment service error"
                          "Failed to create payment. Please try again." |}
         | Thrown false =>
             {| statusCode := 500;
                body := BodyErrorMessage "Internal server error"
                          "An unexpected error occurred." |}
         end.
Proof.
  apply (valid_body_calls_processor_once
           (Samples.env (Samples.succeeded Samples.paid))
           (JsObject [("femaleQty", JsNumber 2); ("maleQty", JsNumber 1)])
           {| body_femaleQty := 2; body_maleQty := 1; body_language := "en" |}
           empty_store).
  exists [("femaleQty", JsNumber 2); ("maleQty", JsNumber 1)].
  repeat split; try reflexivity. left. split; reflexivity.
Defined.

(** The quantities from 0 to 1000 as Numbers: integral, not negative, and
    positive exactly when the integer is. *)
Definition quantity_ok_b (q : Z) : bool :=
  Number_isInteger (of_Z q)
  && negb (PrimFloat.ltb (of_Z q) 0)
  && Bool.eqb (PrimFloat.ltb 0 (of_Z q)) (0 <? q).

Lemma quantities_checked :
  PricingFacts.forall_from 1001 0 quantity_ok_b = true.
Proof. vm_compute. reflexivity. Qed.

Lemma quantity_ok (q : Z) :
  0 <= q <= 1000 ->
  Number_isInteger (of_Z q) = true
  /\ PrimFloat.ltb (of_Z q) 0 = false
  /\ PrimFloat.ltb 0 (of_Z q) = (0 <? q).
Proof.
  intros Hq.
  assert (Hb : quantity_ok_b q = true)
    by (apply (PricingFacts.forall_from_spec _ 1001 0 q quantities_checked);
        lia).
  unfold quantity_ok_b in Hb.
  apply andb_prop in Hb as [Hb Hpos]. apply andb_prop in Hb as [Hint Hneg].
  apply negb_true_iff in Hneg. apply Bool.eqb_prop in Hpos. auto.
Qed.

Lemma fee_cents_exact (subtotal : Z) :
  round_div (subtotal * 100 * 8) 100 = subtotal * 8.
Proof.
  unfold round_div.
  replace (2 * (subtotal * 100 * 8) + 100)
    with (subtotal * 8 * (2 * 100) + 100) by lia.
  rewrite Z.div_add_l by lia. rewrite (Z.div_small 100) by lia. lia.
Qed.

(** For quantities from 0 to 1000 each, at least one of them positive, and
    a language that is absent or one of the three tags, the handler calls
    the processor exactly once, in the currency "cad", for an amount of
    exactly 108 minor units per female ticket and 216 per male ticket:
    price plus 8% fee, with no rounding loss on binary64. *)
Theorem processor_is_asked_for_the_exact_amount
    (env : Env) (props : list (string * JsValue)) (f m : Z)
    (language : string) (s : Store) :
  0 <= f <= 1000 ->
  0 <= m <= 1000 ->
  0 < f \/ 0 < m ->
  get props "femaleQty" = JsNumber (of_Z f) ->
  get props "maleQty" = JsNumber (of_Z m) ->
  language_of (get props "language") language ->
  exists params,
    trace (Checkout.createIntent env (JsObject props) s)
    = [EPaymentIntentsCreate params]
    /\ to_Z (amount params) = Some (f * 108 + m * 216)
    /\ currency params = "cad".
Proof.
  intros Hf Hm Hone Hgf Hgm Hlang.
  destruct (quantity_ok f Hf) as (Hif & Hnf & Hpf).
  destruct (quantity_ok m Hm) as (Him & Hnm & Hpm).
  assert (Hvalid : valid_body (JsObject props)
                     {| body_femaleQty := of_Z f; body_maleQty := of_Z m;
                        body_language := language |}).
  { exists props. cbn [body_femaleQty body_maleQty body_language].
    repeat split; try assumption. rewrite Hpf, Hpm.
    destruct Hone as [H|H]; apply Z.ltb_lt in H; rewrite H;
      [reflexivity|apply orb_true_r]. }
  apply safeParse_success in Hvalid.
  destruct (createIntent_valid env _ _ s Hvalid)
    as (params & Hamount & Hcurrency & _ & Htrace & _).
  exists params. split; [exact Htrace|]. split; [|exact Hcurrency].
  rewrite Hamount. cbn [body_femaleQty body_maleQty].
  rewrite PricingFacts.calculatePricing_of_subtotal.
  rewrite PricingClaims.subtotal_exact
    by (unfold PricingFacts.max_checked_qty; lia).
  destruct (PricingClaims.from_subtotal_exact (f * 1 + m * 2))
    as (_ & _ & Hcents); [unfold PricingFacts.max_checked_qty; lia|].
  cbv zeta in Hcents. rewrite Hcents, fee_cents_exact. f_equal. lia.
Qed.

Lemma processor_is_asked_for_the_exact_amount_witness :
  exists params,
    trace (Checkout.createIntent (Samples.env (Samples.succeeded Samples.paid))
             (JsObject [("femaleQty", JsNumber 2); ("maleQty", JsNumber 1);
                        ("language", JsString "pt-BR")]) empty_store)
    = [EPaymentIntentsCreate params]
    /\ to_Z (amount params) = Some (2 * 108 + 1 * 216)
    /\ currency params = "cad".
Proof.
  apply (processor_is_asked_for_the_exact_amount
           (Samples.env (Samples.succeeded Samples.paid))
           [("femaleQty", JsNumber 2); ("maleQty", JsNumber 1);
            ("language", JsString "pt-BR")] 2 1 "pt-BR" empty_store);
    try lia; try reflexivity.
  right. split; [reflexivity|]. do 2 right. left.
Defined.

(** The two quantities of the schema, each with its message for a negative
    value. *)
Definition quantity_field (key message : string) : Prop :=
  (key = "femaleQty" /\ message = "Female quantity cannot be negative")
  \/ (key = "maleQty" /\ message = "Male quantity cannot be negative").

(** A negative quantity is reported by name: the request is answered with
    status 400, its details contain the pair of the offending field and
    that field's own message, and the processor is not called. *)
Theorem negative_quantity_is_reported
    (env : Env) (props : list (string * JsValue)) (key message : string)
    (x : float) (s : Store) :
  quantity_field key message ->
  get props key = JsNumber x ->
  PrimFloat.ltb x 0 = true ->
  let r := Checkout.createIntent env (JsObject props) s in
  exists details,
    value r = {| statusCode := 400; body := BodyValidationFailed details |}
    /\ (key, message) ∈ details
    /\ trace r = [].
Proof.
  intros Hfield Hget Hneg r. subst r.
  assert (Hissue : issue [key] too_small (Some message)
                   ∈ issues_of (parse_quantity key message (get props key))).
  { rewrite Hget. unfold parse_quantity.
    rewrite (negative_is_not_nan x Hneg), Hneg. cbn [issues_of].
    apply elem_of_app. right. left. }
  assert (Hin : exists errors,
             safeParse createIntentSchema (JsObject props) = inr errors
             /\ issue [key] too_small (Some message) ∈ errors).
  { unfold safeParse, createIntentSchema, parse_object.
    set (pf := parse_quantity "femaleQty" _ (get props "femaleQty")).
    set (pm := parse_quantity "maleQty" _ (get props "maleQty")).
    set (pl := parse_language "language" (get props "language")).
    assert (Hall : issue [key] too_small (Some message)
                   ∈ issues_of pf ++ issues_of pm ++ issues_of pl).
    { destruct Hfield as [[-> ->]|[-> ->]].
      - apply elem_of_app. left. exact Hissue.
      - apply elem_of_app. right. apply elem_of_app. left. exact Hissue. }
    destruct pf as [fq fi|fi], pm as [mq mi|mi], pl as [lang li|li];
      cbn [issues_of] in Hall |- *; try (eexists; split; [reflexivity|exact Hall]).
    destruct (at_least_one_ticket _).
    - rewrite app_nil_r. destruct (fi ++ mi ++ li) eqn:Hi;
        [inversion Hall|]. eexists. split; [reflexivity|exact Hall].
    - destruct ((fi ++ mi ++ li) ++ _) eqn:Hi.
      { apply app_eq_nil in Hi as [_ Hi]. discriminate. }
      eexists. split; [reflexivity|]. rewrite <- Hi.
      apply elem_of_app. left. exact Hall. }
  destruct Hin as (errors & Hparse & Hin).
  rewrite (createIntent_invalid _ _ _ _ Hparse). cbn [value trace].
  eexists. split; [reflexivity|]. split; [|reflexivity].
  apply (list_elem_of_fmap_2 (fun e => (join_path (path e), Zod.message e))
           errors _) in Hin.
  exact Hin.
Qed.

Lemma negative_quantity_is_reported_witness :
  let r := Checkout.createIntent (Samples.env (Samples.succeeded Samples.paid))
             (JsObject [("femaleQty", JsNumber 1); ("maleQty", JsNumber (-3))])
             empty_store in
  exists details,
    value r = {| statusCode := 400; body := BodyValidationFailed details |}
    /\ ("maleQty", "Male quantity cannot be negative") ∈ details
    /\ trace r = [].
Proof.
  apply (negative_quantity_is_reported
           (Samples.env (Samples.succeeded Samples.paid))
           [("femaleQty", JsNumber 1); ("maleQty", JsNumber (-3))]
           "maleQty" "Male quantity cannot be negative" (-3)%float empty_store).
  - right. split; reflexivity.
  - reflexivity.
  - reflexivity.
Defined.

End CheckoutProps.

(** ** Numbers in and out of strings *)

Module NumberProps.
Import JsNumber JsString JsFormat.

Lemma digit_value_digit_char (d : Z) :
  0 <= d < 10 -> digit_value (digit_char d) = Some d.
Proof.
  intros Hd.
  assert (d = 0 \/ d = 1 \/ d = 2 \/ d = 3 \/ d = 4 \/ d = 5 \/ d = 6
          \/ d = 7 \/ d = 8 \/ d = 9) as Hcases by lia.
  repeat (destruct Hcases as [->|Hcases]; [reflexivity|]).
  subst d. reflexivity.
Qed.

Lemma decimal_digits_step (k : nat) (n : Z) (rest : string) :
  decimal_digits (S k) n rest
  = if n <? 10 then String (digit_char (n mod 10)) rest
    else decimal_digits k (n / 10) (String (digit_char (n mod 10)) rest).
Proof. reflexivity. Qed.

Lemma digits_prefix_decimal (fuel : nat) :
  forall n rest,
    0 <= n < 2 ^ Z.of_nat (S fuel) ->
    digits_prefix (decimal_digits (S fuel) n rest) None
    = digits_prefix rest (Some n).
Proof.
  induction fuel as [|k IH]; intros n rest Hn;
    rewrite decimal_digits_step;
    assert (Hmod : 0 <= n mod 10 < 10) by (apply Z.mod_pos_bound; lia);
    destruct (n <? 10) eqn:Hsmall;
    try (apply Z.ltb_lt in Hsmall; cbn [digits_prefix];
         rewrite digit_value_digit_char by exact Hmod;
         rewrite Z.mod_small by lia; cbn [default]; f_equal; f_equal; lia).
  - apply Z.ltb_ge in Hsmall. change (2 ^ Z.of_nat 1) with 2 in Hn. lia.
  - apply Z.ltb_ge in Hsmall. rewrite IH.
    + cbn [digits_prefix]. rewrite digit_value_digit_char by exact Hmod.
      cbn [default]. f_equal. f_equal.
      rewrite (Z.div_mod n 10) at 3 by lia. reflexivity.
    + split; [apply Z.div_pos; lia|].
      rewrite (Nat2Z.inj_succ (S k)), Z.pow_succ_r in Hn by lia.
      apply Z.div_lt_upper_bound; lia.
Qed.

Lemma decimal_digits_head (fuel : nat) :
  forall n rest,
    0 <= n ->
    exists c r d,
      decimal_digits (S fuel) n rest = String c r /\ digit_value c = Some d.
Proof.
  induction fuel as [|k IH]; intros n rest Hn;
    rewrite decimal_digits_step;
    assert (Hmod : 0 <= n mod 10 < 10) by (apply Z.mod_pos_bound; lia);
    destruct (n <? 10);
    try (eexists _, _, _; split;
         [reflexivity|apply digit_value_digit_char, Hmod]).
  apply IH. apply Z.div_pos; lia.
Qed.

Lemma append_assoc (a b c : string) :
  ((a ++ b) ++ c = a ++ (b ++ c))%string.
Proof.
  induction a as [|x a IH]; [reflexivity|].
  change (String x ((a ++ b) ++ c) = String x (a ++ (b ++ c)))%string.
  f_equal. exact IH.
Qed.

Lemma decimal_digits_app (fuel : nat) :
  forall n rest,
    decimal_digits fuel n rest = (decimal_digits fuel n "" ++ rest)%string.
Proof.
  induction fuel as [|k IH]; intros n rest; [reflexivity|].
  rewrite !decimal_digits_step. destruct (n <? 10); [reflexivity|].
  rewrite IH, (IH _ (String _ "")).
  rewrite append_assoc. reflexivity.
Qed.

Lemma parseInt10_digit_head (c : ascii) (r : string) (d : Z) :
  digit_value c = Some d ->
  parseInt10 (String c r)
  = match digits_prefix (String c r) None with
    | None => nan
    | Some n => if n =? 0 then 0%float else of_Z n
    end.
Proof.
  destruct c as [[|] [|] [|] [|] [|] [|] [|] [|]]; try discriminate;
    intros _; reflexivity.
Qed.

(** The text after a number: empty, or starting with something that is not
    a decimal digit. *)
Definition no_leading_digit (suffix : string) : Prop :=
  match suffix with
  | EmptyString => True
  | String c _ => digit_value c = None
  end.

Lemma printed_integer_parses (z : Z) (suffix : string) :
  0 <= z -> no_leading_digit suffix ->
  parseInt10 (Number_toString_integer z ++ suffix) = of_Z z.
Proof.
  intros Hz Hsuffix. unfold Number_toString_integer.
  rewrite <- decimal_digits_app.
  destruct (decimal_digits_head (Z.to_nat (Z.log2 z)) z suffix Hz)
    as (c & r & d & Hhead & Hdigit).
  rewrite Hhead, (parseInt10_digit_head c r d Hdigit), <- Hhead.
  rewrite digits_prefix_decimal.
  - assert (Hrest : digits_prefix suffix (Some z) = Some z).
    { destruct suffix as [|c' r']; [reflexivity|].
      cbn in Hsuffix. cbn [digits_prefix]. rewrite Hsuffix. reflexivity. }
    rewrite Hrest. destruct (z =? 0) eqn:Hzero; [|reflexivity].
    apply Z.eqb_eq in Hzero as ->. reflexivity.
  - split; [exact Hz|].
    destruct (Z.eq_dec z 0) as [->|Hne]; [reflexivity|].
    rewrite Nat2Z.inj_succ, Z2Nat.id by apply Z.log2_nonneg.
    apply Z.log2_spec. lia.
Qed.

(** A string that starts with a character that is no white space, no sign
    and no decimal digit has no integer to read: parseInt with radix 10
    returns NaN. *)
Lemma parseInt_of_non_numeric_text_is_nan (c : ascii) (r : string) :
  is_white_space c = false ->
  c <> "-"%char -> c <> "+"%char ->
  digit_value c = None ->
  parseInt10 (String c r) = nan.
Proof.
  destruct c as [[|] [|] [|] [|] [|] [|] [|] [|]];
    intros Hws Hminus Hplus Hdigit;
    try discriminate Hws; try discriminate Hdigit;
    try (exfalso; apply Hminus; reflexivity);
    try (exfalso; apply Hplus; reflexivity);
    reflexivity.
Qed.

End NumberProps.

(** ** From checkout to webhook: quantities through the metadata *)

Module MetadataProps.
Import JsNumber JsString JsFormat Zod HandlerFacts CheckoutProps NumberProps.

Lemma append_empty_r (a : string) : (a ++ "")%string = a.
Proof.
  induction a as [|x a IH]; [reflexivity|].
  change (String x (a ++ "")%string = String x a). f_equal. exact IH.
Qed.

Lemma printed_integer_read_from_metadata (z : Z) (fallback : string) :
  0 <= z ->
  parseInt10 (or_default (Some (Number_toString_integer z)) fallback)
  = of_Z z.
Proof.
  intros Hz. unfold or_default.
  destruct (decimal_digits_head (Z.to_nat (Z.log2 z)) z "" Hz)
    as (c & r & d & Hhead & _).
  unfold Number_toString_integer at 1. rewrite Hhead.
  cbn [String.eqb]. rewrite <- (append_empty_r (Number_toString_integer z)).
  apply printed_integer_parses; [exact Hz|exact I].
Qed.

(** The quantities of a request reach the Order.  Take a body that passes
    the schema with integral quantities [f] and [m], printed by the
    runtime as their decimal digits; whatever PaymentIntent carries the
    metadata that the handler gave to the processor, when its
    payment_intent.succeeded notification is finalized (the identifier not
    being marked processed yet), the Order filed has exactly the
    quantities of the request. *)
Theorem quantities_reach_the_order
    (env_checkout env_webhook : Env) (body : JsValue) (data : CreateIntentBody)
    (f m : Z) (params : PaymentIntentCreateParams)
    (paymentIntent : PaymentIntent) (s_checkout s_webhook : Store) :
  valid_body body data ->
  0 <= f -> 0 <= m ->
  body_femaleQty data = of_Z f ->
  body_maleQty data = of_Z m ->
  Number_toString env_checkout (of_Z f) = Number_toString_integer f ->
  Number_toString env_checkout (of_Z m) = Number_toString_integer m ->
  trace (Checkout.createIntent env_checkout body s_checkout)
  = [EPaymentIntentsCreate params] ->
  metadata paymentIntent = list_to_map (create_metadata params) ->
  id paymentIntent ∉ processedPaymentIntents s_webhook ->
  exists order,
    orders (store_after (Webhook.handlePaymentIntentSucceeded env_webhook
                           paymentIntent s_webhook))
    !! id paymentIntent = Some order
    /\ femaleQty order = body_femaleQty data
    /\ maleQty order = body_maleQty data.
Proof.
  intros Hvalid Hf Hm Hfq Hmq Hfs Hms Htrace Hmeta Hnew.
  apply safeParse_success in Hvalid.
  destruct (createIntent_valid env_checkout _ _ s_checkout Hvalid)
    as (params' & _ & _ & Hmd & Htrace' & _).
  rewrite Htrace in Htrace'. injection Htrace' as <-.
  rewrite Hmd in Hmeta. rewrite Hfq, Hmq, Hfs, Hms in Hmeta.
  rewrite succeeded_not_yet_processed by exact Hnew.
  exists (new_order env_webhook paymentIntent).
  cbn [store_after orders]. rewrite lookup_insert_eq.
  split; [reflexivity|]. unfold new_order. cbn [femaleQty maleQty].
  rewrite Hmeta. cbn [list_to_map foldr fst snd uncurry].
  rewrite lookup_insert_eq.
  rewrite lookup_insert_ne, lookup_insert_eq by discriminate.
  rewrite !printed_integer_read_from_metadata by assumption.
  rewrite Hfq, Hmq. split; reflexivity.
Qed.

(** A runtime that prints integral Numbers as their decimal digits. *)
Definition printing_env : Env :=
  {| STRIPE_WEBHOOK_SECRET := Some "whsec_test";
     constructEvent := fun _ _ _ => None;
     entropy := fun _ => "*"%byte;
     now := 1700000000000;
     toDataURL := fun _ => None;
     paymentIntents_create := fun _ => Thrown true;
     Number_toString := fun x =>
       match to_Z x with
       | Some z => Number_toString_integer z
       | None => "NaN"
       end |}.

Definition sample_body : JsValue :=
  JsObject [("femaleQty", JsNumber 2); ("maleQty", JsNumber 1)].

Definition sample_params : PaymentIntentCreateParams :=
  {| amount := 432;
     currency := "cad";
     automatic_payment_methods_enabled := true;
     create_metadata :=
       [("femaleQty", "2"); ("maleQty", "1"); ("subtotal", "4");
        ("fee", "NaN"); ("language", "en")] |}.

Lemma quantities_reach_the_order_witness :
  exists order,
    orders (store_after
              (Webhook.handlePaymentIntentSucceeded printing_env
                 (Samples.intent "pi_9"
                    (list_to_map (create_metadata sample_params)))
                 empty_store))
    !! "pi_9" = Some order
    /\ femaleQty order = 2%float
    /\ maleQty order = 1%float.
Proof.
  assert (Hvalid : valid_body sample_body
                     {| body_femaleQty := 2; body_maleQty := 1;
                        body_language := "en" |}).
  { exists [("femaleQty", JsNumber 2); ("maleQty", JsNumber 1)].
    repeat split; try reflexivity. left. split; reflexivity. }
  assert (Hnew : "pi_9" ∉ processedPaymentIntents empty_store)
    by apply not_elem_of_empty.
  refine (quantities_reach_the_order printing_env printing_env sample_body
            {| body_femaleQty := 2; body_maleQty := 1; body_language := "en" |}
            2 1 sample_params
            (Samples.intent "pi_9" (list_to_map (create_metadata sample_params)))
            empty_store empty_store Hvalid _ _ eq_refl eq_refl eq_refl eq_refl
            eq_refl eq_refl Hnew); lia.
Defined.

(** Metadata is not validated on the way back: when the femaleQty of a
    notification for a not yet processed identifier is a text that starts
    with a character that is no white space, no sign and no digit, the
    Order is filed all the same, with NaN as its number of female
    tickets. *)
Theorem non_numeric_quantity_is_stored_as_nan
    (env : Env) (paymentIntent : PaymentIntent) (c : ascii) (r : string)
    (s : Store) :
  id paymentIntent ∉ processedPaymentIntents s ->
  metadata paymentIntent !! "femaleQty" = Some (String c r) ->
  is_white_space c = false ->
  c <> "-"%char -> c <> "+"%char ->
  digit_value c = None ->
  exists order,
    orders (store_after (Webhook.handlePaymentIntentSucceeded env
                           paymentIntent s))
    !! id paymentIntent = Some order
    /\ femaleQty order = nan.
Proof.
  intros Hnew Hmeta Hws Hminus Hplus Hdigit.
  rewrite succeeded_not_yet_processed by exact Hnew.
  exists (new_order env paymentIntent).
  cbn [store_after orders]. rewrite lookup_insert_eq.
  split; [reflexivity|]. unfold new_order. cbn [femaleQty].
  rewrite Hmeta. cbn [or_default String.eqb].
  apply parseInt_of_non_numeric_text_is_nan; assumption.
Qed.

Lemma non_numeric_quantity_is_stored_as_nan_witness :
  exists order,
    orders (store_after
              (Webhook.handlePaymentIntentSucceeded printing_env
                 (Samples.intent "pi_8" (<["femaleQty" := "two"]> ∅))
                 empty_store))
    !! "pi_8" = Some order
    /\ femaleQty order = nan.
Proof.
  assert (Hnew : "pi_8" ∉ processedPaymentIntents empty_store)
    by apply not_elem_of_empty.
  refine (non_numeric_quantity_is_stored_as_nan printing_env
            (Samples.intent "pi_8" (<["femaleQty" := "two"]> ∅))
            "t" "wo" empty_store Hnew eq_refl eq_refl _ _ eq_refl);
    discriminate.
Defined.

End MetadataProps.

(** ** Server configuration *)

Module ServerProps.
Import JsNumber JsString JsFormat NumberProps MetadataProps.



End ServerProps.


(** ** Amounts and seconds on binary64 *)

Module RoundingProps.
Import JsNumber Pricing PricingFacts.

(** A range check in blocks of 200, to keep the recursion shallow. *)
Definition forall_blocks (blocks : nat) (P : Z -> bool) : bool :=
  forall_from blocks 0 (fun b => forall_from 200 (b * 200) P).

Lemma forall_blocks_spec (P : Z -> bool) (blocks : nat) (i : Z) :
  forall_blocks blocks P = true ->
  0 <= i < Z.of_nat blocks * 200 ->
  P i = true.
Proof.
  intros Hall Hi.
  apply (forall_from_spec (fun i => P i) 200 (i / 200 * 200) i).
  - apply (forall_from_spec
             (fun b => forall_from 200 (b * 200) P) blocks 0 (i / 200) Hall).
    split; [apply Z.div_pos; lia|].
    apply Z.div_lt_upper_bound; lia.
  - pose proof (Z.div_mod i 200) as Hdm.
    pose proof (Z.mod_pos_bound i 200) as Hmod.
    change (Z.of_nat 200) with 200. lia.
Qed.

Definition cents_round_trip_b (c : Z) : bool :=
  PrimFloat.Leibniz.eqb (dollarsToCents (dollars_of_cents c)) (of_Z c).

Lemma cents_round_trip_checked : forall_blocks 501 cents_round_trip_b = true.
Proof. vm_compute. reflexivity. Qed.

(** Dollars back to cents: for every amount from 0 to 100000 cents,
    converting the Number of its dollar value (the amount divided by 100)
    with dollarsToCents gives back exactly that many cents. *)
Theorem dollarsToCents_recovers_the_cents (c : Z) :
  0 <= c <= 100000 ->
  dollarsToCents (of_Z c / 100)%float = of_Z c.
Proof.
  intros Hc. apply FloatAxioms.Leibniz.eqb_spec.
  change (cents_round_trip_b c = true).
  apply (forall_blocks_spec _ 501 c cents_round_trip_checked).
  change (Z.of_nat 501) with 501. lia.
Qed.

Lemma dollarsToCents_recovers_the_cents_witness :
  dollarsToCents (of_Z 432 / 100)%float = of_Z 432.
Proof. apply (dollarsToCents_recovers_the_cents 432). lia. Defined.

Definition seconds_b (ttl : Z) : bool :=
  PrimFloat.Leibniz.eqb (Math_round (of_Z ttl / 1000)%float)
    (of_Z (round_div ttl 1000)).

Lemma seconds_checked : forall_blocks 301 seconds_b = true.
Proof. vm_compute. reflexivity. Qed.

(** The rate-limit answer: status 429, and for every whole number of
    milliseconds left within the time window of one minute, the message
    announces those milliseconds in seconds, rounded to the nearest second
    with halves up, which is at most 60. *)
Theorem rate_limit_announces_rounded_seconds
    (toString : float -> string) (ttl : Z) :
  0 <= ttl <= RateLimit.timeWindow ->
  let response := RateLimit.errorResponseBuilder toString (of_Z ttl) in
  RateLimit.statusCode response = 429
  /\ RateLimit.message response
     = ("Rate limit exceeded. Try again in "
        ++ toString (of_Z (round_div ttl 1000)) ++ " seconds.")%string
  /\ 0 <= round_div ttl 1000 <= 60.
Proof.
  intros Httl response. subst response. unfold RateLimit.timeWindow in Httl.
  assert (Hs : Math_round (of_Z ttl / 1000)%float = of_Z (round_div ttl 1000)).
  { apply FloatAxioms.Leibniz.eqb_spec. change (seconds_b ttl = true).
    apply (forall_blocks_spec _ 301 ttl seconds_checked).
    change (Z.of_nat 301) with 301. lia. }
  unfold RateLimit.errorResponseBuilder.
  cbn [RateLimit.statusCode RateLimit.message]. rewrite Hs.
  split; [reflexivity|]. split; [reflexivity|].
  unfold round_div. split.
  - apply Z.div_pos; lia.
  - apply Z.lt_succ_r. apply Z.div_lt_upper_bound; lia.
Qed.

Lemma rate_limit_announces_rounded_seconds_witness :
  let response :=
    RateLimit.errorResponseBuilder (fun _ => "?") (of_Z 1500) in
  RateLimit.statusCode response = 429
  /\ RateLimit.message response
     = ("Rate limit exceeded. Try again in "
        ++ (fun _ : float => "?") (of_Z (round_div 1500 1000))
        ++ " seconds.")%string
  /\ 0 <= round_div 1500 1000 <= 60.
Proof.
  apply (rate_limit_announces_rounded_seconds (fun _ => "?") 1500).
  unfold RateLimit.timeWindow. lia.
Defined.

End RoundingProps.
